(** * SmartPark-Admin: a shallow embedding of the dashboard's client logic

  The development follows the TypeScript sources:
  - [utils/auth.ts] (two revisions live in the repository), the Auth Store
    and the authenticated request helper;
  - [middleware.ts], the edge route guard and its matcher;
  - [app/login/page.tsx], the login handler;
  - [components/ParkingHistory.tsx], [components/ActiveParking.tsx] and
    [components/UsersManagement.tsx], the three list views and the RFID
    modal;
  - [app/dashboard/page.tsx], the page-level guard.

  Event handlers are written in a small state-and-exception monad so that
  [try]/[catch]/[finally] read as in the source.  What a handler does to
  the outside world (requests, navigation, console, callbacks, React state
  setters) is recorded in a trace.  One run of a handler is followed from
  its first statement to its last: an [await] is sequencing, and what the
  network, the storage and the platform's JSON and date functions answer
  is a parameter of the run. *)

From Stdlib Require Import ZArith String Ascii List Bool Lia.
From stdpp Require Import base option gmap strings pretty.

Set Warnings "-register-all".

Local Open Scope string_scope.
Local Open Scope Z_scope.
Local Open Scope list_scope.

(* ===================================================================== *)
(** ** JavaScript values and string primitives *)
(* ===================================================================== *)

Module JS.

(** What a [throw] raises or a promise rejects with.  The handlers only
    ever ask [err instanceof Error] and read [err.message]. *)
Inductive thrown : Type :=
| ErrorObj (message : string)
| NonError.

(** [err instanceof Error ? err.message : fallback] *)
Definition message_or (fallback : string) (err : thrown) : string :=
  match err with
  | ErrorObj m => m
  | NonError => fallback
  end.

(** Truthiness of a string: only [''] is falsy. *)
Definition truthy (s : string) : bool := negb (String.eqb s "").

(** Truthiness of a [string | null] (or [string | undefined]). *)
Definition truthy_opt (o : option string) : bool :=
  match o with
  | Some s => truthy s
  | None => false
  end.

(** [a || b] on strings. *)
Definition or_else (a b : string) : string := if truthy a then a else b.

(** A string is the sequence of bytes of its UTF-8 encoding, which is what
    a string literal of this file holds.  On well-formed strings
    [startsWith], [includes], [===] and [replace] give the same answers on
    these bytes as on the UTF-16 code units the platform works with.

    [String.prototype.toLowerCase] and [String.prototype.trim] follow the
    Unicode tables of the platform (case mappings, the white-space class);
    the code that calls them takes them as parameters, named [toLowerCase]
    and [trim], and the statements about it hold for any such function. *)

(** [s.startsWith(p)] *)
Fixpoint startsWith (s p : string) : bool :=
  match p, s with
  | EmptyString, _ => true
  | String _ _, EmptyString => false
  | String b p', String a s' => Ascii.eqb a b && startsWith s' p'
  end.

(** [s.includes(sub)] *)
Fixpoint includes (s sub : string) : bool :=
  startsWith s sub ||
  match s with
  | EmptyString => false
  | String _ r => includes r sub
  end.

(** The last character of a string, when it has one. *)
Fixpoint last_char (s : string) : option ascii :=
  match s with
  | EmptyString => None
  | String c EmptyString => Some c
  | String _ r => last_char r
  end.

(** [s.replace(pat, by)] with a string pattern: the first occurrence. *)
Fixpoint drop (n : nat) (s : string) : string :=
  match n, s with
  | O, _ => s
  | S n', String _ r => drop n' r
  | S _, EmptyString => EmptyString
  end.

Fixpoint replace (s pat by_ : string) : string :=
  if startsWith s pat then String.append by_ (drop (String.length pat) s)
  else match s with
       | EmptyString => EmptyString
       | String c r => String c (replace r pat by_)
       end.

(** JSON values, as [JSON.parse] produces them. *)
Inductive json : Type :=
| JNull
| JBool (b : bool)
| JNum (n : Z)
| JStr (s : string)
| JArr (items : list json)
| JObj (fields : list (string * json)).

(** Truthiness of a parsed value. *)
Definition truthy_json (v : json) : bool :=
  match v with
  | JNull => false
  | JBool b => b
  | JNum n => negb (n =? 0)
  | JStr s => truthy s
  | JArr _ | JObj _ => true
  end.

Fixpoint assoc (k : string) (l : list (string * json)) : option json :=
  match l with
  | nil => None
  | (k', v) :: r => if String.eqb k k' then Some v else assoc k r
  end.

(** Property read [v.k] on a non-nullish value; [None] is [undefined].
    In an object literal with a repeated key the last one wins. *)
Definition prop (v : json) (k : string) : option json :=
  match v with
  | JObj fields => assoc k (rev fields)
  | _ => None
  end.

(** [v === s] for a string literal [s], where [v] may be [undefined]. *)
Definition strict_eq_str (v : option json) (s : string) : bool :=
  match v with
  | Some (JStr t) => String.eqb t s
  | _ => false
  end.

End JS.

Import JS.

(* ===================================================================== *)
(** ** Completions and the handler monad *)
(* ===================================================================== *)

Inductive completion (A : Type) : Type :=
| Normal (a : A)
| Throw (e : thrown).
Arguments Normal {A} a.
Arguments Throw {A} e.

(** A computation over a world [W]: it may change the world and either
  completes normally or throws. *)
Definition M (W A : Type) : Type := W -> completion A * W.

Section Monad.
Context {W : Type}.

Definition ret {A} (a : A) : M W A := fun w => (Normal a, w).

Definition bind {A B} (c : M W A) (k : A -> M W B) : M W B :=
  fun w =>
    match c w with
    | (Normal a, w') => k a w'
    | (Throw e, w') => (Throw e, w')
    end.

Definition throw {A} (e : thrown) : M W A := fun w => (Throw e, w).

Definition get : M W W := fun w => (Normal w, w).

Definition modify (f : W -> W) : M W unit := fun w => (Normal tt, f w).

(** [try { body } catch (err) { handler err }] *)
Definition try_catch {A} (body : M W A) (handler : thrown -> M W A) : M W A :=
  fun w =>
    match body w with
    | (Normal a, w') => (Normal a, w')
    | (Throw e, w') => handler e w'
    end.

(** [try { body } finally { fin }]: [fin] always runs; when [fin] itself
    throws, that exception replaces the completion of [body]. *)
Definition try_finally {A} (body : M W A) (fin : M W unit) : M W A :=
  fun w =>
    let '(r, w1) := body w in
    match fin w1 with
    | (Normal _, w2) => (r, w2)
    | (Throw e, w2) => (Throw e, w2)
    end.

(** [try { body } catch (err) { handler err } finally { fin }] *)
Definition try_catch_finally {A} (body : M W A) (handler : thrown -> M W A)
    (fin : M W unit) : M W A :=
  try_finally (try_catch body handler) fin.

End Monad.

(** The monad is used through stdpp's [x ← c; k] and [c;; k] notations. *)
#[export] Instance M_ret {W} : MRet (M W) := @ret W.
#[export] Instance M_bind {W} : MBind (M W) := fun A B k c => @bind W A B c k.

Definition exec {W A} (c : M W A) (w : W) : W := snd (c w).
Definition outcome {W A} (c : M W A) (w : W) : completion A := fst (c w).

(* ===================================================================== *)
(** ** The world a handler runs in *)
(* ===================================================================== *)

(** Header objects are JavaScript objects used as maps. *)
Abbreviation Headers := (gmap string string).

(** [HeadersInit]: what the [headers] member of a [RequestInit] may hold,
    a plain object, a [Headers] instance or an array of name-value pairs. *)
Inductive HeadersInit : Type :=
| HRecord (fields : Headers)
| HObject (entries : Headers)
| HPairs (pairs : list (string * string)).

(** The [RequestInit] object handed to [fetch].  A body is the object given
    to [JSON.stringify], kept as its list of fields. *)
Record RequestInit : Type := mkInit {
  ri_method : option string;
  ri_headers : option HeadersInit;
  ri_body : option (list (string * string))
}.

(** The own enumerable properties of an array of pairs, the ones an object
    spread copies: one per index, keyed by the index in decimal.  The value
    is the pair itself, which reads as the string [name,value] where a
    header value is expected. *)
Fixpoint index_properties (i : nat) (pairs : list (string * string)) : Headers :=
  match pairs with
  | [] => ∅
  | (name, value) :: rest =>
      <[pretty i := String.append name (String.append "," value)]>
        (index_properties (S i) rest)
  end.

(** [{ ...h }] for the [headers] member [h]: a spread copies own enumerable
    properties.  Those of a plain object are its entries; a [Headers]
    instance has none (its entries are reached through its methods only);
    those of an array are its indices; [undefined] adds nothing. *)
Definition spread (h : option HeadersInit) : Headers :=
  match h with
  | Some (HRecord fields) => fields
  | Some (HObject _) => ∅
  | Some (HPairs pairs) => index_properties O pairs
  | None => ∅
  end.

(** Values put in a query string: [n.toString()] or a string. *)
Inductive qval : Type :=
| QNum (n : Z)
| QStr (s : string).

(** A URL: the fixed part and the [URLSearchParams] appended to it. *)
Record Url : Type := mkUrl {
  u_base : string;
  u_query : list (string * qval)
}.

(** A [Response]: its status and what [response.json()] resolves to (or
    rejects with), for a payload of type [B]. *)
Record Response (B : Type) : Type := mkResponse {
  r_status : Z;
  r_json : completion B
}.
Arguments mkResponse {B} _ _.
Arguments r_status {B} _.
Arguments r_json {B} _.

(** [response.ok]: the status is in the range 200-299. *)
Definition r_ok {B} (r : Response B) : bool :=
  (200 <=? r_status r) && (r_status r <=? 299).

(** What the network does with a request: the promise returned by [fetch]
    rejects (network failure) or resolves to a response. *)
Inductive FetchOutcome (B : Type) : Type :=
| Rejected (e : thrown)
| Responded (r : Response B).
Arguments Rejected {B} e.
Arguments Responded {B} r.

Definition Network (B : Type) : Type := Url -> RequestInit -> FetchOutcome B.

(** The browser's persistent storage as the code can meet it. *)
Inductive Storage : Type :=
| NoWindow                          (* [typeof window === 'undefined'] *)
| Blocked (e : thrown)              (* every access to [localStorage] throws *)
| Local (items : gmap string string).

(** Observable effects; [Act] is the component's type of state-setter calls. *)
Inductive Event (Act : Type) : Type :=
| EvSet (a : Act)
| EvFetch (u : Url) (init : RequestInit)
| EvConsoleError (label : string) (e : thrown)
| EvPush (path : string)
| EvPreventDefault
| EvCallback (name : string).
Arguments EvSet {Act} a.
Arguments EvFetch {Act} u init.
Arguments EvConsoleError {Act} label e.
Arguments EvPush {Act} path.
Arguments EvPreventDefault {Act}.
Arguments EvCallback {Act} name.

Record World (St Act : Type) : Type := mkWorld {
  state : St;
  storage : Storage;
  trace : list (Event Act)
}.
Arguments mkWorld {St Act} _ _ _.
Arguments state {St Act} _.
Arguments storage {St Act} _.
Arguments trace {St Act} _.

Section Effects.
Context {St Act : Type}.
Local Abbreviation W := (World St Act).

Definition emit (ev : Event Act) : M W unit :=
  modify (fun w => mkWorld (state w) (storage w) (trace w ++ [ev])).

(** A React state setter: the reducer [step] says what the call does to the
    component state; the call itself is traced. *)
Definition dispatch (step : Act -> St -> St) (a : Act) : M W unit :=
  modify (fun w => mkWorld (step a (state w)) (storage w) (trace w ++ [EvSet a])).

Definition read_state : M W St := w ← get; mret (state w).

Definition console_error (label : string) (e : thrown) : M W unit :=
  emit (EvConsoleError label e).

Definition router_push (path : string) : M W unit := emit (EvPush path).

(** [typeof window === 'undefined'] *)
Definition window_undefined : M W bool :=
  w ← get;
  mret (match storage w with NoWindow => true | _ => false end).

(** [localStorage.getItem(k)] *)
Definition localStorage_getItem (k : string) : M W (option string) :=
  w ← get;
  match storage w with
  | NoWindow => throw (ErrorObj "localStorage is not defined")
  | Blocked e => throw e
  | Local items => mret (items !! k)
  end.

(** [localStorage.setItem(k, v)] *)
Definition localStorage_setItem (k v : string) : M W unit :=
  w ← get;
  match storage w with
  | NoWindow => throw (ErrorObj "localStorage is not defined")
  | Blocked e => throw e
  | Local items => modify (fun w => mkWorld (state w) (Local (<[k := v]> items)) (trace w))
  end.

(** [localStorage.removeItem(k)] *)
Definition localStorage_removeItem (k : string) : M W unit :=
  w ← get;
  match storage w with
  | NoWindow => throw (ErrorObj "localStorage is not defined")
  | Blocked e => throw e
  | Local items => modify (fun w => mkWorld (state w) (Local (delete k items)) (trace w))
  end.

(** [await fetch(url, init)]: the request goes out, then the promise
    settles as the network decides. *)
Definition fetch {B} (net : Network B) (u : Url) (init : RequestInit) : M W (Response B) :=
  emit (EvFetch u init);;
  match net u init with
  | Rejected e => throw e
  | Responded r => mret r
  end.

(** [await response.json()] *)
Definition response_json {B} (r : Response B) : M W B :=
  match r_json r with
  | Normal b => mret b
  | Throw e => throw e
  end.

End Effects.

(** The requests a trace contains. *)
Definition is_fetch {Act} (ev : Event Act) : bool :=
  match ev with EvFetch _ _ => true | _ => false end.

Definition requests {Act} (t : list (Event Act)) : list (Event Act) :=
  List.filter is_fetch t.

(* ===================================================================== *)
(** ** utils/auth.ts, first revision: storage is read unguarded *)
(* ===================================================================== *)

Module AuthPlain.
Section Auth.
Context {St Act : Type}.
Variable JSON_parse : string -> completion json.
Local Abbreviation W := (World St Act).

Definition getStoredToken : M W (option string) :=
  ssr ← window_undefined;
  if ssr : bool then mret None
  else localStorage_getItem "token".

Definition getStoredUser : M W json :=
  ssr ← window_undefined;
  if ssr : bool then mret JNull
  else
    userStr ← localStorage_getItem "user";
    match userStr with
    | Some str =>
        if truthy str then
          match JSON_parse str with
          | Normal v => mret v
          | Throw e => throw e
          end
        else mret JNull
    | None => mret JNull
    end.

Definition removeStoredAuth : M W unit :=
  ssr ← window_undefined;
  if ssr : bool then mret tt
  else localStorage_removeItem "token";; localStorage_removeItem "user".

(** [!!(token && user && user.role === 'admin')] *)
Definition isAuthenticated : M W bool :=
  token ← getStoredToken;
  user ← getStoredUser;
  mret (truthy_opt token && truthy_json user &&
        strict_eq_str (prop user "role") "admin").

Definition redirectIfNotAuthenticated : M W bool :=
  ok ← isAuthenticated;
  if negb ok then router_push "/login";; mret false
  else mret true.

(** [{ 'Content-Type': 'application/json',
       ...(token && { Authorization: `Bearer ${token}` }),
       ...options.headers }]: in a spread the later entries win, and
    spreading [null], [''] or [undefined] adds nothing. *)
Definition authenticatedFetch {B} (net : Network B) (url : Url)
    (options : RequestInit) : M W (Response B) :=
  token ← getStoredToken;
  let bearer : Headers :=
    match token with
    | Some t => if truthy t then {[ "Authorization" := String.append "Bearer " t ]} else ∅
    | None => ∅
    end in
  let headers : Headers :=
    spread (ri_headers options) ∪ bearer ∪ {[ "Content-Type" := "application/json" ]} in
  fetch net url (mkInit (ri_method options) (Some (HRecord headers)) (ri_body options)).

End Auth.
End AuthPlain.

(* ===================================================================== *)
(** ** utils/auth.ts, second revision: storage reads wrapped in try/catch *)
(* ===================================================================== *)

Module AuthGuarded.
Section Auth.
Context {St Act : Type}.
Variable JSON_parse : string -> completion json.
Local Abbreviation W := (World St Act).

Definition getStoredToken : M W (option string) :=
  ssr ← window_undefined;
  if ssr : bool then mret None
  else
    try_catch (localStorage_getItem "token")
      (fun error =>
         console_error "Error accessing localStorage for token:" error;;
         mret None).

Definition getStoredUser : M W json :=
  ssr ← window_undefined;
  if ssr : bool then mret JNull
  else
    try_catch
      (userStr ← localStorage_getItem "user";
       match userStr with
       | Some str =>
           if truthy str then
             match JSON_parse str with
             | Normal v => mret v
             | Throw e => throw e
             end
           else mret JNull
       | None => mret JNull
       end)
      (fun error =>
         console_error "Error accessing localStorage for user:" error;;
         mret JNull).

Definition removeStoredAuth : M W unit :=
  ssr ← window_undefined;
  if ssr : bool then mret tt
  else
    try_catch
      (localStorage_removeItem "token";; localStorage_removeItem "user")
      (fun error => console_error "Error removing stored auth:" error).

Definition isAuthenticated : M W bool :=
  try_catch
    (token ← getStoredToken;
     user ← getStoredUser;
     mret (truthy_opt token && truthy_json user &&
           strict_eq_str (prop user "role") "admin"))
    (fun error =>
       console_error "Error checking authentication:" error;;
       mret false).

Definition redirectIfNotAuthenticated : M W bool :=
  ok ← isAuthenticated;
  if negb ok then router_push "/login";; mret false
  else mret true.

Definition authenticatedFetch {B} (net : Network B) (url : Url)
    (options : RequestInit) : M W (Response B) :=
  token ← getStoredToken;
  let bearer : Headers :=
    match token with
    | Some t => if truthy t then {[ "Authorization" := String.append "Bearer " t ]} else ∅
    | None => ∅
    end in
  let headers : Headers :=
    spread (ri_headers options) ∪ bearer ∪ {[ "Content-Type" := "application/json" ]} in
  fetch net url (mkInit (ri_method options) (Some (HRecord headers)) (ri_body options)).

End Auth.
End AuthGuarded.

(* ===================================================================== *)
(** ** middleware.ts: the edge route guard *)
(* ===================================================================== *)

Module Middleware.

(** The parts of a [NextRequest] the guard reads.  [rq_headers] holds the
    header fields as they were received, keyed by lower-cased header name,
    as a [Headers] object is. *)
Record NextRequest : Type := mkRequest {
  pathname : string;
  cookies : gmap string string;
  rq_headers : gmap string string
}.

(** [request.cookies.get(name)?.value] *)
Definition cookie_value (request : NextRequest) (name : string) : option string :=
  cookies request !! name.

(** A [Headers] object (the platform's, not code of this repository) looks
    names up byte-lower-cased, that is with the letters A-Z lowered ... *)
Definition lower_byte (c : ascii) : ascii :=
  let n := nat_of_ascii c in
  if (Nat.leb 65 n && Nat.leb n 90)%bool then ascii_of_nat (n + 32) else c.

Fixpoint byte_lowercase (s : string) : string :=
  match s with
  | EmptyString => EmptyString
  | String c r => String (lower_byte c) (byte_lowercase r)
  end.

(** ... and holds normalised values: without leading or trailing HTTP
    white space (TAB, LF, CR, SPACE). *)
Definition http_whitespace (c : ascii) : bool :=
  let n := nat_of_ascii c in
  (Nat.eqb n 9 || Nat.eqb n 10 || Nat.eqb n 13 || Nat.eqb n 32)%bool.

Fixpoint strip_leading (s : string) : string :=
  match s with
  | String c r => if http_whitespace c then strip_leading r else s
  | EmptyString => EmptyString
  end.

(** A byte is dropped at the end when it is white space and everything
    after it was dropped too. *)
Fixpoint strip_trailing (s : string) : string :=
  match s with
  | EmptyString => EmptyString
  | String c r =>
      match strip_trailing r with
      | EmptyString => if http_whitespace c then EmptyString else String c EmptyString
      | r' => String c r'
      end
  end.

Definition normalize (value : string) : string := strip_trailing (strip_leading value).

(** [request.headers.get(name)] *)
Definition headers_get (request : NextRequest) (name : string) : option string :=
  option_map normalize (rq_headers request !! byte_lowercase name).

(** Same-origin targets: [new URL(path, request.url)]. *)
Inductive NextResponse : Type :=
| Redirect (path : string)
| Next.

Definition protectedPaths : list string := ["/dashboard"].

Definition isProtectedPath (request : NextRequest) : bool :=
  existsb (fun path => startsWith (pathname request) path) protectedPaths.

(** [a || b] where both sides may be [undefined]. *)
Definition or_undefined (a b : option string) : option string :=
  if truthy_opt a then a else b.

Definition middleware (request : NextRequest) : NextResponse :=
  let guard :=
    if isProtectedPath request then
      let token :=
        or_undefined (cookie_value request "token")
          (option_map (fun h => replace h "Bearer " "") (headers_get request "Authorization")) in
      if negb (truthy_opt token) then Some (Redirect "/login") else None
    else None in
  match guard with
  | Some response => response
  | None =>
      if String.eqb (pathname request) "/login" then
        let token := cookie_value request "token" in
        if truthy_opt token then Redirect "/dashboard" else Next
      else Next
  end.

(** [config.matcher] *)
Definition matcher : list string := ["/admin/:path*"; "/login"].

(** The framework's dispatch (Next.js, not code of this repository): the
    exported [middleware] runs only on requests whose path matches one of
    the [config.matcher] patterns; every other request goes on untouched.
    A pattern [base/:path*] matches [base] and everything below it, any
    other pattern used here matches exactly. *)
Fixpoint wildcard_base (pattern : string) : option string :=
  if String.eqb pattern "/:path*" then Some EmptyString
  else match pattern with
       | EmptyString => None
       | String c r => option_map (String c) (wildcard_base r)
       end.

Definition matches (pattern path : string) : bool :=
  match wildcard_base pattern with
  | Some base => String.eqb path base || startsWith path (String.append base "/")
  | None => String.eqb path pattern
  end.

Definition edge (request : NextRequest) : NextResponse :=
  if existsb (fun pattern => matches pattern (pathname request)) matcher
  then middleware request
  else Next.

End Middleware.

(* ===================================================================== *)
(** ** Shapes the three list views repeat verbatim *)
(* ===================================================================== *)

(** [{ method: 'GET', headers: { 'Authorization': `Bearer ${auth}`,
      'Content-Type': 'application/json' } }] *)
Definition bearer_init (auth : string) : RequestInit :=
  mkInit (Some "GET")
    (Some (HRecord (<["Authorization" := String.append "Bearer " auth]>
                      {[ "Content-Type" := "application/json" ]})))
    None.

(** The error thrown on a response that is not [ok]. *)
Definition http_error (code : Z) : thrown :=
  if code =? 401 then ErrorObj "Authentication failed. Please login again."
  else if code =? 403 then ErrorObj "Access denied. Admin privileges required."
  else ErrorObj (String.append "HTTP error! status: " (pretty code)).


(* ===================================================================== *)
(** ** components/ParkingHistory.tsx *)
(* ===================================================================== *)

Module ParkingHistory.

Record ParkingHistoryRecord : Type := mkRecord {
  parkID : string;
  userID : string;
  vehicle_plate : string;
  in_date : string;
  out_date : string;
  payment_status : string;
  total_billing : Z;
  user_name : string;
  user_email : string;
  vehicle_description : string
}.

Record PaginationInfo : Type := mkPagination {
  total : Z;
  page : Z;
  limit : Z;
  pages : Z
}.

Record ApiResponse : Type := mkApiResponse {
  status : string;
  data : list ParkingHistoryRecord;
  resp_pagination : PaginationInfo
}.

Inductive SortOrder : Type := asc | desc.

Definition SortOrder_str (o : SortOrder) : string :=
  match o with asc => "asc" | desc => "desc" end.

(** The component's [useState] cells. *)
Record State : Type := mkState {
  historyRecords : list ParkingHistoryRecord;
  pagination : PaginationInfo;
  isLoading : bool;
  error : option string;
  searchTerm : string;
  selectedPaymentStatus : string;
  startDate : string;
  endDate : string;
  sortBy : string;
  sortOrder : SortOrder
}.

Definition initial : State :=
  mkState [] (mkPagination 0 1 20 1) true None "" "all" "" "" "in_date" desc.

(** State-setter calls.  [SetPage n] is [setPagination(prev => ({ ...prev,
    page: n }))]. *)
Inductive Action : Type :=
| SetHistoryRecords (l : list ParkingHistoryRecord)
| SetPagination (p : PaginationInfo)
| SetPage (n : Z)
| SetIsLoading (b : bool)
| SetError (e : option string)
| SetSearchTerm (s : string)
| SetSelectedPaymentStatus (s : string)
| SetStartDate (s : string)
| SetEndDate (s : string)
| SetSortBy (s : string)
| SetSortOrder (o : SortOrder).

Definition step (a : Action) (s : State) : State :=
  match s with
  | mkState recs pg ld er st ps sd ed sb so =>
      match a with
      | SetHistoryRecords l => mkState l pg ld er st ps sd ed sb so
      | SetPagination p => mkState recs p ld er st ps sd ed sb so
      | SetPage n =>
          mkState recs (mkPagination (total pg) n (limit pg) (pages pg)) ld er st ps sd ed sb so
      | SetIsLoading b => mkState recs pg b er st ps sd ed sb so
      | SetError e => mkState recs pg ld e st ps sd ed sb so
      | SetSearchTerm x => mkState recs pg ld er x ps sd ed sb so
      | SetSelectedPaymentStatus x => mkState recs pg ld er st x sd ed sb so
      | SetStartDate x => mkState recs pg ld er st ps x ed sb so
      | SetEndDate x => mkState recs pg ld er st ps sd x sb so
      | SetSortBy x => mkState recs pg ld er st ps sd ed x so
      | SetSortOrder o => mkState recs pg ld er st ps sd ed sb o
      end
  end.

Abbreviation W := (World State Action).

Definition history_url : string :=
  "https://smartpark-backend.vercel.app/api/parking/admin/history".

Section Component.
(** [import { getStoredToken } from '../utils/auth'] *)
Variable getStoredToken : M W (option string).
(** [new Date(s).toISOString()], which throws on an invalid date. *)
Variable toISOString : string -> completion string.
Variable net : Network ApiResponse.

Definition iso (s : string) : M W string :=
  match toISOString s with
  | Normal d => mret d
  | Throw e => throw e
  end.

(** The [URLSearchParams] built from the filters and the pagination. *)
Definition build_params (s : State) : M W (list (string * qval)) :=
  let params :=
    [("limit", QNum (limit (pagination s)));
     ("page", QNum (page (pagination s)));
     ("sortBy", QStr (sortBy s));
     ("sortOrder", QStr (SortOrder_str (sortOrder s)))] in
  let params :=
    if negb (String.eqb (selectedPaymentStatus s) "all")
    then (params ++ [("status", QStr (selectedPaymentStatus s))])%list else params in
  params ←
    (if truthy (startDate s)
     then d ← iso (startDate s); mret (params ++ [("startDate", QStr d)])%list
     else mret params);
  if truthy (endDate s)
  then d ← iso (endDate s); mret (params ++ [("endDate", QStr d)])%list
  else mret params.

Definition fetchParkingHistory : M W unit :=
  try_catch_finally
    (dispatch step (SetIsLoading true);;
     dispatch step (SetError None);;
     auth ← getStoredToken;
     match auth with
     | Some auth =>
         if truthy auth then
           s ← read_state;
           params ← build_params s;
           response ← fetch net (mkUrl history_url params) (bearer_init auth);
           if negb (r_ok response) then throw (http_error (r_status response))
           else
             result ← response_json response;
             if String.eqb (status result) "success" then
               dispatch step (SetHistoryRecords (data result));;
               dispatch step (SetPagination (resp_pagination result))
             else throw (ErrorObj "Failed to fetch parking history")
         else throw (ErrorObj "No authentication token found")
     | None => throw (ErrorObj "No authentication token found")
     end)
    (fun err =>
       console_error "Error fetching parking history:" err;;
       dispatch step
         (SetError (Some (message_or "An error occurred while fetching parking history" err))))
    (dispatch step (SetIsLoading false)).

(** The derived list shown in the table; [toLowerCase] is the platform's
    [String.prototype.toLowerCase]. *)
Definition filteredRecords (toLowerCase : string -> string) (s : State) :
    list ParkingHistoryRecord :=
  List.filter
    (fun record =>
       if negb (truthy (searchTerm s)) then true
       else
         includes (toLowerCase (vehicle_plate record)) (toLowerCase (searchTerm s)) ||
         includes (toLowerCase (vehicle_description record)) (toLowerCase (searchTerm s)) ||
         includes (toLowerCase (user_name record)) (toLowerCase (searchTerm s)) ||
         includes (toLowerCase (user_email record)) (toLowerCase (searchTerm s)))
    (historyRecords s).


Definition handleApplyFilters : M W unit :=
  dispatch step (SetPage 1).

Definition clearFilters : M W unit :=
  dispatch step (SetSearchTerm "");;
  dispatch step (SetSelectedPaymentStatus "all");;
  dispatch step (SetStartDate "");;
  dispatch step (SetEndDate "");;
  dispatch step (SetSortBy "in_date");;
  dispatch step (SetSortOrder desc);;
  dispatch step (SetPage 1).

(** The dependency list of the [useCallback] that holds
    [fetchParkingHistory]. *)
Definition fetch_deps (s : State) : Z * Z * string * string * string * string * string :=
  (page (pagination s), limit (pagination s), selectedPaymentStatus s,
   startDate s, endDate s, sortBy s, SortOrder_str (sortOrder s)).

(** React's part (not code of this repository): after an event handler has
    run, the component renders again; [useCallback] hands out a new
    [fetchParkingHistory] exactly when one of its dependencies changed, and
    [useEffect(() => { fetchParkingHistory() }, [fetchParkingHistory])]
    then runs the fetch; with unchanged dependencies the effect is
    skipped. *)
Definition on_event (handler : M W unit) : M W unit :=
  before ← read_state;
  handler;;
  after ← read_state;
  if bool_decide (fetch_deps before = fetch_deps after) then mret tt
  else fetchParkingHistory.

End Component.

(** *** What the table and the pagination footer compute while rendering *)

(** [new Date(d).getTime()] differences are whole milliseconds.
    [Math.floor(diff / (1000 * 60 * 60))] is the floor quotient, [%] the
    remainder that takes the sign of the dividend. *)
Definition duration_hours (diff : Z) : Z := diff / (1000 * 60 * 60).

Definition duration_minutes (diff : Z) : Z :=
  Z.rem diff (1000 * 60 * 60) / (1000 * 60).

(** [calculateDuration]; [getTime] is [new Date(s).getTime()], with [None]
    for the [NaN] of an invalid date. *)
Definition calculateDuration (getTime : string -> option Z) (inDate outDate : string) : string :=
  match getTime inDate, getTime outDate with
  | Some start, Some end_ =>
      let diff := end_ - start in
      String.append (pretty (duration_hours diff))
        (String.append "h " (String.append (pretty (duration_minutes diff)) "m"))
  | _, _ => "NaNh NaNm"
  end.

(** The three cards above the table. *)
Definition paidCount (s : State) : nat :=
  length (List.filter (fun r => String.eqb (payment_status r) "paid") (historyRecords s)).

Definition pendingCount (s : State) : nat :=
  length (List.filter (fun r => String.eqb (payment_status r) "pending") (historyRecords s)).

Definition totalRevenue (s : State) : Z :=
  fold_left (fun acc record => acc + total_billing record) (historyRecords s) 0.

(** What the component returns: the spinner while [isLoading], the error
    screen with its Retry button while [error] is truthy, the table
    otherwise. *)
Inductive Screen : Type := Spinner | ErrorScreen | Table.

Definition screen (s : State) : Screen :=
  if isLoading s then Spinner
  else if truthy_opt (error s) then ErrorScreen
  else Table.

(** [pagination.pages > 1 && ...], under the table. *)
Definition footer_shown (p : PaginationInfo) : bool := 1 <? pages p.

(** The footer is on the page when the table is and [pagination.pages > 1]. *)
Definition footer_rendered (s : State) : bool :=
  match screen s with
  | Table => footer_shown (pagination s)
  | Spinner | ErrorScreen => false
  end.

(** [((pagination.page - 1) * pagination.limit) + 1] *)
Definition showing_from (p : PaginationInfo) : Z := (page p - 1) * limit p + 1.

(** [Math.min(pagination.page * pagination.limit, pagination.total)] *)
Definition showing_to (p : PaginationInfo) : Z := Z.min (page p * limit p) (total p).

(** [Math.max(1, Math.min(pagination.page - 2, pagination.pages - 4)) + i] *)
Definition pageNum (p : PaginationInfo) (i : Z) : Z :=
  Z.max 1 (Z.min (page p - 2) (pages p - 4)) + i.

(** [Array.from({ length: Math.min(5, pagination.pages) }, (_, i) => ...)]:
    the numbers on the page buttons, left to right. *)
Definition page_buttons (p : PaginationInfo) : list Z :=
  List.map (fun i => pageNum p (Z.of_nat i)) (seq 0 (Z.to_nat (Z.min 5 (pages p)))).

(** The page buttons on the page. *)
Definition rendered_page_buttons (s : State) : list Z :=
  if footer_rendered s then page_buttons (pagination s) else [].




End ParkingHistory.

(* ===================================================================== *)
(** ** components/ActiveParking.tsx *)
(* ===================================================================== *)

Module ActiveParking.

Record ActiveParkingSession : Type := mkSession {
  parkID : string;
  userID : string;
  vehicle_plate : string;
  in_date : string;
  out_date : option string;
  payment_status : string;
  total_billing : Z;
  vehicle_description : string
}.

Record ApiResponse : Type := mkApiResponse {
  status : string;
  data : list ActiveParkingSession
}.

Record State : Type := mkState {
  activeSessions : list ActiveParkingSession;
  isLoading : bool;
  error : option string;
  searchTerm : string;
  selectedPaymentStatus : string
}.

Definition initial : State := mkState [] true None "" "all".

Inductive Action : Type :=
| SetActiveSessions (l : list ActiveParkingSession)
| SetIsLoading (b : bool)
| SetError (e : option string)
| SetSearchTerm (s : string)
| SetSelectedPaymentStatus (s : string).

Definition step (a : Action) (s : State) : State :=
  match s with
  | mkState ses ld er st ps =>
      match a with
      | SetActiveSessions l => mkState l ld er st ps
      | SetIsLoading b => mkState ses b er st ps
      | SetError e => mkState ses ld e st ps
      | SetSearchTerm x => mkState ses ld er x ps
      | SetSelectedPaymentStatus x => mkState ses ld er st x
      end
  end.

Abbreviation W := (World State Action).

Definition active_url : string :=
  "https://smartpark-backend.vercel.app/api/parking/admin/active".

Section Component.
Variable getStoredToken : M W (option string).
Variable net : Network ApiResponse.

Definition fetchActiveParkingSessions : M W unit :=
  try_catch_finally
    (dispatch step (SetError None);;
     auth ← getStoredToken;
     match auth with
     | Some auth =>
         if truthy auth then
           response ← fetch net (mkUrl active_url []) (bearer_init auth);
           if negb (r_ok response) then throw (http_error (r_status response))
           else
             result ← response_json response;
             if String.eqb (status result) "success" then
               dispatch step (SetActiveSessions (data result))
             else throw (ErrorObj "Failed to fetch active parking sessions")
         else throw (ErrorObj "No authentication token found")
     | None => throw (ErrorObj "No authentication token found")
     end)
    (fun err =>
       console_error "Error fetching active parking sessions:" err;;
       dispatch step
         (SetError (Some (message_or "An error occurred while fetching active parking sessions" err))))
    (dispatch step (SetIsLoading false)).

End Component.

(** [toLowerCase] is the platform's [String.prototype.toLowerCase]. *)
Definition matchesSearch (toLowerCase : string -> string) (s : State)
    (session : ActiveParkingSession) : bool :=
  includes (toLowerCase (vehicle_plate session)) (toLowerCase (searchTerm s)) ||
  includes (toLowerCase (vehicle_description session)) (toLowerCase (searchTerm s)) ||
  includes (toLowerCase (userID session)) (toLowerCase (searchTerm s)).

Definition matchesPaymentStatus (s : State) (session : ActiveParkingSession) : bool :=
  String.eqb (selectedPaymentStatus s) "all" ||
  String.eqb (payment_status session) (selectedPaymentStatus s).

Definition filteredSessions (toLowerCase : string -> string) (s : State) :
    list ActiveParkingSession :=
  List.filter
    (fun session => matchesSearch toLowerCase s session && matchesPaymentStatus s session)
    (activeSessions s).


(** [calculateDuration(inDate)], measured against [now = new Date().getTime()]. *)
Definition calculateDuration (getTime : string -> option Z) (now : Z) (inDate : string) : string :=
  match getTime inDate with
  | Some parkingStart =>
      let diff := now - parkingStart in
      String.append (pretty (ParkingHistory.duration_hours diff))
        (String.append "h " (String.append (pretty (ParkingHistory.duration_minutes diff)) "m"))
  | None => "NaNh NaNm"
  end.

Definition pendingCount (s : State) : nat :=
  length (List.filter (fun x => String.eqb (payment_status x) "pending") (activeSessions s)).

End ActiveParking.

(* ===================================================================== *)
(** ** components/UsersManagement.tsx *)
(* ===================================================================== *)

Module UsersManagement.

Record Vehicle : Type := mkVehicle {
  plate : string;
  description : string
}.

Record User : Type := mkUser {
  userID : string;
  username : string;
  email : string;
  vehicles : list Vehicle;
  role : string;
  rfid : option string
}.

Record ApiResponse : Type := mkApiResponse {
  status : string;
  data : list User
}.

Inductive Mode : Type := add | edit.

Record RfidModalState : Type := mkRfidModal {
  isOpen : bool;
  modal_user : option User;
  mode : Mode
}.

Record State : Type := mkState {
  users : list User;
  isLoading : bool;
  error : option string;
  searchTerm : string;
  selectedRole : string;
  rfidModal : RfidModalState
}.

Definition initial : State := mkState [] true None "" "all" (mkRfidModal false None add).

Inductive Action : Type :=
| SetUsers (l : list User)
| SetIsLoading (b : bool)
| SetError (e : option string)
| SetSearchTerm (s : string)
| SetSelectedRole (s : string)
| SetRfidModal (m : RfidModalState).

Definition step (a : Action) (s : State) : State :=
  match s with
  | mkState us ld er st sr rm =>
      match a with
      | SetUsers l => mkState l ld er st sr rm
      | SetIsLoading b => mkState us b er st sr rm
      | SetError e => mkState us ld e st sr rm
      | SetSearchTerm x => mkState us ld er x sr rm
      | SetSelectedRole x => mkState us ld er st x rm
      | SetRfidModal m => mkState us ld er st sr m
      end
  end.

Abbreviation W := (World State Action).

Definition users_url : string := "https://smartpark-backend.vercel.app/api/users/all".

Section Component.
Variable getStoredToken : M W (option string).
Variable net : Network ApiResponse.

Definition fetchUsers : M W unit :=
  try_catch_finally
    (dispatch step (SetError None);;
     auth ← getStoredToken;
     match auth with
     | Some auth =>
         if truthy auth then
           response ← fetch net (mkUrl users_url []) (bearer_init auth);
           if negb (r_ok response) then throw (http_error (r_status response))
           else
             result ← response_json response;
             if String.eqb (status result) "success" then
               dispatch step (SetUsers (data result))
             else throw (ErrorObj "Failed to fetch users data")
         else throw (ErrorObj "No authentication token found")
     | None => throw (ErrorObj "No authentication token found")
     end)
    (fun err =>
       console_error "Error fetching users:" err;;
       dispatch step (SetError (Some (message_or "An error occurred while fetching users" err))))
    (dispatch step (SetIsLoading false)).

Definition handleRfidAction (user : User) : M W unit :=
  dispatch step
    (SetRfidModal (mkRfidModal true (Some user)
                     (if truthy_opt (rfid user) then edit else add))).

Definition handleRfidModalClose : M W unit :=
  dispatch step (SetRfidModal (mkRfidModal false None add)).

Definition handleRfidSuccess : M W unit := fetchUsers.

End Component.

(** [toLowerCase] is the platform's [String.prototype.toLowerCase]. *)
Definition filteredUsers (toLowerCase : string -> string) (s : State) : list User :=
  List.filter
    (fun user =>
       let matchesSearch :=
         includes (toLowerCase (username user)) (toLowerCase (searchTerm s)) ||
         includes (toLowerCase (email user)) (toLowerCase (searchTerm s)) ||
         existsb (fun vehicle =>
                    includes (toLowerCase (plate vehicle)) (toLowerCase (searchTerm s)) ||
                    includes (toLowerCase (description vehicle)) (toLowerCase (searchTerm s)))
           (vehicles user) in
       let matchesRole :=
         String.eqb (selectedRole s) "all" || String.eqb (role user) (selectedRole s) in
       matchesSearch && matchesRole)
    (users s).


(** The counters under the table. *)
Definition regularCount (s : State) : nat :=
  length (List.filter (fun u => String.eqb (role u) "user") (users s)).

Definition adminCount (s : State) : nat :=
  length (List.filter (fun u => String.eqb (role u) "admin") (users s)).

Definition vehicleCount (s : State) : nat :=
  fold_left (fun acc user => (acc + length (vehicles user))%nat) (users s) 0%nat.

Definition rfidCount (s : State) : nat :=
  length (List.filter (fun u => truthy_opt (rfid u)) (users s)).

End UsersManagement.

(* ===================================================================== *)
(** ** components/UsersManagement.tsx: the RFID modal *)
(* ===================================================================== *)

Module RfidModal.

Import UsersManagement.

(** The modal's props ([isOpen], [user], [mode]) and its own state cells. *)
Record State : Type := mkState {
  props : RfidModalState;
  rfidValue : string;
  isLoading : bool;
  error : option string
}.

(** [OnClose] is the parent's [handleRfidModalClose], which resets the
    props the parent passes down. *)
Inductive Action : Type :=
| SetRfidValue (s : string)
| SetIsLoading (b : bool)
| SetError (e : option string)
| OnClose.

Definition step (a : Action) (s : State) : State :=
  match s with
  | mkState pr v ld er =>
      match a with
      | SetRfidValue x => mkState pr x ld er
      | SetIsLoading b => mkState pr v b er
      | SetError e => mkState pr v ld e
      | OnClose => mkState (mkRfidModal false None add) v ld er
      end
  end.

Abbreviation W := (World State Action).

(** The body of an error answer: [errorData.message], when there is one. *)
Record ErrorData : Type := mkErrorData { message : option string }.

Definition rfid_url : string := "https://smartpark-backend.vercel.app/api/users/admin/rfid".

Section Component.
(** [String.prototype.trim], the platform's. *)
Variable trim : string -> string.
Variable getStoredToken : M W (option string).
Variable net : Network ErrorData.

Definition post_init (auth : string) (body : list (string * string)) : RequestInit :=
  mkInit (Some "POST")
    (Some (HRecord (<["Authorization" := String.append "Bearer " auth]>
                      {[ "Content-Type" := "application/json" ]})))
    (Some body).

Definition submit_error (code : Z) (errorData : ErrorData) : thrown :=
  if code =? 401 then ErrorObj "Authentication failed. Please login again."
  else if code =? 403 then ErrorObj "Access denied. Admin privileges required."
  else if code =? 404 then ErrorObj "User not found."
  else if code =? 409 then ErrorObj "RFID already assigned to another user."
  else ErrorObj (match message errorData with
                 | Some m => or_else m (String.append "HTTP error! status: " (pretty code))
                 | None => String.append "HTTP error! status: " (pretty code)
                 end).

Definition handleSubmit : M W unit :=
  emit EvPreventDefault;;
  s ← read_state;
  match modal_user (props s) with
  | None => mret tt
  | Some user =>
      if negb (truthy (trim (rfidValue s))) then mret tt
      else
        dispatch step (SetIsLoading true);;
        dispatch step (SetError None);;
        try_catch_finally
          (auth ← getStoredToken;
           match auth with
           | Some auth =>
               if truthy auth then
                 response ← fetch net (mkUrl rfid_url [])
                              (post_init auth [("userID", userID user);
                                               ("rfid", trim (rfidValue s))]);
                 if negb (r_ok response) then
                   errorData ← try_catch (response_json response)
                                 (fun _ => mret (mkErrorData None));
                   throw (submit_error (r_status response) errorData)
                 else
                   emit (EvCallback "onSuccess");;
                   dispatch step OnClose
               else throw (ErrorObj "No authentication token found")
           | None => throw (ErrorObj "No authentication token found")
           end)
          (fun err =>
             console_error "Error managing RFID:" err;;
             dispatch step
               (SetError (Some (message_or "An error occurred while managing RFID" err))))
          (dispatch step (SetIsLoading false))
  end.


(** [useEffect(() => { if (isOpen && user) { ... } }, [isOpen, user])] *)
Definition open_effect : M W unit :=
  s ← read_state;
  match modal_user (props s) with
  | Some user =>
      if isOpen (props s) then
        dispatch step (SetRfidValue (match rfid user with
                                     | Some tag => or_else tag ""
                                     | None => ""
                                     end));;
        dispatch step (SetError None)
      else mret tt
  | None => mret tt
  end.

Definition delete_init (auth : string) : RequestInit :=
  mkInit (Some "DELETE")
    (Some (HRecord (<["Authorization" := String.append "Bearer " auth]>
                      {[ "Content-Type" := "application/json" ]})))
    None.

Definition remove_error (code : Z) (errorData : ErrorData) : thrown :=
  if code =? 401 then ErrorObj "Authentication failed. Please login again."
  else if code =? 403 then ErrorObj "Access denied. Admin privileges required."
  else if code =? 404 then ErrorObj "User not found."
  else if code =? 400 then ErrorObj "User doesn't have an RFID assigned."
  else ErrorObj (match message errorData with
                 | Some m => or_else m (String.append "HTTP error! status: " (pretty code))
                 | None => String.append "HTTP error! status: " (pretty code)
                 end).

Definition handleRemoveRfid : M W unit :=
  s ← read_state;
  match modal_user (props s) with
  | None => mret tt
  | Some user =>
      dispatch step (SetIsLoading true);;
      dispatch step (SetError None);;
      try_catch_finally
        (auth ← getStoredToken;
         match auth with
         | Some auth =>
             if truthy auth then
               response ← fetch net
                            (mkUrl (String.append rfid_url (String.append "/" (userID user))) [])
                            (delete_init auth);
               if negb (r_ok response) then
                 errorData ← try_catch (response_json response)
                               (fun _ => mret (mkErrorData None));
                 throw (remove_error (r_status response) errorData)
               else
                 emit (EvCallback "onSuccess");;
                 dispatch step OnClose
             else throw (ErrorObj "No authentication token found")
         | None => throw (ErrorObj "No authentication token found")
         end)
        (fun err =>
           console_error "Error removing RFID:" err;;
           dispatch step
             (SetError (Some (message_or "An error occurred while removing RFID" err))))
        (dispatch step (SetIsLoading false))
  end.

End Component.
End RfidModal.

(* ===================================================================== *)
(** ** app/login/page.tsx *)
(* ===================================================================== *)

Module Login.

Record LoginUser : Type := mkLoginUser {
  userID : string;
  username : string;
  user_email : string;
  vehicles : list (string * string);
  role : string
}.

(** [LoginResponse | ErrorResponse] *)
Inductive LoginBody : Type :=
| LoginResponse (status : string) (user : LoginUser) (token : string)
| ErrorResponse (status : string) (message : string).

Definition body_status (d : LoginBody) : string :=
  match d with
  | LoginResponse st _ _ => st
  | ErrorResponse st _ => st
  end.

Record State : Type := mkState {
  email : string;
  password : string;
  loading : bool;
  error : string;
  roleError : string;
  showPassword : bool
}.

Definition initial : State := mkState "" "" false "" "" false.

Inductive Action : Type :=
| SetEmail (s : string)
| SetPassword (s : string)
| SetLoading (b : bool)
| SetError (s : string)
| SetRoleError (s : string)
| SetShowPassword (b : bool).

Definition step (a : Action) (s : State) : State :=
  match s with
  | mkState em pw ld er re sp =>
      match a with
      | SetEmail x => mkState x pw ld er re sp
      | SetPassword x => mkState em x ld er re sp
      | SetLoading b => mkState em pw b er re sp
      | SetError x => mkState em pw ld x re sp
      | SetRoleError x => mkState em pw ld er x sp
      | SetShowPassword b => mkState em pw ld er re b
      end
  end.

Abbreviation W := (World State Action).

Definition login_url : string := "https://smartpark-backend.vercel.app/api/users/login".

(** [{ method: 'POST', headers: { 'Content-Type': 'application/json' },
      body: JSON.stringify({ email, password }) }] *)
Definition login_init (email password : string) : RequestInit :=
  mkInit (Some "POST")
    (Some (HRecord {[ "Content-Type" := "application/json" ]}))
    (Some [("email", email); ("password", password)]).

Section Component.
Variable JSON_stringify : LoginUser -> string.
Variable net : Network LoginBody.

Definition togglePasswordVisibility : M W unit :=
  s ← read_state;
  dispatch step (SetShowPassword (negb (showPassword s))).

(** The two early [return]s are the branches that end without reaching
    the code below them; the one inside [try] still runs [finally]. *)
Definition handleSubmit : M W unit :=
  emit EvPreventDefault;;
  dispatch step (SetLoading true);;
  dispatch step (SetError "");;
  dispatch step (SetRoleError "");;
  s ← read_state;
  if negb (truthy (email s)) || negb (truthy (password s)) then
    dispatch step (SetError "Email and password are required");;
    dispatch step (SetLoading false)
  else
    try_catch_finally
      (res ← fetch net (mkUrl login_url []) (login_init (email s) (password s));
       data ← response_json res;
       if r_ok res && String.eqb (body_status data) "success" then
         match data with
         | LoginResponse _ user token =>
             if negb (String.eqb (role user) "admin") then
               dispatch step
                 (SetRoleError "Access denied. You are not authorized as admin.");;
               dispatch step (SetLoading false)
             else
               localStorage_setItem "token" token;;
               localStorage_setItem "user" (JSON_stringify user);;
               router_push "/dashboard"
         | ErrorResponse _ _ =>
             (* [loginData.data] is [undefined]: reading [.user] throws *)
             throw (ErrorObj "Cannot read properties of undefined (reading 'user')")
         end
       else
         dispatch step
           (SetError (match data with
                      | ErrorResponse _ message => or_else message "Login failed."
                      | LoginResponse _ _ _ => "Login failed."
                      end)))
      (fun _ => dispatch step (SetError "Network error. Please try again."))
      (dispatch step (SetLoading false)).

End Component.
End Login.

(* ===================================================================== *)
(** ** app/dashboard/page.tsx: the page-level guard *)
(* ===================================================================== *)

Module Dashboard.

Inductive ActiveView : Type := overview | users | active_parking | parking_history.

Record State : Type := mkState {
  user : json;
  isLoading : bool;
  activeView : ActiveView
}.

Definition initial : State := mkState JNull true overview.

Inductive Action : Type :=
| SetUser (u : json)
| SetIsLoading (b : bool)
| SetActiveView (v : ActiveView).

Definition step (a : Action) (s : State) : State :=
  match s with
  | mkState u ld v =>
      match a with
      | SetUser x => mkState x ld v
      | SetIsLoading b => mkState u b v
      | SetActiveView x => mkState u ld x
      end
  end.

Abbreviation W := (World State Action).

Section Component.
(** [import { getStoredUser, removeStoredAuth, redirectIfNotAuthenticated }
     from '../../utils/auth'] *)
Variable getStoredUser : M W json.
Variable removeStoredAuth : M W unit.
Variable redirectIfNotAuthenticated : M W bool.

(** The effect run when the page mounts. *)
Definition AdminDashboard_effect : M W unit :=
  ok ← redirectIfNotAuthenticated;
  if negb ok then mret tt
  else
    userData ← getStoredUser;
    dispatch step (SetUser userData);;
    dispatch step (SetIsLoading false).

Definition handleLogout : M W unit :=
  removeStoredAuth;;
  router_push "/login".

End Component.
End Dashboard.

(* ===================================================================== *)
(** ** components/NotFoundPage.tsx *)
(* ===================================================================== *)

Module NotFoundPage.

Record State : Type := mkState {
  isLoggedIn : bool;
  isLoading : bool
}.

Definition initial : State := mkState false true.

Inductive Action : Type :=
| SetIsLoggedIn (b : bool)
| SetIsLoading (b : bool).

Definition step (a : Action) (s : State) : State :=
  match a with
  | SetIsLoggedIn b => mkState b (isLoading s)
  | SetIsLoading b => mkState (isLoggedIn s) b
  end.

Abbreviation W := (World State Action).

Section Component.
Variable getStoredToken : M W (option string).

(** The mount effect of the revision that guards the storage read. *)
Definition mount_effect : M W unit :=
  try_catch_finally
    (token ← getStoredToken;
     dispatch step (SetIsLoggedIn (truthy_opt token)))
    (fun error =>
       console_error "Error checking authentication:" error;;
       dispatch step (SetIsLoggedIn false))
    (dispatch step (SetIsLoading false)).

(** The mount effect of the other revision. *)
Definition mount_effect_unguarded : M W unit :=
  token ← getStoredToken;
  dispatch step (SetIsLoggedIn (truthy_opt token));;
  dispatch step (SetIsLoading false).

Definition handleGoHome : M W unit :=
  try_catch
    (s ← read_state;
     if isLoggedIn s then router_push "/dashboard" else router_push "/")
    (fun error => console_error "Navigation error:" error).

Definition handleNavigation (path : string) : M W unit :=
  try_catch (router_push path)
    (fun error => console_error "Navigation error:" error).

(** The shortcut offered under the message once loading is over:
    the dashboard for a logged-in visitor, the login page otherwise. *)
Definition shortcut_click : M W unit :=
  s ← read_state;
  if isLoading s then mret tt
  else if isLoggedIn s then handleNavigation "/dashboard"
  else handleNavigation "/login".

End Component.
End NotFoundPage.

(* ===================================================================== *)
(** ** A decoder for running examples *)
(* ===================================================================== *)

(** [JSON.parse] and [JSON.stringify] belong to the platform; the Auth
    Store and the login handler take them as parameters and every general
    statement below holds for any of them.  To run the handlers on concrete
    storage contents, this module decodes the JSON subset the examples use:
    objects, arrays, strings without escapes, integers and the three
    literals.  Anything else is rejected with a [SyntaxError]. *)
Module JsonSubset.

Definition json_ws (c : ascii) : bool :=
  let n := nat_of_ascii c in
  (Nat.eqb n 32 || Nat.eqb n 9 || Nat.eqb n 10 || Nat.eqb n 13)%bool.

Fixpoint skip_ws (s : string) : string :=
  match s with
  | String c r => if json_ws c then skip_ws r else s
  | EmptyString => EmptyString
  end.

(** The double-quote character. *)
Definition dquote : ascii := ascii_of_nat 34.

(** [starts_quoted s] is the rest of [s] after a leading double quote. *)
Definition starts_quoted (s : string) : option string :=
  match s with
  | String c r => if Ascii.eqb c dquote then Some r else None
  | EmptyString => None
  end.

(** The characters of a string literal, after its opening quote. *)
Fixpoint read_string (s : string) : option (string * string) :=
  match s with
  | EmptyString => None
  | String c r =>
      if Ascii.eqb c dquote then Some (EmptyString, r)
      else if Ascii.eqb c "\" then None
      else match read_string r with
           | Some (t, rest) => Some (String c t, rest)
           | None => None
           end
  end.

Definition digit (c : ascii) : option Z :=
  let n := nat_of_ascii c in
  if (Nat.leb 48 n && Nat.leb n 57)%bool then Some (Z.of_nat (n - 48)) else None.

Fixpoint read_digits (acc : Z) (s : string) : Z * string :=
  match s with
  | String c r =>
      match digit c with
      | Some d => read_digits (10 * acc + d) r
      | None => (acc, s)
      end
  | EmptyString => (acc, s)
  end.

Definition read_number (s : string) : option (Z * string) :=
  match s with
  | String c r =>
      match digit c with
      | Some d => Some (read_digits d r)
      | None => None
      end
  | EmptyString => None
  end.

Fixpoint parse_value (fuel : nat) (s : string) : option (json * string) :=
  match fuel with
  | O => None
  | S fuel' =>
      match skip_ws s with
      | String "n" (String "u" (String "l" (String "l" r))) => Some (JNull, r)
      | String "t" (String "r" (String "u" (String "e" r))) => Some (JBool true, r)
      | String "f" (String "a" (String "l" (String "s" (String "e" r)))) =>
          Some (JBool false, r)
      | String "-" r =>
          match read_number r with
          | Some (n, rest) => Some (JNum (- n), rest)
          | None => None
          end
      | String "[" r =>
          match skip_ws r with
          | String "]" rest => Some (JArr [], rest)
          | _ =>
              match parse_items fuel' r with
              | Some (items, rest) => Some (JArr items, rest)
              | None => None
              end
          end
      | String "{" r =>
          match skip_ws r with
          | String "}" rest => Some (JObj [], rest)
          | _ =>
              match parse_members fuel' r with
              | Some (fields, rest) => Some (JObj fields, rest)
              | None => None
              end
          end
      | other =>
          match starts_quoted other with
          | Some r =>
              match read_string r with
              | Some (t, rest) => Some (JStr t, rest)
              | None => None
              end
          | None =>
              match read_number other with
              | Some (n, rest) => Some (JNum n, rest)
              | None => None
              end
          end
      end
  end
with parse_items (fuel : nat) (s : string) : option (list json * string) :=
  match fuel with
  | O => None
  | S fuel' =>
      match parse_value fuel' s with
      | Some (v, rest) =>
          match skip_ws rest with
          | String "]" rest' => Some ([v], rest')
          | String "," rest' =>
              match parse_items fuel' rest' with
              | Some (vs, rest'') => Some (v :: vs, rest'')
              | None => None
              end
          | _ => None
          end
      | None => None
      end
  end
with parse_members (fuel : nat) (s : string) : option (list (string * json) * string) :=
  match fuel with
  | O => None
  | S fuel' =>
      match starts_quoted (skip_ws s) with
      | Some r =>
          match read_string r with
          | Some (k, rest) =>
              match skip_ws rest with
              | String ":" rest1 =>
                  match parse_value fuel' rest1 with
                  | Some (v, rest2) =>
                      match skip_ws rest2 with
                      | String "}" rest3 => Some ([(k, v)], rest3)
                      | String "," rest3 =>
                          match parse_members fuel' rest3 with
                          | Some (fs, rest4) => Some ((k, v) :: fs, rest4)
                          | None => None
                          end
                      | _ => None
                      end
                  | None => None
                  end
              | _ => None
              end
          | None => None
          end
      | None => None
      end
  end.

Definition syntax_error : thrown := ErrorObj "Unexpected token in JSON".

Definition JSON_parse (s : string) : completion json :=
  match parse_value (S (String.length s)) s with
  | Some (v, rest) =>
      match skip_ws rest with
      | EmptyString => Normal v
      | _ => Throw syntax_error
      end
  | None => Throw syntax_error
  end.

(** A string literal, for strings without quotes and backslashes. *)
Definition quote (s : string) : string :=
  String dquote (String.append s (String dquote EmptyString)).

Definition member (k v : string) : string :=
  String.append (quote k) (String.append ":" v).

Fixpoint commas (l : list string) : string :=
  match l with
  | [] => ""
  | [x] => x
  | x :: r => String.append x (String.append "," (commas r))
  end.

Definition object (members : list string) : string :=
  String.append "{" (String.append (commas members) "}").

Definition JSON_stringify (u : Login.LoginUser) : string :=
  object
    [member "userID" (quote (Login.userID u));
     member "username" (quote (Login.username u));
     member "email" (quote (Login.user_email u));
     member "vehicles"
       (String.append "["
          (String.append
             (commas (List.map (fun v => object [member "plate" (quote (fst v));
                                               member "description" (quote (snd v))])
                        (Login.vehicles u)))
             "]"));
     member "role" (quote (Login.role u))].

End JsonSubset.

(* ===================================================================== *)
(** ** String primitives for running examples *)
(* ===================================================================== *)

(** [toLowerCase] and [trim] are parameters of the code that calls them.
    To run that code on the sample inputs, which are made of ASCII
    characters, this module gives what the platform's functions do on such
    strings: the letters A-Z are lowered, and TAB, LF, VT, FF, CR and SPACE
    are the white space that is trimmed. *)
Module AsciiStrings.

Definition lower_char (c : ascii) : ascii :=
  let n := nat_of_ascii c in
  if (Nat.leb 65 n && Nat.leb n 90)%bool then ascii_of_nat (n + 32) else c.

Fixpoint toLowerCase (s : string) : string :=
  match s with
  | EmptyString => EmptyString
  | String c r => String (lower_char c) (toLowerCase r)
  end.

Definition is_space (c : ascii) : bool :=
  let n := nat_of_ascii c in
  ((Nat.leb 9 n && Nat.leb n 13) || Nat.eqb n 32)%bool.

Fixpoint trimStart (s : string) : string :=
  match s with
  | String c r => if is_space c then trimStart r else s
  | EmptyString => EmptyString
  end.

(** Removes trailing white space: a character is dropped when it is
    white space and everything after it was dropped too. *)
Fixpoint trimEnd (s : string) : string :=
  match s with
  | EmptyString => EmptyString
  | String c r =>
      match trimEnd r with
      | EmptyString => if is_space c then EmptyString else String c EmptyString
      | r' => String c r'
      end
  end.

Definition trim (s : string) : string := trimEnd (trimStart s).

End AsciiStrings.

(* ===================================================================== *)
(** ** Sample inputs *)
(* ===================================================================== *)

Module Samples.

(** A browser whose storage holds a token. *)
Definition logged_in : Storage := Local {[ "token" := "abc" ]}.

(** [new Date(s).toISOString()] on dates already in ISO form. *)
Definition iso_dates (s : string) : completion string := Normal s.

Definition record1 : ParkingHistory.ParkingHistoryRecord :=
  ParkingHistory.mkRecord "p1" "u1" "B 1234 XY" "2025-05-01T08:00:00Z"
    "2025-05-01T10:00:00Z" "paid" 10000 "Budi" "budi@mail.id" "Red Car".

Definition history_world : ParkingHistory.W :=
  mkWorld
    (ParkingHistory.mkState [record1] (ParkingHistory.mkPagination 45 2 20 3)
       false None "" "all" "" "" "in_date" ParkingHistory.desc)
    logged_in [].

Definition history_failure : Response ParkingHistory.ApiResponse :=
  mkResponse 200
    (Normal (ParkingHistory.mkApiResponse "error" []
               (ParkingHistory.mkPagination 0 1 20 1))).

Definition session1 : ActiveParking.ActiveParkingSession :=
  ActiveParking.mkSession "p2" "u1" "B 1234 XY" "2025-05-02T08:00:00Z" None
    "pending" 0 "Red Car".

Definition active_world : ActiveParking.W :=
  mkWorld (ActiveParking.mkState [session1] false None "" "all") logged_in [].

Definition active_failure : Response ActiveParking.ApiResponse :=
  mkResponse 200 (Normal (ActiveParking.mkApiResponse "error" [])).

Definition user1 : UsersManagement.User :=
  UsersManagement.mkUser "u1" "Budi" "budi@mail.id"
    [UsersManagement.mkVehicle "B 1234 XY" "Red Car"] "user" None.

Definition users_world : UsersManagement.W :=
  mkWorld
    (UsersManagement.mkState [user1] false None "" "all"
       (UsersManagement.mkRfidModal false None UsersManagement.add))
    logged_in [].

Definition users_failure : Response UsersManagement.ApiResponse :=
  mkResponse 200 (Normal (UsersManagement.mkApiResponse "fail" [])).

Definition visitor : Login.LoginUser :=
  Login.mkLoginUser "u1" "Budi" "budi@mail.id" [("B 1234 XY", "Red Car")] "user".

Definition login_world : Login.W :=
  mkWorld (Login.mkState "budi@mail.id" "secret" false "" "" false) (Local ∅) [].

Definition login_as_visitor : Response Login.LoginBody :=
  mkResponse 200 (Normal (Login.LoginResponse "success" visitor "tok-1")).

Definition modal_world (value : string) : RfidModal.W :=
  mkWorld
    (RfidModal.mkState
       (UsersManagement.mkRfidModal true (Some user1) UsersManagement.add)
       value false None)
    logged_in [].

(** A browser whose stored user record is not JSON. *)
Definition corrupt_user : Storage :=
  Local {[ "token" := "abc"; "user" := "{not json" ]}.

Definition auth_world (sto : Storage) : World unit unit := mkWorld tt sto [].

(** The history view while the user searches for a name. *)
Definition history_search (term : string) : ParkingHistory.State :=
  ParkingHistory.mkState [record1] (ParkingHistory.mkPagination 45 2 20 3)
    false None term "all" "" "" "in_date" ParkingHistory.desc.

Definition active_search (term : string) : ActiveParking.State :=
  ActiveParking.mkState [session1] false None term "all".

(** The history view on page 1 with a status filter chosen. *)
Definition history_first_page : ParkingHistory.W :=
  mkWorld
    (ParkingHistory.mkState [record1] (ParkingHistory.mkPagination 45 1 20 3)
       false None "" "paid" "" "" "in_date" ParkingHistory.desc)
    logged_in [].

Definition history_success : Response ParkingHistory.ApiResponse :=
  mkResponse 200
    (Normal (ParkingHistory.mkApiResponse "success" [record1]
               (ParkingHistory.mkPagination 45 1 20 3))).

Definition admin1 : Login.LoginUser :=
  Login.mkLoginUser "a1" "Siti" "siti@mail.id" [] "admin".

Definition login_as_admin : Response Login.LoginBody :=
  mkResponse 200 (Normal (Login.LoginResponse "success" admin1 "tok-9")).

Definition login_refused : Response Login.LoginBody :=
  mkResponse 401 (Normal (Login.ErrorResponse "error" "Invalid credentials")).

Definition active_success : Response ActiveParking.ApiResponse :=
  mkResponse 200 (Normal (ActiveParking.mkApiResponse "success" [session1])).

Definition users_success : Response UsersManagement.ApiResponse :=
  mkResponse 200 (Normal (UsersManagement.mkApiResponse "success" [user1])).

(** [new Date(s).getTime()] on the two dates of [record1]. *)
Definition getTime (s : string) : option Z :=
  if String.eqb s "2025-05-01T08:00:00Z" then Some 1746086400000
  else if String.eqb s "2025-05-01T10:00:00Z" then Some 1746093600000
  else None.

(** A browser that holds the session of [admin1]. *)
Definition admin_session : Storage :=
  Local {[ "token" := "tok-9"; "user" := JsonSubset.JSON_stringify admin1 ]}.

Definition dashboard_world (sto : Storage) : Dashboard.W :=
  mkWorld Dashboard.initial sto [].

End Samples.

(* ===================================================================== *)
(** ** Vocabulary of the statements *)
(* ===================================================================== *)

(** With storage [sto], the imported [getStoredToken] returns [tok] and
    does nothing else, whatever the component state and the trace. *)
Definition yields_token {St Act} (getStoredToken : M (World St Act) (option string))
    (sto : Storage) (tok : string) : Prop :=
  forall st tr,
    getStoredToken (mkWorld st sto tr) = (Normal (Some tok), mkWorld st sto tr).

(** The network answers every request with response [r]. *)
Definition answers {B} (net : Network B) (r : Response B) : Prop :=
  forall u init, net u init = Responded r.

(** The date filters that are set convert to ISO form. *)
Definition dates_convert (toISOString : string -> completion string)
    (s : ParkingHistory.State) : Prop :=
  (truthy (ParkingHistory.startDate s) = true ->
   exists d, toISOString (ParkingHistory.startDate s) = Normal d) /\
  (truthy (ParkingHistory.endDate s) = true ->
   exists d, toISOString (ParkingHistory.endDate s) = Normal d).

(** The Auth Store's notion of a logged-in admin, read off the storage:
    a non-empty token and a user record that parses to a truthy value whose
    [role] is ["admin"]. *)
Definition holds_admin_session (JSON_parse : string -> completion json)
    (sto : Storage) : bool :=
  match sto with
  | Local items =>
      truthy_opt (items !! "token") &&
      match items !! "user" with
      | Some str =>
          truthy str &&
          match JSON_parse str with
          | Normal v => truthy_json v && strict_eq_str (prop v "role") "admin"
          | Throw _ => false
          end
      | None => false
      end
  | NoWindow | Blocked _ => false
  end.

(** The token the storage holds, if it can be read. *)
Definition stored_token (sto : Storage) : option string :=
  match sto with
  | Local items => items !! "token"
  | NoWindow | Blocked _ => None
  end.


(** The search text occurs in a field, letter case aside: once both are
    lower-cased by the platform's [toLowerCase]. *)
Definition field_matches (toLowerCase : string -> string) (term field : string) : bool :=
  includes (toLowerCase field) (toLowerCase term).

(** The text fields each view searches. *)
Definition history_fields (r : ParkingHistory.ParkingHistoryRecord) : list string :=
  [ParkingHistory.vehicle_plate r; ParkingHistory.vehicle_description r;
   ParkingHistory.user_name r; ParkingHistory.user_email r].

Definition session_fields (x : ActiveParking.ActiveParkingSession) : list string :=
  [ActiveParking.vehicle_plate x; ActiveParking.vehicle_description x;
   ActiveParking.userID x].

(** An imported [getStoredToken] that behaves like those of
    [utils/auth.ts]: it leaves component state and storage alone, sends
    nothing, may log to the console, and a token it returns is the one the
    storage holds. *)
Definition token_reader {St Act} (getStoredToken : M (World St Act) (option string)) : Prop :=
  forall w, exists res logs,
    getStoredToken w = (res, mkWorld (state w) (storage w) (trace w ++ logs)) /\
    requests logs = [] /\
    (forall path, ~ In (EvPush path) logs) /\
    (forall a, ~ In (EvSet a) logs) /\
    (forall tok, res = Normal (Some tok) -> stored_token (storage w) = Some tok).

(* ===================================================================== *)
(** * Properties *)
(* ===================================================================== *)

(** ** The string primitives on small inputs *)

Example trim_inner_space_kept : AsciiStrings.trim "  B 12 " = "B 12".
Proof. reflexivity. Qed.

Example trim_tab_newline :
  AsciiStrings.trim (String (ascii_of_nat 9) (String (ascii_of_nat 10) " ")) = "".
Proof. reflexivity. Qed.

Example includes_is_substring :
  includes "b 1234 xy" "1234" = true /\ includes "b 1234 xy" "4321" = false.
Proof. split; reflexivity. Qed.

Example toLowerCase_ascii : AsciiStrings.toLowerCase "B 1234 Xy" = "b 1234 xy".
Proof. reflexivity. Qed.

Example header_value_normalized :
  Middleware.normalize " Bearer abc " = "Bearer abc" /\
  Middleware.normalize "Bearer " = "Bearer" /\
  Middleware.byte_lowercase "Authorization" = "authorization".
Proof. repeat split; reflexivity. Qed.

Example replace_first_only :
  replace "Bearer abc" "Bearer " "" = "abc" /\
  replace "Bearer Bearer x" "Bearer " "" = "Bearer x" /\
  replace "Basic abc" "Bearer " "" = "Basic abc".
Proof. repeat split; reflexivity. Qed.

Example matcher_patterns :
  Middleware.matches "/admin/:path*" "/admin" = true /\
  Middleware.matches "/admin/:path*" "/admin/users/7" = true /\
  Middleware.matches "/admin/:path*" "/administrator" = false /\
  Middleware.matches "/login" "/login" = true /\
  Middleware.matches "/login" "/login/reset" = false.
Proof. repeat split; reflexivity. Qed.

Example http_error_other : http_error 500 = ErrorObj "HTTP error! status: 500".
Proof. reflexivity. Qed.

(** ** Generic facts about handlers *)

Section HandlerFacts.
Context {St Act : Type}.
Local Abbreviation W := (World St Act).

(** A [finally] block made of one state-setter call runs last: the final
    world is the world left by [try]/[catch] with that call applied, and
    the completion is the one of [try]/[catch]. *)
Lemma finally_dispatch_runs_last {A} (step : Act -> St -> St) (a : Act)
    (body : M W A) (handler : thrown -> M W A) (w : W) :
  let w1 := exec (try_catch body handler) w in
  exec (try_catch_finally body handler (dispatch step a)) w =
  mkWorld (step a (state w1)) (storage w1) (trace w1 ++ [EvSet a]).
Proof.
  unfold try_catch_finally, try_finally, exec.
  destruct (try_catch body handler w) as [r w1]; reflexivity.
Qed.

Lemma finally_dispatch_outcome {A} (step : Act -> St -> St) (a : Act)
    (body : M W A) (handler : thrown -> M W A) (w : W) :
  outcome (try_catch_finally body handler (dispatch step a)) w =
  outcome (try_catch body handler) w.
Proof.
  unfold try_catch_finally, try_finally, outcome.
  destruct (try_catch body handler w) as [r w1]; reflexivity.
Qed.

(** A [catch] block that only logs and sets a state cell never throws. *)
Lemma logging_catch_completes (step : Act -> St -> St) (label : string)
    (mk : thrown -> Act) (body : M W unit) (w : W) :
  outcome (try_catch body
             (fun err => console_error label err;; dispatch step (mk err))) w
  = Normal tt.
Proof.
  unfold outcome, try_catch.
  destruct (body w) as [[[]|e] w1]; reflexivity.
Qed.

End HandlerFacts.

(** ** C9: the loading flag is cleared last, on every path *)

(** C9. Every run of a list-view refresh, whatever the token lookup, the
    date conversion and the network do (success, non-success envelope,
    non-2xx status, missing token, rejected promise, any exception),
    completes normally, leaves the loading flag [false], and the last
    effect in its trace is the [setIsLoading(false)] call. *)
Theorem refresh_always_clears_loading :
  (forall getStoredToken toISOString net (w : ParkingHistory.W),
     let run := ParkingHistory.fetchParkingHistory getStoredToken toISOString net in
     outcome run w = Normal tt /\
     ParkingHistory.isLoading (state (exec run w)) = false /\
     last (trace (exec run w)) = Some (EvSet (ParkingHistory.SetIsLoading false))) /\
  (forall getStoredToken net (w : ActiveParking.W),
     let run := ActiveParking.fetchActiveParkingSessions getStoredToken net in
     outcome run w = Normal tt /\
     ActiveParking.isLoading (state (exec run w)) = false /\
     last (trace (exec run w)) = Some (EvSet (ActiveParking.SetIsLoading false))) /\
  (forall getStoredToken net (w : UsersManagement.W),
     let run := UsersManagement.fetchUsers getStoredToken net in
     outcome run w = Normal tt /\
     UsersManagement.isLoading (state (exec run w)) = false /\
     last (trace (exec run w)) = Some (EvSet (UsersManagement.SetIsLoading false))).
Proof.
  split; [|split]; intros; subst run; (split; [|split]).
  all: unfold ParkingHistory.fetchParkingHistory,
         ActiveParking.fetchActiveParkingSessions, UsersManagement.fetchUsers.
  all: try (rewrite finally_dispatch_outcome; apply logging_catch_completes).
  all: rewrite finally_dispatch_runs_last; cbn [state trace].
  all: try apply last_snoc.
  all: match goal with |- context [state ?x] => destruct (state x) end; reflexivity.
Qed.

(** Both revisions of the Auth Store find a token that readable storage
    holds, and have no other effect. *)
Lemma stored_token_yields {St Act} (items : gmap string string) (tok : string) :
  items !! "token" = Some tok ->
  yields_token (St:=St) (Act:=Act) AuthPlain.getStoredToken (Local items) tok /\
  yields_token (St:=St) (Act:=Act) AuthGuarded.getStoredToken (Local items) tok.
Proof.
  intros H; split; intros st tr;
    unfold AuthPlain.getStoredToken, AuthGuarded.getStoredToken,
      window_undefined, localStorage_getItem;
    unfold try_catch, get, mbind, mret, M_bind, M_ret, bind, ret;
    cbn [storage]; rewrite H; reflexivity.
Qed.

(** ** C1: a 2xx answer whose envelope is not a success *)

Ltac run_handler :=
  unfold exec, outcome, try_catch_finally, try_finally, try_catch, fetch,
    response_json, read_state, console_error, emit, dispatch, modify, get, throw,
    mbind, mret, M_bind, M_ret, bind, ret;
  cbn [fst snd state storage trace].

Lemma fetchParkingHistory_unsuccessful_envelope
    getStoredToken toISOString net (w : ParkingHistory.W) tok r b :
  yields_token getStoredToken (storage w) tok ->
  truthy tok = true ->
  dates_convert toISOString (state w) ->
  answers net r -> r_ok r = true -> r_json r = Normal b ->
  ParkingHistory.status b <> "success" ->
  let w' := exec (ParkingHistory.fetchParkingHistory getStoredToken toISOString net) w in
  ParkingHistory.historyRecords (state w') = ParkingHistory.historyRecords (state w) /\
  ParkingHistory.pagination (state w') = ParkingHistory.pagination (state w) /\
  ParkingHistory.error (state w') = Some "Failed to fetch parking history".
Proof.
  intros Htok Ht [Hsd Hed] Hnet Hok Hjson Hst w'; subst w'.
  destruct w as [s sto tr]; cbn [state storage] in *.
  unfold ParkingHistory.fetchParkingHistory, ParkingHistory.build_params, ParkingHistory.iso.
  run_handler. rewrite Htok, Ht. run_handler.
  assert (Hne : String.eqb (ParkingHistory.status b) "success" = false)
    by (apply String.eqb_neq; exact Hst).
  destruct s as [recs pg ld er st ps sd ed sb so];
    cbn [ParkingHistory.step ParkingHistory.startDate ParkingHistory.endDate
         ParkingHistory.selectedPaymentStatus ParkingHistory.pagination
         ParkingHistory.sortBy ParkingHistory.sortOrder] in *.
  destruct (truthy sd) eqn:Esd; [destruct (Hsd eq_refl) as [d1 ->]|];
  (destruct (truthy ed) eqn:Eed; [destruct (Hed eq_refl) as [d2 ->]|]);
  run_handler; rewrite Hnet; run_handler; rewrite Hok; cbn [negb];
  rewrite Hjson; run_handler; rewrite Hne; auto.
Qed.

Lemma fetchActiveParkingSessions_unsuccessful_envelope
    getStoredToken net (w : ActiveParking.W) tok r b :
  yields_token getStoredToken (storage w) tok ->
  truthy tok = true ->
  answers net r -> r_ok r = true -> r_json r = Normal b ->
  ActiveParking.status b <> "success" ->
  let w' := exec (ActiveParking.fetchActiveParkingSessions getStoredToken net) w in
  ActiveParking.activeSessions (state w') = ActiveParking.activeSessions (state w) /\
  ActiveParking.error (state w') = Some "Failed to fetch active parking sessions".
Proof.
  intros Htok Ht Hnet Hok Hjson Hst w'; subst w'.
  destruct w as [s sto tr]; cbn [state storage] in *.
  unfold ActiveParking.fetchActiveParkingSessions.
  run_handler. rewrite Htok, Ht. run_handler.
  assert (Hne : String.eqb (ActiveParking.status b) "success" = false)
    by (apply String.eqb_neq; exact Hst).
  rewrite Hnet; run_handler; rewrite Hok; cbn [negb].
  rewrite Hjson; run_handler; rewrite Hne.
  destruct s; auto.
Qed.

Lemma fetchUsers_unsuccessful_envelope
    getStoredToken net (w : UsersManagement.W) tok r b :
  yields_token getStoredToken (storage w) tok ->
  truthy tok = true ->
  answers net r -> r_ok r = true -> r_json r = Normal b ->
  UsersManagement.status b <> "success" ->
  let w' := exec (UsersManagement.fetchUsers getStoredToken net) w in
  UsersManagement.users (state w') = UsersManagement.users (state w) /\
  UsersManagement.error (state w') = Some "Failed to fetch users data".
Proof.
  intros Htok Ht Hnet Hok Hjson Hst w'; subst w'.
  destruct w as [s sto tr]; cbn [state storage] in *.
  unfold UsersManagement.fetchUsers.
  run_handler. rewrite Htok, Ht. run_handler.
  assert (Hne : String.eqb (UsersManagement.status b) "success" = false)
    by (apply String.eqb_neq; exact Hst).
  rewrite Hnet; run_handler; rewrite Hok; cbn [negb].
  rewrite Hjson; run_handler; rewrite Hne.
  destruct s; auto.
Qed.

(** C1. In each of the three list views, when the stored token is found
    and the request is answered with a 2xx status and a JSON envelope
    whose [status] is not ["success"], the fetch leaves the items exactly
    as they were and sets the error to a non-empty message. *)
Theorem unsuccessful_envelope_keeps_items :
  (forall getStoredToken toISOString net (w : ParkingHistory.W) tok r b,
     yields_token getStoredToken (storage w) tok -> truthy tok = true ->
     dates_convert toISOString (state w) ->
     answers net r -> r_ok r = true -> r_json r = Normal b ->
     ParkingHistory.status b <> "success" ->
     let w' := exec (ParkingHistory.fetchParkingHistory getStoredToken toISOString net) w in
     ParkingHistory.historyRecords (state w') = ParkingHistory.historyRecords (state w) /\
     exists msg, ParkingHistory.error (state w') = Some msg /\ msg <> "") /\
  (forall getStoredToken net (w : ActiveParking.W) tok r b,
     yields_token getStoredToken (storage w) tok -> truthy tok = true ->
     answers net r -> r_ok r = true -> r_json r = Normal b ->
     ActiveParking.status b <> "success" ->
     let w' := exec (ActiveParking.fetchActiveParkingSessions getStoredToken net) w in
     ActiveParking.activeSessions (state w') = ActiveParking.activeSessions (state w) /\
     exists msg, ActiveParking.error (state w') = Some msg /\ msg <> "") /\
  (forall getStoredToken net (w : UsersManagement.W) tok r b,
     yields_token getStoredToken (storage w) tok -> truthy tok = true ->
     answers net r -> r_ok r = true -> r_json r = Normal b ->
     UsersManagement.status b <> "success" ->
     let w' := exec (UsersManagement.fetchUsers getStoredToken net) w in
     UsersManagement.users (state w') = UsersManagement.users (state w) /\
     exists msg, UsersManagement.error (state w') = Some msg /\ msg <> "").
Proof.
  split; [|split]; intros.
  - destruct (fetchParkingHistory_unsuccessful_envelope
                getStoredToken toISOString net w tok r b) as (? & _ & ?); auto.
    split; [assumption|eexists; split; [eassumption|discriminate]].
  - destruct (fetchActiveParkingSessions_unsuccessful_envelope
                getStoredToken net w tok r b) as (? & ?); auto.
    split; [assumption|eexists; split; [eassumption|discriminate]].
  - destruct (fetchUsers_unsuccessful_envelope
                getStoredToken net w tok r b) as (? & ?); auto.
    split; [assumption|eexists; split; [eassumption|discriminate]].
Qed.




Lemma unsuccessful_envelope_keeps_items_witness :
  (let w := Samples.history_world in
   let w' := exec (ParkingHistory.fetchParkingHistory AuthGuarded.getStoredToken
                     Samples.iso_dates (fun _ _ => Responded Samples.history_failure)) w in
   ParkingHistory.historyRecords (state w') = ParkingHistory.historyRecords (state w) /\
   exists msg, ParkingHistory.error (state w') = Some msg /\ msg <> "") /\
  (let w := Samples.active_world in
   let w' := exec (ActiveParking.fetchActiveParkingSessions AuthGuarded.getStoredToken
                     (fun _ _ => Responded Samples.active_failure)) w in
   ActiveParking.activeSessions (state w') = ActiveParking.activeSessions (state w) /\
   exists msg, ActiveParking.error (state w') = Some msg /\ msg <> "") /\
  (let w := Samples.users_world in
   let w' := exec (UsersManagement.fetchUsers AuthPlain.getStoredToken
                     (fun _ _ => Responded Samples.users_failure)) w in
   UsersManagement.users (state w') = UsersManagement.users (state w) /\
   exists msg, UsersManagement.error (state w') = Some msg /\ msg <> "").
Proof.
  split; [|split].
  - apply (proj1 unsuccessful_envelope_keeps_items
             AuthGuarded.getStoredToken Samples.iso_dates
             (fun _ _ => Responded Samples.history_failure) Samples.history_world
             "abc" Samples.history_failure
             (ParkingHistory.mkApiResponse "error" [] (ParkingHistory.mkPagination 0 1 20 1))).
    + intros st tr; reflexivity.
    + reflexivity.
    + split; intros H; discriminate H.
    + intros u init; reflexivity.
    + reflexivity.
    + reflexivity.
    + discriminate.
  - apply (proj1 (proj2 unsuccessful_envelope_keeps_items)
             AuthGuarded.getStoredToken
             (fun _ _ => Responded Samples.active_failure) Samples.active_world
             "abc" Samples.active_failure (ActiveParking.mkApiResponse "error" [])).
    + intros st tr; reflexivity.
    + reflexivity.
    + intros u init; reflexivity.
    + reflexivity.
    + reflexivity.
    + discriminate.
  - apply (proj2 (proj2 unsuccessful_envelope_keeps_items)
             AuthPlain.getStoredToken
             (fun _ _ => Responded Samples.users_failure) Samples.users_world
             "abc" Samples.users_failure (UsersManagement.mkApiResponse "fail" [])).
    + intros st tr; reflexivity.
    + reflexivity.
    + intros u init; reflexivity.
    + reflexivity.
    + reflexivity.
    + discriminate.
Defined.

(** ** C7: a successful login of a non-admin *)

(** C7. When both fields are filled in and the login request is answered
    2xx with status ["success"] and a user whose role is not ["admin"],
    the handler sets the role alert to [Access denied. You are not
    authorized as admin.] (a non-empty text, so the page renders it),
    leaves persistent storage exactly as it was (neither token nor user is
    written), pushes no route, and ends with [loading] cleared.  The trace
    lists everything it did. *)
Theorem login_non_admin_denied
    JSON_stringify net (w : Login.W) r st user token :
  truthy (Login.email (state w)) = true ->
  truthy (Login.password (state w)) = true ->
  answers net r -> r_ok r = true ->
  r_json r = Normal (Login.LoginResponse st user token) ->
  st = "success" ->
  Login.role user <> "admin" ->
  let w' := exec (Login.handleSubmit JSON_stringify net) w in
  Login.roleError (state w') = "Access denied. You are not authorized as admin." /\
  truthy (Login.roleError (state w')) = true /\
  Login.error (state w') = "" /\
  Login.loading (state w') = false /\
  storage w' = storage w /\
  (forall path, In (EvPush path) (trace w') -> In (EvPush path) (trace w)) /\
  trace w' =
    trace w ++
    [EvPreventDefault;
     EvSet (Login.SetLoading true); EvSet (Login.SetError "");
     EvSet (Login.SetRoleError "");
     EvFetch (mkUrl "https://smartpark-backend.vercel.app/api/users/login" [])
       (mkInit (Some "POST")
          (Some (HRecord {[ "Content-Type" := "application/json" ]}))
          (Some [("email", Login.email (state w));
                 ("password", Login.password (state w))]));
     EvSet (Login.SetRoleError "Access denied. You are not authorized as admin.");
     EvSet (Login.SetLoading false); EvSet (Login.SetLoading false)].
Proof.
  intros Hem Hpw Hnet Hok Hjson -> Hrole w'; subst w'.
  destruct w as [[em pw ld er re sp] sto tr]; cbn [state storage trace] in *.
  cbn [Login.email Login.password] in *.
  assert (Hne : String.eqb (Login.role user) "admin" = false)
    by (apply String.eqb_neq; exact Hrole).
  unfold Login.handleSubmit. run_handler.
  cbn [Login.step Login.email Login.password]. rewrite Hem, Hpw. cbn [negb orb].
  run_handler. rewrite Hnet. run_handler. rewrite Hjson. run_handler.
  rewrite Hok. cbn [Login.body_status andb]. rewrite String.eqb_refl.
  rewrite Hne. cbn [negb]. run_handler. cbn [Login.step Login.roleError Login.error Login.loading].
  do 5 (split; [reflexivity|]). split.
  - intros path Hin.
    repeat (apply in_app_or in Hin as [Hin|Hin];
            [|solve [cbn in Hin; repeat (destruct Hin as [Hin|Hin]; try discriminate Hin);
                     try contradiction]]).
    exact Hin.
  - rewrite <- !app_assoc. reflexivity.
Qed.

Lemma login_non_admin_denied_witness :
  let w' := exec (Login.handleSubmit JsonSubset.JSON_stringify
                    (fun _ _ => Responded Samples.login_as_visitor))
              Samples.login_world in
  Login.roleError (state w') = "Access denied. You are not authorized as admin." /\
  storage w' = Local ∅ /\
  Login.loading (state w') = false.
Proof.
  destruct (login_non_admin_denied JsonSubset.JSON_stringify
              (fun _ _ => Responded Samples.login_as_visitor)
              Samples.login_world Samples.login_as_visitor
              "success" Samples.visitor "tok-1") as (H1 & _ & _ & H3 & H4 & _).
  - reflexivity.
  - reflexivity.
  - intros u init; reflexivity.
  - reflexivity.
  - reflexivity.
  - reflexivity.
  - discriminate.
  - split; [exact H1|split; [exact H4|exact H3]].
Defined.

(** ** C8: submitting a blank RFID tag *)

(** C8. When the trimmed tag value is empty, whatever the platform's
    [trim] counts as white space, the modal's submit only cancels the
    form's default action: component state (props, value, loading, error)
    and storage are untouched and no request goes out; the token is not
    even looked up. *)
Theorem rfid_blank_submit_is_inert
    (trim : string -> string) getStoredToken net (w : RfidModal.W) :
  trim (RfidModal.rfidValue (state w)) = "" ->
  RfidModal.handleSubmit trim getStoredToken net w =
  (Normal tt, mkWorld (state w) (storage w) (trace w ++ [EvPreventDefault])) /\
  requests (trace (exec (RfidModal.handleSubmit trim getStoredToken net) w)) =
  requests (trace w).
Proof.
  intros Hblank. destruct w as [s sto tr]; cbn [state storage trace] in *.
  assert (Hrun : RfidModal.handleSubmit trim getStoredToken net (mkWorld s sto tr) =
                 (Normal tt, mkWorld s sto (tr ++ [EvPreventDefault]))).
  { unfold RfidModal.handleSubmit. run_handler. rewrite Hblank.
    destruct (UsersManagement.modal_user (RfidModal.props s)); reflexivity. }
  split; [exact Hrun|].
  unfold exec. rewrite Hrun. cbn [snd trace].
  unfold requests. rewrite List.filter_app. cbn. apply app_nil_r.
Qed.

Lemma rfid_blank_submit_is_inert_witness :
  AsciiStrings.trim "  " = "" /\
  requests (trace (exec (RfidModal.handleSubmit AsciiStrings.trim
                           AuthGuarded.getStoredToken (fun _ _ => Rejected NonError))
                    (Samples.modal_world "  "))) = [] /\
  state (exec (RfidModal.handleSubmit AsciiStrings.trim
                 AuthGuarded.getStoredToken (fun _ _ => Rejected NonError))
           (Samples.modal_world "  ")) = state (Samples.modal_world "  ").
Proof.
  split; [reflexivity|].
  unfold exec.
  rewrite (proj1 (rfid_blank_submit_is_inert AsciiStrings.trim
                    AuthGuarded.getStoredToken
                    (fun _ _ => Rejected NonError) (Samples.modal_world "  ") eq_refl)).
  split; reflexivity.
Defined.

(** On ASCII strings, a value made of white space only trims to the empty
    string. *)
Lemma trimStart_blank (s : string) :
  (forall c, In c (list_ascii_of_string s) -> AsciiStrings.is_space c = true) ->
  AsciiStrings.trimStart s = "".
Proof.
  induction s as [|c r IH]; intros Hall; cbn; [reflexivity|].
  rewrite (Hall c) by (left; reflexivity).
  apply IH. intros c' Hin. apply Hall. right. exact Hin.
Qed.

Lemma trim_blank (s : string) :
  (forall c, In c (list_ascii_of_string s) -> AsciiStrings.is_space c = true) ->
  AsciiStrings.trim s = "".
Proof.
  intros Hall. unfold AsciiStrings.trim. rewrite trimStart_blank by exact Hall. reflexivity.
Qed.

(** ** C10 and C2: the edge guard *)

Import Middleware.

(** C10. On a request for exactly [/login] the edge middleware runs (the
    matcher lists [/login]); it redirects to [/dashboard] when the request
    carries a [token] cookie with a non-empty value and lets the request
    through otherwise. *)
Theorem login_route_redirects_token_holders (request : NextRequest) :
  pathname request = "/login" ->
  edge request = middleware request /\
  (forall v, cookie_value request "token" = Some v -> v <> "" ->
             edge request = Redirect "/dashboard") /\
  (cookie_value request "token" = None -> edge request = Next) /\
  (cookie_value request "token" = Some "" -> edge request = Next).
Proof.
  intros Hpath.
  assert (Hedge : edge request = middleware request)
    by (unfold edge; rewrite Hpath; reflexivity).
  assert (Hmid : middleware request =
                 if truthy_opt (cookie_value request "token")
                 then Redirect "/dashboard" else Next)
    by (unfold middleware, isProtectedPath; rewrite Hpath; reflexivity).
  rewrite Hedge, Hmid. repeat split.
  - intros v -> Hv. cbn. unfold truthy.
    destruct (String.eqb_spec v ""); [contradiction|reflexivity].
  - intros ->. reflexivity.
  - intros ->. reflexivity.
Qed.

Lemma login_route_redirects_token_holders_witness :
  edge (mkRequest "/login" {[ "token" := "abc" ]} ∅) = Redirect "/dashboard" /\
  edge (mkRequest "/login" ∅ ∅) = Next.
Proof.
  split.
  - apply (proj1 (proj2 (login_route_redirects_token_holders
                           (mkRequest "/login" {[ "token" := "abc" ]} ∅) eq_refl))
             "abc"); [reflexivity|discriminate].
  - apply (proj1 (proj2 (proj2 (login_route_redirects_token_holders
                                  (mkRequest "/login" ∅ ∅) eq_refl)))).
    reflexivity.
Defined.

(** C10 as stated fails: a [/login] request that carries a [token] cookie
    is passed through, not redirected, when the cookie's value is empty. *)
Lemma login_route_passes_empty_token_cookie :
  let request := mkRequest "/login" {[ "token" := "" ]} ∅ in
  pathname request = "/login" /\
  cookie_value request "token" = Some "" /\
  middleware request = Next /\
  edge request = Next.
Proof. repeat split. Qed.

(** The guard function itself does send token-less visitors of a protected
    path to the login route ... *)
Lemma middleware_guards_protected_paths (request : NextRequest) :
  isProtectedPath request = true ->
  truthy_opt (cookie_value request "token") = false ->
  truthy_opt (option_map (fun h => replace h "Bearer " "")
                (headers_get request "Authorization")) = false ->
  middleware request = Redirect "/login".
Proof.
  intros Hp Hc Hh. unfold middleware, or_undefined. rewrite Hp, Hc, Hh. reflexivity.
Qed.

(** ... but the matcher never hands it a request below [/dashboard]. *)
Lemma matcher_skips_dashboard (request : NextRequest) :
  startsWith (pathname request) "/dashboard" = true ->
  edge request = Next.
Proof.
  unfold edge. destruct (pathname request) as [|c0 [|c1 r]]; cbn; intros H.
  - discriminate H.
  - apply andb_prop in H as [_ H]. discriminate H.
  - apply andb_prop in H as [H0 H]. apply andb_prop in H as [H1 _].
    apply Ascii.eqb_eq in H0, H1. subst c0 c1. reflexivity.
Qed.

(** C2 (the code departs from it). A request for [/dashboard] that carries
    neither cookie nor [Authorization] header would be redirected by
    [middleware], yet [config.matcher] names [/admin/:path*] and [/login]
    only, so the edge lets it through: the edge check does not fire on the
    protected prefix. *)
Theorem dashboard_request_bypasses_edge_guard :
  let request := mkRequest "/dashboard" ∅ ∅ in
  isProtectedPath request = true /\
  middleware request = Redirect "/login" /\
  edge request = Next.
Proof. repeat split. Qed.

(** ** C6: read failures in the Auth Store *)

Section AuthStoreReads.
Context {St Act : Type}.
Variable JSON_parse : string -> completion json.
Implicit Type w : World St Act.

(** The guarded revision never throws from a read: a failing storage or an
    unparsable user record reads as absent. *)
Lemma guarded_getStoredToken_reads w :
  outcome AuthGuarded.getStoredToken w =
  Normal (match storage w with Local items => items !! "token" | _ => None end).
Proof. destruct w as [s [|e|items] tr]; reflexivity. Qed.

Lemma guarded_getStoredUser_reads w :
  outcome (AuthGuarded.getStoredUser JSON_parse) w =
  Normal (match storage w with
          | Local items =>
              match items !! "user" with
              | Some str =>
                  if truthy str
                  then match JSON_parse str with Normal v => v | Throw _ => JNull end
                  else JNull
              | None => JNull
              end
          | _ => JNull
          end).
Proof.
  destruct w as [s [|e|items] tr]; try reflexivity.
  unfold AuthGuarded.getStoredUser, window_undefined, localStorage_getItem.
  run_handler.
  destruct (items !! "user") as [str|]; [|reflexivity].
  destruct (truthy str); [|reflexivity].
  destruct (JSON_parse str); reflexivity.
Qed.

Lemma guarded_isAuthenticated_reads w :
  outcome (AuthGuarded.isAuthenticated JSON_parse) w =
  Normal (holds_admin_session JSON_parse (storage w)).
Proof.
  destruct w as [s [|e|items] tr]; try reflexivity.
  unfold AuthGuarded.isAuthenticated, AuthGuarded.getStoredToken,
    AuthGuarded.getStoredUser, window_undefined, localStorage_getItem.
  run_handler. unfold holds_admin_session.
  destruct (items !! "user") as [str|]; cbn.
  - destruct (truthy str); cbn.
    + destruct (JSON_parse str); cbn; [rewrite andb_assoc; reflexivity|].
      rewrite !andb_false_r; reflexivity.
    + rewrite !andb_false_r; reflexivity.
  - rewrite !andb_false_r; reflexivity.
Qed.

(** A run of the guarded [isAuthenticated] changes nothing but the console
    log. *)
Lemma guarded_isAuthenticated_run w :
  exists logs,
    AuthGuarded.isAuthenticated JSON_parse w =
    (Normal (holds_admin_session JSON_parse (storage w)),
     mkWorld (state w) (storage w) (trace w ++ logs)).
Proof.
  destruct w as [s [|e|items] tr]; cbn [state storage trace].
  - exists []. rewrite app_nil_r. reflexivity.
  - eexists. unfold AuthGuarded.isAuthenticated, AuthGuarded.getStoredToken,
      AuthGuarded.getStoredUser, window_undefined, localStorage_getItem.
    run_handler. rewrite <- app_assoc. reflexivity.
  - unfold AuthGuarded.isAuthenticated, AuthGuarded.getStoredToken,
      AuthGuarded.getStoredUser, window_undefined, localStorage_getItem.
    run_handler. unfold holds_admin_session.
    destruct (items !! "user") as [str|]; cbn.
    + destruct (truthy str); cbn.
      * destruct (JSON_parse str); cbn.
        -- exists []. rewrite app_nil_r, andb_assoc. reflexivity.
        -- eexists. rewrite !andb_false_r. reflexivity.
      * exists []. rewrite app_nil_r, !andb_false_r. reflexivity.
    + exists []. rewrite app_nil_r, !andb_false_r. reflexivity.
Qed.

(** The first revision hands the failure to its caller. *)
Lemma plain_blocked_storage_throws w e :
  storage w = Blocked e ->
  outcome AuthPlain.getStoredToken w = Throw e /\
  outcome (AuthPlain.getStoredUser JSON_parse) w = Throw e /\
  outcome (AuthPlain.isAuthenticated JSON_parse) w = Throw e.
Proof.
  destruct w as [s sto tr]; cbn [storage]; intros ->. repeat split.
Qed.

Lemma plain_corrupt_user_throws w items str e :
  storage w = Local items ->
  items !! "user" = Some str -> truthy str = true ->
  JSON_parse str = Throw e ->
  outcome (AuthPlain.getStoredUser JSON_parse) w = Throw e /\
  outcome (AuthPlain.isAuthenticated JSON_parse) w = Throw e.
Proof.
  destruct w as [s sto tr]; cbn [storage]; intros -> Hu Ht Hp.
  unfold AuthPlain.isAuthenticated, AuthPlain.getStoredToken,
    AuthPlain.getStoredUser, window_undefined, localStorage_getItem.
  run_handler. rewrite Hu, Ht, Hp. split; reflexivity.
Qed.

End AuthStoreReads.

(** C6 (the code departs from it). The revision of [utils/auth.ts] without
    [try]/[catch] propagates read failures: with storage that throws on
    access, [getStoredToken], [getStoredUser] and [isAuthenticated] throw;
    with a stored user record that [JSON.parse] rejects, [getStoredUser]
    and [isAuthenticated] throw.  The guarded revision returns the absent
    value in the same situations. *)
Theorem unguarded_auth_store_propagates_read_failures
    (JSON_parse : string -> completion json) {St Act} (w : World St Act) :
  (forall e, storage w = Blocked e ->
     outcome AuthPlain.getStoredToken w = Throw e /\
     outcome (AuthPlain.getStoredUser JSON_parse) w = Throw e /\
     outcome (AuthPlain.isAuthenticated JSON_parse) w = Throw e /\
     outcome AuthGuarded.getStoredToken w = Normal None /\
     outcome (AuthGuarded.getStoredUser JSON_parse) w = Normal JNull /\
     outcome (AuthGuarded.isAuthenticated JSON_parse) w = Normal false) /\
  (forall items str e,
     storage w = Local items ->
     items !! "user" = Some str -> truthy str = true ->
     JSON_parse str = Throw e ->
     outcome (AuthPlain.getStoredUser JSON_parse) w = Throw e /\
     outcome (AuthPlain.isAuthenticated JSON_parse) w = Throw e /\
     outcome (AuthGuarded.getStoredUser JSON_parse) w = Normal JNull /\
     outcome (AuthGuarded.isAuthenticated JSON_parse) w = Normal false).
Proof.
  split.
  - intros e Hs.
    destruct (plain_blocked_storage_throws JSON_parse w e Hs) as (H1 & H2 & H3).
    rewrite guarded_getStoredToken_reads, guarded_getStoredUser_reads,
      guarded_isAuthenticated_reads, Hs. repeat split; assumption.
  - intros items str e Hs Hu Ht Hp.
    destruct (plain_corrupt_user_throws JSON_parse w items str e Hs Hu Ht Hp) as (H1 & H2).
    rewrite guarded_getStoredUser_reads, guarded_isAuthenticated_reads, Hs.
    cbn [holds_admin_session]. rewrite Hu, Ht, Hp, andb_false_r.
    repeat split; assumption.
Qed.

Lemma unguarded_auth_store_propagates_read_failures_witness :
  outcome (AuthPlain.getStoredUser JsonSubset.JSON_parse)
    (Samples.auth_world Samples.corrupt_user) = Throw JsonSubset.syntax_error /\
  outcome (AuthPlain.isAuthenticated JsonSubset.JSON_parse)
    (Samples.auth_world Samples.corrupt_user) = Throw JsonSubset.syntax_error /\
  outcome AuthPlain.getStoredToken
    (Samples.auth_world (Blocked (ErrorObj "SecurityError"))) =
  Throw (ErrorObj "SecurityError").
Proof.
  pose proof (proj2 (unguarded_auth_store_propagates_read_failures
                       JsonSubset.JSON_parse (Samples.auth_world Samples.corrupt_user))
                {[ "token" := "abc"; "user" := "{not json" ]} "{not json"
                JsonSubset.syntax_error eq_refl eq_refl eq_refl eq_refl) as (H1 & H2 & _).
  pose proof (proj1 (unguarded_auth_store_propagates_read_failures
                       JsonSubset.JSON_parse
                       (Samples.auth_world (Blocked (ErrorObj "SecurityError"))))
                (ErrorObj "SecurityError") eq_refl) as (H3 & _).
  split; [exact H1|split; [exact H2|exact H3]].
Defined.

(** The page-level guard, on the guarded Auth Store: without an admin
    session in storage the mount effect pushes [/login] as its last act and
    leaves the page state alone. *)
Lemma page_guard_redirects JSON_parse (w : Dashboard.W) :
  holds_admin_session JSON_parse (storage w) = false ->
  let w' := exec (Dashboard.AdminDashboard_effect
                    (AuthGuarded.getStoredUser JSON_parse)
                    (AuthGuarded.redirectIfNotAuthenticated JSON_parse)) w in
  state w' = state w /\ storage w' = storage w /\
  last (trace w') = Some (EvPush "/login").
Proof.
  intros H; cbv zeta.
  destruct (guarded_isAuthenticated_run JSON_parse w) as [logs Hrun].
  unfold Dashboard.AdminDashboard_effect, AuthGuarded.redirectIfNotAuthenticated, router_push.
  run_handler. rewrite Hrun, H. run_handler.
  repeat split. apply last_snoc.
Qed.

(** On the first revision the same effect throws when the stored user
    record does not parse: nothing is pushed. *)
Lemma page_guard_unguarded_throws JSON_parse (w : Dashboard.W) items str e :
  storage w = Local items ->
  items !! "user" = Some str -> truthy str = true ->
  JSON_parse str = Throw e ->
  Dashboard.AdminDashboard_effect
    (AuthPlain.getStoredUser JSON_parse)
    (AuthPlain.redirectIfNotAuthenticated JSON_parse) w = (Throw e, w).
Proof.
  destruct w as [s sto tr]; cbn [storage]; intros -> Hu Ht Hp.
  unfold Dashboard.AdminDashboard_effect, AuthPlain.redirectIfNotAuthenticated,
    AuthPlain.isAuthenticated, AuthPlain.getStoredToken, AuthPlain.getStoredUser,
    window_undefined, localStorage_getItem.
  run_handler. rewrite Hu, Ht, Hp. reflexivity.
Qed.

(** ** C5: the authenticated request helper *)













(** A caller's own [Authorization] header, given in a plain object, is sent
    instead of the bearer token. *)
Lemma authenticatedFetch_caller_header_wins :
  let options := mkInit None (Some (HRecord {[ "Authorization" := "Basic xyz" ]})) None in
  exists sent headers,
    trace (exec (AuthGuarded.authenticatedFetch
                   (fun _ _ => Rejected NonError : FetchOutcome unit)
                   (mkUrl "https://smartpark-backend.vercel.app/api/users/all" []) options)
             (Samples.auth_world Samples.logged_in)) =
    [EvFetch (mkUrl "https://smartpark-backend.vercel.app/api/users/all" []) sent] /\
    ri_headers sent = Some (HRecord headers) /\
    headers !! "Authorization" = Some "Basic xyz".
Proof. do 2 eexists. repeat split. Qed.

(** Given in a [Headers] instance, the same header is lost: the request
    carries the bearer token and none of the caller's entries. *)
Lemma authenticatedFetch_drops_headers_instance :
  let options :=
    mkInit None
      (Some (HObject {[ "Authorization" := "Basic xyz"; "Accept" := "text/csv" ]})) None in
  exists sent headers,
    trace (exec (AuthGuarded.authenticatedFetch
                   (fun _ _ => Rejected NonError : FetchOutcome unit)
                   (mkUrl "https://smartpark-backend.vercel.app/api/users/all" []) options)
             (Samples.auth_world Samples.logged_in)) =
    [EvFetch (mkUrl "https://smartpark-backend.vercel.app/api/users/all" []) sent] /\
    ri_headers sent = Some (HRecord headers) /\
    headers !! "Authorization" = Some "Bearer abc" /\
    headers !! "Accept" = None.
Proof. do 2 eexists. repeat split. Qed.

(** ** C4: the client-side search filter *)

Lemma includes_empty (s : string) : includes s "" = true.
Proof. destruct s; reflexivity. Qed.

Lemma truthy_false_iff (s : string) : truthy s = false <-> s = "".
Proof.
  unfold truthy. destruct (String.eqb_spec s ""); cbn; split; congruence.
Qed.

(** C4, as the code has it. Whatever the platform's [toLowerCase] does to
    letters, the search keeps a record when the lower-cased text occurs in
    the lower-cased content of at least one of the searched fields (a
    logical OR across fields); the active-sessions view also requires the
    selected payment status.  With an empty search text no record is dropped
    by the search (in the active-sessions view because the empty string
    lower-cases to itself and occurs in every string). *)
Theorem search_filter_matches_any_field (toLowerCase : string -> string) :
  (forall s record,
     In record (ParkingHistory.filteredRecords toLowerCase s) <->
     In record (ParkingHistory.historyRecords s) /\
     (ParkingHistory.searchTerm s = "" \/
      existsb (fun field =>
                 includes (toLowerCase field) (toLowerCase (ParkingHistory.searchTerm s)))
        [ParkingHistory.vehicle_plate record; ParkingHistory.vehicle_description record;
         ParkingHistory.user_name record; ParkingHistory.user_email record] = true)) /\
  (forall s session,
     In session (ActiveParking.filteredSessions toLowerCase s) <->
     In session (ActiveParking.activeSessions s) /\
     existsb (fun field =>
                includes (toLowerCase field) (toLowerCase (ActiveParking.searchTerm s)))
       [ActiveParking.vehicle_plate session; ActiveParking.vehicle_description session;
        ActiveParking.userID session] = true /\
     (ActiveParking.selectedPaymentStatus s = "all" \/
      ActiveParking.payment_status session = ActiveParking.selectedPaymentStatus s)) /\
  (forall s, ParkingHistory.searchTerm s = "" ->
             ParkingHistory.filteredRecords toLowerCase s = ParkingHistory.historyRecords s) /\
  (forall s, toLowerCase "" = "" ->
             ActiveParking.searchTerm s = "" ->
             ActiveParking.selectedPaymentStatus s = "all" ->
             ActiveParking.filteredSessions toLowerCase s = ActiveParking.activeSessions s).
Proof.
  split; [|split; [|split]].
  - intros s record. unfold ParkingHistory.filteredRecords.
    rewrite List.filter_In. cbn [existsb].
    rewrite orb_false_r, !orb_assoc.
    destruct (truthy (ParkingHistory.searchTerm s)) eqn:E; cbn [negb].
    + split; intros [Hin H]; (split; [exact Hin|]); [right; exact H|].
      destruct H as [H|H]; [|exact H].
      apply truthy_false_iff in H. congruence.
    + apply truthy_false_iff in E. split; intros [Hin _]; auto.
  - intros s session. unfold ActiveParking.filteredSessions.
    rewrite List.filter_In, andb_true_iff.
    unfold ActiveParking.matchesSearch, ActiveParking.matchesPaymentStatus.
    cbn [existsb].
    rewrite orb_false_r, !orb_assoc.
    split; intros (Hin & Hs & Hp); (split; [exact Hin|split; [exact Hs|]]).
    + apply orb_true_iff in Hp as [Hp|Hp]; apply String.eqb_eq in Hp; auto.
    + apply orb_true_iff. rewrite !String.eqb_eq. exact Hp.
  - intros s Hs. unfold ParkingHistory.filteredRecords.
    rewrite Hs.
    induction (ParkingHistory.historyRecords s) as [|r l IH]; cbn; [reflexivity|].
    f_equal. exact IH.
  - intros s Hlc Hs Hp. unfold ActiveParking.filteredSessions.
    assert (Hall : forall x, ActiveParking.matchesSearch toLowerCase s x &&
                             ActiveParking.matchesPaymentStatus s x = true).
    { intros x. unfold ActiveParking.matchesSearch, ActiveParking.matchesPaymentStatus.
      rewrite Hs, Hp, Hlc. rewrite !includes_empty. reflexivity. }
    induction (ActiveParking.activeSessions s) as [|x l IH]; cbn; [reflexivity|].
    rewrite Hall. f_equal. exact IH.
Qed.

Lemma search_filter_matches_any_field_witness :
  ParkingHistory.filteredRecords AsciiStrings.toLowerCase (Samples.history_search "") =
  [Samples.record1] /\
  ActiveParking.filteredSessions AsciiStrings.toLowerCase (Samples.active_search "") =
  [Samples.session1] /\
  In Samples.record1
    (ParkingHistory.filteredRecords AsciiStrings.toLowerCase (Samples.history_search "BUDI")).
Proof.
  split; [|split].
  - apply (proj1 (proj2 (proj2 (search_filter_matches_any_field AsciiStrings.toLowerCase)))
             (Samples.history_search "")). reflexivity.
  - apply (proj2 (proj2 (proj2 (search_filter_matches_any_field AsciiStrings.toLowerCase)))
             (Samples.active_search "")); reflexivity.
  - apply (proj1 (search_filter_matches_any_field AsciiStrings.toLowerCase)
             (Samples.history_search "BUDI")).
    split; [left; reflexivity|right; reflexivity].
Defined.

(** C4 as stated fails: a record is kept although the search text does not
    occur in every searched field.  The sample fields and search texts are
    ASCII, on which [toLowerCase] lowers the letters A-Z. *)
Lemma search_filter_is_not_conjunctive :
  (In Samples.record1
     (ParkingHistory.filteredRecords AsciiStrings.toLowerCase (Samples.history_search "budi")) /\
   forallb (field_matches AsciiStrings.toLowerCase "budi") (history_fields Samples.record1) =
   false /\
   field_matches AsciiStrings.toLowerCase "budi" "B 1234 XY" = false) /\
  (In Samples.session1
     (ActiveParking.filteredSessions AsciiStrings.toLowerCase (Samples.active_search "red")) /\
   forallb (field_matches AsciiStrings.toLowerCase "red") (session_fields Samples.session1) =
   false /\
   field_matches AsciiStrings.toLowerCase "red" "B 1234 XY" = false).
Proof. repeat split; first [reflexivity|left; reflexivity]. Qed.

(** ** C3: applying the filters *)

Lemma handleApplyFilters_run (w : ParkingHistory.W) :
  ParkingHistory.handleApplyFilters w =
  (Normal tt,
   mkWorld (ParkingHistory.step (ParkingHistory.SetPage 1) (state w)) (storage w)
     (trace w ++ [EvSet (ParkingHistory.SetPage 1)])).
Proof. reflexivity. Qed.

(** Setting the page to 1 changes the dependency list exactly when the page
    was not 1 already. *)
Lemma SetPage_1_deps (s : ParkingHistory.State) :
  ParkingHistory.fetch_deps s =
  ParkingHistory.fetch_deps (ParkingHistory.step (ParkingHistory.SetPage 1) s) <->
  ParkingHistory.page (ParkingHistory.pagination s) = 1.
Proof.
  destruct s as [recs [t p l ps] ld er st pst sd ed sb so].
  unfold ParkingHistory.fetch_deps; cbn. split; intros H.
  - congruence.
  - subst p. reflexivity.
Qed.

Lemma requests_snoc_set {Act} (t : list (Event Act)) (a : Act) :
  requests (t ++ [EvSet a]) = requests t.
Proof. unfold requests. rewrite List.filter_app. cbn. apply app_nil_r. Qed.

Ltac requests_norm :=
  unfold requests; rewrite ?List.filter_app;
  cbn [List.filter is_fetch app]; rewrite ?app_nil_r.

(** The request a refresh sends once the token is found and the dates
    convert. *)
Lemma fetchParkingHistory_request getStoredToken toISOString net
    (w : ParkingHistory.W) tok :
  yields_token getStoredToken (storage w) tok -> truthy tok = true ->
  dates_convert toISOString (state w) ->
  let s := state w in
  exists q,
    requests (trace (exec (ParkingHistory.fetchParkingHistory getStoredToken toISOString net) w)) =
    requests (trace w) ++ [EvFetch (mkUrl ParkingHistory.history_url q) (bearer_init tok)] /\
    In ("page", QNum (ParkingHistory.page (ParkingHistory.pagination s))) q /\
    In ("limit", QNum (ParkingHistory.limit (ParkingHistory.pagination s))) q /\
    In ("sortBy", QStr (ParkingHistory.sortBy s)) q /\
    In ("sortOrder", QStr (ParkingHistory.SortOrder_str (ParkingHistory.sortOrder s))) q /\
    (ParkingHistory.selectedPaymentStatus s <> "all" ->
     In ("status", QStr (ParkingHistory.selectedPaymentStatus s)) q) /\
    (forall d, truthy (ParkingHistory.startDate s) = true ->
               toISOString (ParkingHistory.startDate s) = Normal d ->
               In ("startDate", QStr d) q) /\
    (forall d, truthy (ParkingHistory.endDate s) = true ->
               toISOString (ParkingHistory.endDate s) = Normal d ->
               In ("endDate", QStr d) q).
Proof.
  intros Htok Ht [Hsd Hed]; cbv zeta.
  destruct w as [s sto tr]; cbn [state storage trace] in *.
  unfold ParkingHistory.fetchParkingHistory, ParkingHistory.build_params, ParkingHistory.iso.
  run_handler. rewrite Htok, Ht. run_handler.
  destruct s as [recs pg ld er st ps sd ed sb so];
    cbn [ParkingHistory.step ParkingHistory.startDate ParkingHistory.endDate
         ParkingHistory.selectedPaymentStatus ParkingHistory.pagination
         ParkingHistory.sortBy ParkingHistory.sortOrder] in *.
  destruct (truthy sd) eqn:Esd; [destruct (Hsd eq_refl) as [d1 Hd1]; rewrite Hd1|];
  (destruct (truthy ed) eqn:Eed; [destruct (Hed eq_refl) as [d2 Hd2]; rewrite Hd2|]);
  run_handler; eexists;
  (split;
   [ destruct (net _ _) as [e|r]; run_handler;
     [|destruct (r_ok r); cbn [negb];
       [destruct (r_json r) as [b|e]; run_handler;
        [destruct (String.eqb (ParkingHistory.status b) "success")|]|]];
     run_handler; requests_norm; reflexivity
   |]).
  all: destruct (String.eqb_spec ps "all"); cbn [negb].
  all: repeat split; intros; rewrite ?in_app_iff; cbn; intuition congruence.
Qed.

(** C3, as the code has it. [handleApplyFilters] sets [pagination.page] to 1
    and touches nothing else.  When the page was not 1, the dependency of
    [fetchParkingHistory] changes and the refresh runs on the state with
    page 1; with a stored token and convertible dates its request carries
    [page=1] and the current limit, sort, status and date filters.  When the page
    was 1 already, no dependency changes: no refresh runs and no request
    is sent. *)
Theorem applyFilters_refetches_only_when_page_changes
    getStoredToken toISOString net (w : ParkingHistory.W) :
  let click := ParkingHistory.on_event getStoredToken toISOString net
                 ParkingHistory.handleApplyFilters in
  let refresh := ParkingHistory.fetchParkingHistory getStoredToken toISOString net in
  let reset := exec ParkingHistory.handleApplyFilters w in
  state reset = ParkingHistory.step (ParkingHistory.SetPage 1) (state w) /\
  ParkingHistory.page (ParkingHistory.pagination (state reset)) = 1 /\
  (ParkingHistory.page (ParkingHistory.pagination (state w)) <> 1 ->
   click w = refresh reset) /\
  (ParkingHistory.page (ParkingHistory.pagination (state w)) = 1 ->
   click w = (Normal tt, reset) /\
   requests (trace (exec click w)) = requests (trace w)) /\
  (forall tok,
     ParkingHistory.page (ParkingHistory.pagination (state w)) <> 1 ->
     yields_token getStoredToken (storage w) tok -> truthy tok = true ->
     dates_convert toISOString (state w) ->
     exists q,
       requests (trace (exec click w)) =
       requests (trace w) ++ [EvFetch (mkUrl ParkingHistory.history_url q) (bearer_init tok)] /\
       In ("page", QNum 1) q /\
       In ("limit", QNum (ParkingHistory.limit (ParkingHistory.pagination (state w)))) q /\
       In ("sortBy", QStr (ParkingHistory.sortBy (state w))) q /\
       In ("sortOrder",
           QStr (ParkingHistory.SortOrder_str (ParkingHistory.sortOrder (state w)))) q /\
       (ParkingHistory.selectedPaymentStatus (state w) <> "all" ->
        In ("status", QStr (ParkingHistory.selectedPaymentStatus (state w))) q) /\
       (forall d, truthy (ParkingHistory.startDate (state w)) = true ->
                  toISOString (ParkingHistory.startDate (state w)) = Normal d ->
                  In ("startDate", QStr d) q) /\
       (forall d, truthy (ParkingHistory.endDate (state w)) = true ->
                  toISOString (ParkingHistory.endDate (state w)) = Normal d ->
                  In ("endDate", QStr d) q)).
Proof.
  cbv zeta.
  assert (Hclick :
    ParkingHistory.on_event getStoredToken toISOString net
      ParkingHistory.handleApplyFilters w =
    if bool_decide (ParkingHistory.fetch_deps (state w) =
                    ParkingHistory.fetch_deps
                      (ParkingHistory.step (ParkingHistory.SetPage 1) (state w)))
    then (Normal tt, exec ParkingHistory.handleApplyFilters w)
    else ParkingHistory.fetchParkingHistory getStoredToken toISOString net
           (exec ParkingHistory.handleApplyFilters w)).
  { unfold ParkingHistory.on_event, exec. rewrite handleApplyFilters_run.
    unfold read_state, get, mbind, mret, M_bind, M_ret, bind, ret.
    rewrite handleApplyFilters_run. cbn [state snd].
    destruct (bool_decide _); reflexivity. }
  split; [reflexivity|].
  split; [destruct w as [[recs pg ld er st ps sd ed sb so] sto tr]; reflexivity|].
  split; [|split].
  - intros Hp. rewrite Hclick, bool_decide_eq_false_2; [reflexivity|].
    intros H. apply SetPage_1_deps in H. contradiction.
  - intros Hp. rewrite Hclick, bool_decide_eq_true_2 by (apply SetPage_1_deps; exact Hp).
    split; [reflexivity|].
    unfold exec at 1. rewrite Hclick, bool_decide_eq_true_2 by (apply SetPage_1_deps; exact Hp).
    unfold exec. rewrite handleApplyFilters_run. cbn [snd trace].
    requests_norm. reflexivity.
  - intros tok Hp Htok Ht Hdates.
    assert (Hrun : exec (ParkingHistory.on_event getStoredToken toISOString net
                           ParkingHistory.handleApplyFilters) w =
                   exec (ParkingHistory.fetchParkingHistory getStoredToken toISOString net)
                     (exec ParkingHistory.handleApplyFilters w)).
    { unfold exec at 1. rewrite Hclick, bool_decide_eq_false_2; [reflexivity|].
      intros H. apply SetPage_1_deps in H. contradiction. }
    rewrite Hrun.
    destruct (fetchParkingHistory_request getStoredToken toISOString net
                (exec ParkingHistory.handleApplyFilters w) tok)
      as (q & Hq & Hpage & Hlimit & Hsort & Hord & Hst & Hsd & Hed).
    + unfold exec. rewrite handleApplyFilters_run. exact Htok.
    + exact Ht.
    + unfold exec. rewrite handleApplyFilters_run. cbn [snd state].
      destruct w as [[recs pg ld er st ps sd ed sb so] sto tr]. exact Hdates.
    + exists q. unfold exec in Hq at 3. rewrite handleApplyFilters_run in Hq.
      cbn [snd trace] in Hq. rewrite requests_snoc_set in Hq.
      unfold exec in Hpage, Hlimit, Hsort, Hord, Hst, Hsd, Hed.
      rewrite handleApplyFilters_run in Hpage, Hlimit, Hsort, Hord, Hst, Hsd, Hed.
      cbn [snd state] in Hpage, Hlimit, Hsort, Hord, Hst, Hsd, Hed.
      destruct w as [[recs pg ld er st ps sd ed sb so] sto tr].
      repeat split; assumption.
Qed.

Lemma applyFilters_refetches_only_when_page_changes_witness :
  exists q,
    requests (trace (exec (ParkingHistory.on_event AuthGuarded.getStoredToken
                             Samples.iso_dates
                             (fun _ _ => Responded Samples.history_success)
                             ParkingHistory.handleApplyFilters)
                       Samples.history_world)) =
    [EvFetch (mkUrl ParkingHistory.history_url q) (bearer_init "abc")] /\
    In ("page", QNum 1) q.
Proof.
  destruct (proj2 (proj2 (proj2 (proj2
              (applyFilters_refetches_only_when_page_changes
                 AuthGuarded.getStoredToken Samples.iso_dates
                 (fun _ _ => Responded Samples.history_success)
                 Samples.history_world)))) "abc")
    as (q & Hq & Hpage & _).
  - discriminate.
  - intros st tr; reflexivity.
  - reflexivity.
  - split; intros H; discriminate H.
  - exists q. split; [exact Hq|exact Hpage].
Defined.

(** C3 as stated fails: with the page already at 1, choosing Apply Filters
    sends no request, although a token is stored and the network would
    answer. *)
Lemma applyFilters_on_first_page_sends_nothing :
  ParkingHistory.page (ParkingHistory.pagination (state Samples.history_first_page)) = 1 /\
  stored_token (storage Samples.history_first_page) = Some "abc" /\
  trace (exec (ParkingHistory.on_event AuthGuarded.getStoredToken
                 Samples.iso_dates
                 (fun _ _ => Responded Samples.history_success)
                 ParkingHistory.handleApplyFilters)
           Samples.history_first_page) =
  [EvSet (ParkingHistory.SetPage 1)].
Proof. repeat split. Qed.

(* ===================================================================== *)
(** * Further properties of the same code *)
(* ===================================================================== *)

(** ** middleware.ts *)

Lemma startsWith_split (s p : string) :
  startsWith s p = true -> s = String.append p (drop (String.length p) s).
Proof.
  revert s; induction p as [|b p IH]; intros s H; [reflexivity|].
  destruct s as [|a s]; [discriminate H|].
  cbn in H. apply andb_prop in H as [Hab Hs].
  apply Ascii.eqb_eq in Hab. subst b.
  change (String a s = String a (String.append p (drop (String.length p) s))).
  f_equal. apply IH. exact Hs.
Qed.

Lemma startsWith_refl (p : string) : startsWith p p = true.
Proof.
  induction p as [|b p IH]; [reflexivity|].
  cbn. rewrite Ascii.eqb_refl. exact IH.
Qed.

(** Stripping the [Bearer ] prefix leaves nothing only for an empty header
    and for the bare prefix. *)
Lemma replace_bearer_empty (h : string) :
  replace h "Bearer " "" = "" <-> h = "" \/ h = "Bearer ".
Proof.
  split.
  - destruct h as [|c r]; [left; reflexivity|].
    unfold replace; fold replace.
    destruct (startsWith (String c r) "Bearer ") eqn:E.
    + intros H. right. apply startsWith_split in E.
      change (drop (String.length "Bearer ") (String c r) = "") in H.
      rewrite H in E. exact E.
    + intros H; discriminate H.
  - intros [->| ->]; reflexivity.
Qed.

(** A normalised header value does not end in HTTP white space. *)
Lemma strip_trailing_last (s : string) (c : ascii) :
  last_char (strip_trailing s) = Some c -> http_whitespace c = false.
Proof.
  induction s as [|a r IH]; cbn [strip_trailing]; [discriminate|].
  destruct (strip_trailing r) as [|b r'] eqn:E.
  - destruct (http_whitespace a) eqn:Ha; cbn; [discriminate|].
    intros H; injection H as <-. exact Ha.
  - intros H. apply IH. exact H.
Qed.

Lemma headers_get_never_bare_prefix (request : NextRequest) (name : string) :
  headers_get request name <> Some "Bearer ".
Proof.
  unfold headers_get, normalize.
  destruct (rq_headers request !! byte_lowercase name) as [raw|]; cbn [option_map];
    [|discriminate].
  intros H. injection H as H.
  pose proof (strip_trailing_last (strip_leading raw) " ") as Hl.
  rewrite H in Hl. specialize (Hl eq_refl). discriminate Hl.
Qed.

Lemma strip_leading_blank (s : string) :
  strip_leading s = "" <->
  forall c, In c (list_ascii_of_string s) -> http_whitespace c = true.
Proof.
  induction s as [|a r IH]; cbn [strip_leading list_ascii_of_string].
  - split; [intros _ c []|reflexivity].
  - destruct (http_whitespace a) eqn:Ha.
    + rewrite IH. split.
      * intros H c [<-|Hc]; [exact Ha|apply H; exact Hc].
      * intros H c Hc. apply H. right. exact Hc.
    + split; [discriminate|]. intros H. specialize (H a (or_introl eq_refl)). congruence.
Qed.

Lemma strip_trailing_empty (s : string) :
  strip_trailing s = "" ->
  forall c, In c (list_ascii_of_string s) -> http_whitespace c = true.
Proof.
  induction s as [|a r IH]; cbn [strip_trailing list_ascii_of_string]; [intros _ c []|].
  destruct (strip_trailing r) as [|b r'] eqn:E; [|discriminate].
  destruct (http_whitespace a) eqn:Ha; [|discriminate].
  intros _ c [<-|Hc]; [exact Ha|apply IH; [reflexivity|exact Hc]].
Qed.

Lemma strip_leading_keeps (s : string) (c : ascii) :
  In c (list_ascii_of_string (strip_leading s)) -> In c (list_ascii_of_string s).
Proof.
  induction s as [|a r IH]; cbn [strip_leading]; [intros H; exact H|].
  destruct (http_whitespace a); [|intros H; exact H].
  intros H. right. apply IH. exact H.
Qed.

(** A header reads as the empty string exactly when it was sent with
    nothing but white space. *)
Lemma normalize_empty (raw : string) :
  normalize raw = "" <->
  forall c, In c (list_ascii_of_string raw) -> http_whitespace c = true.
Proof.
  unfold normalize. split.
  - intros H. apply strip_leading_blank.
    destruct (strip_leading raw) as [|a r] eqn:E; [reflexivity|].
    pose proof (strip_trailing_empty _ H a (or_introl eq_refl)) as Ha.
    destruct raw as [|b raw']; [discriminate E|].
    exfalso. revert E Ha. clear H.
    generalize (String b raw'). intros s.
    induction s as [|x s IH]; cbn [strip_leading]; [discriminate|].
    destruct (http_whitespace x) eqn:Hx; [exact IH|].
    intros E Ha. injection E as -> _. congruence.
  - intros H. apply strip_leading_blank in H. rewrite H. reflexivity.
Qed.

(** X1. [middleware] sends a request to [/login] exactly when its path
    begins with [/dashboard], its [token] cookie is absent or empty and its
    [Authorization] header is absent or reads as the empty string, that is,
    was sent with white space only.  A header value is read without
    trailing white space, so the bare prefix [Bearer ] is never read: any
    header with visible content, [Bearer] alone included, lets the request
    through.  The guard looks for the presence of a credential, of any
    scheme, and never at its content. *)
Theorem middleware_login_redirect_iff (request : NextRequest) :
  (middleware request = Redirect "/login" <->
   startsWith (pathname request) "/dashboard" = true /\
   (cookies request !! "token" = None \/ cookies request !! "token" = Some "") /\
   (rq_headers request !! "authorization" = None \/
    exists raw, rq_headers request !! "authorization" = Some raw /\
                forall c, In c (list_ascii_of_string raw) ->
                          c = ascii_of_nat 9 \/ c = ascii_of_nat 10 \/
                          c = ascii_of_nat 13 \/ c = " "%char)) /\
  headers_get request "Authorization" <> Some "Bearer " /\
  (startsWith (pathname request) "/dashboard" = true ->
   headers_get request "Authorization" = Some "Bearer" ->
   middleware request = Next).
Proof.
  assert (Hws : forall c, http_whitespace c = true <->
                          c = ascii_of_nat 9 \/ c = ascii_of_nat 10 \/
                          c = ascii_of_nat 13 \/ c = " "%char).
  { intros c. unfold http_whitespace. rewrite !orb_true_iff, !Nat.eqb_eq.
    split.
    - intros [[[H|H]|H]|H]; rewrite <- (ascii_nat_embedding c), H; auto.
    - intros [->|[->|[->| ->]]]; cbn; auto. }
  assert (Hhdr : truthy_opt (option_map (fun h => replace h "Bearer " "")
                               (headers_get request "Authorization")) = false <->
                 (rq_headers request !! "authorization" = None \/
                  exists raw, rq_headers request !! "authorization" = Some raw /\
                              forall c, In c (list_ascii_of_string raw) ->
                                        c = ascii_of_nat 9 \/ c = ascii_of_nat 10 \/
                                        c = ascii_of_nat 13 \/ c = " "%char)).
  { pose proof (headers_get_never_bare_prefix request "Authorization") as Hbare.
    unfold headers_get in *. change (byte_lowercase "Authorization") with "authorization" in *.
    destruct (rq_headers request !! "authorization") as [raw|]; cbn [option_map truthy_opt] in *.
    - rewrite truthy_false_iff, replace_bearer_empty. split.
      + intros [H|H]; [|rewrite H in Hbare; contradiction].
        right. exists raw. split; [reflexivity|].
        intros c Hc. apply Hws. apply (proj1 (normalize_empty raw) H c Hc).
      + intros [H|(raw' & H & Hall)]; [discriminate H|]. injection H as <-.
        left. apply normalize_empty. intros c Hc. apply Hws, Hall, Hc.
    - split; [intros _; left; reflexivity|reflexivity]. }
  assert (Hck : truthy_opt (cookie_value request "token") = false <->
                (cookies request !! "token" = None \/ cookies request !! "token" = Some "")).
  { unfold cookie_value. destruct (cookies request !! "token") as [v|]; cbn [truthy_opt].
    - rewrite truthy_false_iff. split.
      + intros ->. right; reflexivity.
      + intros [H|H]; [discriminate H|injection H as ->; reflexivity].
    - split; [intros _; left; reflexivity|reflexivity]. }
  assert (Hmid : startsWith (pathname request) "/dashboard" = true ->
                 middleware request =
                 if negb (truthy_opt
                            (or_undefined (cookie_value request "token")
                               (option_map (fun h => replace h "Bearer " "")
                                  (headers_get request "Authorization"))))
                 then Redirect "/login" else Next).
  { intros Hp. unfold middleware, isProtectedPath, protectedPaths.
    cbn [existsb]. rewrite orb_false_r, Hp.
    assert (Hl : String.eqb (pathname request) "/login" = false).
    { apply String.eqb_neq. intros E. rewrite E in Hp. discriminate Hp. }
    rewrite Hl. destruct (negb _); reflexivity. }
  split; [|split].
  - rewrite <- Hhdr, <- Hck.
    destruct (startsWith (pathname request) "/dashboard") eqn:Hp.
    + rewrite (Hmid eq_refl). unfold or_undefined.
      destruct (truthy_opt (cookie_value request "token")) eqn:Hc.
      * rewrite Hc. cbn [negb]. split; [discriminate|intros (_ & H & _); discriminate H].
      * destruct (truthy_opt (option_map _ _)); cbn [negb].
        -- split; [discriminate|intros (_ & _ & H); discriminate H].
        -- split; [intros _; repeat split|reflexivity].
    + split; [|intros (H & _); discriminate H].
      unfold middleware, isProtectedPath, protectedPaths.
      cbn [existsb]. rewrite orb_false_r, Hp.
      destruct (String.eqb (pathname request) "/login");
        [destruct (truthy_opt (cookie_value request "token"))|]; discriminate.
  - apply headers_get_never_bare_prefix.
  - intros Hp Hh. rewrite (Hmid Hp), Hh. unfold or_undefined.
    destruct (truthy_opt (cookie_value request "token")) eqn:Hc;
      [rewrite Hc|]; reflexivity.
Qed.

Lemma middleware_login_redirect_iff_witness :
  middleware (mkRequest "/dashboard/users" ∅ {[ "authorization" := "Bearer " ]}) = Next /\
  middleware (mkRequest "/dashboard/users" ∅ {[ "authorization" := "  " ]}) =
  Redirect "/login".
Proof.
  split.
  - apply (proj2 (proj2 (middleware_login_redirect_iff
                           (mkRequest "/dashboard/users" ∅
                              {[ "authorization" := "Bearer " ]})))); reflexivity.
  - apply (proj1 (middleware_login_redirect_iff
                    (mkRequest "/dashboard/users" ∅ {[ "authorization" := "  " ]}))).
    split; [reflexivity|]. split; [left; reflexivity|].
    right. exists "  ". split; [reflexivity|].
    intros c [<-|[<-|[]]]; auto.
Defined.

Lemma admin_pattern_second_char (p : string) :
  matches "/admin/:path*" p = true ->
  startsWith p "/dashboard" = false /\ String.eqb p "/login" = false.
Proof.
  unfold matches.
  change (wildcard_base "/admin/:path*") with (Some "/admin").
  intros H. apply orb_prop in H as [H|H].
  - apply String.eqb_eq in H. subst p. split; reflexivity.
  - change (String.append "/admin" "/") with "/admin/" in H.
    apply startsWith_split in H. rewrite H. split; reflexivity.
Qed.

(** X2. The edge, matcher included, never redirects to the login route,
    whatever the request; its only redirect is the one away from [/login]
    for a visitor whose [token] cookie is not empty, and every other
    request goes through. *)
Theorem edge_never_redirects_to_login (request : NextRequest) :
  edge request <> Redirect "/login" /\
  (edge request = Redirect "/dashboard" <->
   pathname request = "/login" /\
   exists v, cookie_value request "token" = Some v /\ v <> "") /\
  (edge request <> Redirect "/dashboard" -> edge request = Next).
Proof.
  assert (Hedge : edge request =
                  if String.eqb (pathname request) "/login" &&
                     truthy_opt (cookie_value request "token")
                  then Redirect "/dashboard" else Next).
  { unfold edge, matcher. cbn [existsb]. rewrite orb_false_r.
    destruct (String.eqb_spec (pathname request) "/login") as [E|E].
    - rewrite E. unfold middleware, isProtectedPath. rewrite E. reflexivity.
    - destruct (matches "/admin/:path*" (pathname request)) eqn:Ha.
      + apply admin_pattern_second_char in Ha as [Hd Hl].
        unfold middleware, isProtectedPath, protectedPaths. cbn [orb existsb].
        rewrite Hd, Hl. reflexivity.
      + assert (Hl : matches "/login" (pathname request) = false).
        { unfold matches. change (wildcard_base "/login") with (@None string).
          apply String.eqb_neq. exact E. }
        rewrite Hl. reflexivity. }
  rewrite Hedge.
  destruct (String.eqb_spec (pathname request) "/login") as [E|E]; cbn [andb].
  - destruct (cookie_value request "token") as [v|]; cbn [truthy_opt].
    + destruct (truthy v) eqn:Ht.
      * split; [discriminate|]. split; [|intros H; contradiction].
        split; [intros _|reflexivity]. split; [exact E|].
        exists v. split; [reflexivity|]. intros ->. discriminate Ht.
      * apply truthy_false_iff in Ht. subst v.
        split; [discriminate|]. split; [|reflexivity].
        split; [discriminate|].
        intros (_ & v & Hv & Hne). injection Hv as <-. contradiction.
    + split; [discriminate|]. split; [|reflexivity].
      split; [discriminate|].
      intros (_ & v & Hv & _). discriminate Hv.
  - split; [discriminate|]. split; [|reflexivity].
    split; [discriminate|]. intros (H & _). contradiction.
Qed.

(** ** utils/auth.ts *)

Lemma strict_eq_str_true (v : option json) (s : string) :
  strict_eq_str v s = true <-> v = Some (JStr s).
Proof.
  destruct v as [[| | |t| |]|]; cbn; try (split; [discriminate|intros H; discriminate H]).
  rewrite String.eqb_eq. split; [intros ->; reflexivity|intros H; injection H as ->; reflexivity].
Qed.

Lemma truthy_true_iff (s : string) : truthy s = true <-> s <> "".
Proof.
  unfold truthy. destruct (String.eqb_spec s ""); cbn; split; congruence.
Qed.

Lemma holds_admin_session_true (JSON_parse : string -> completion json) (sto : Storage) :
  holds_admin_session JSON_parse sto = true <->
  exists items tok str v,
    sto = Local items /\
    items !! "token" = Some tok /\ tok <> "" /\
    items !! "user" = Some str /\ str <> "" /\
    JSON_parse str = Normal v /\ truthy_json v = true /\
    prop v "role" = Some (JStr "admin").
Proof.
  split.
  - destruct sto as [|e|items]; cbn; try discriminate.
    destruct (items !! "token") as [tok|] eqn:Ht; cbn; [|discriminate].
    destruct (items !! "user") as [str|] eqn:Hu; [|rewrite andb_false_r; discriminate].
    destruct (JSON_parse str) as [v|e] eqn:Hp; [|rewrite !andb_false_r; discriminate].
    intros H. apply andb_prop in H as [H1 H]. apply andb_prop in H as [H2 H].
    apply andb_prop in H as [H3 H4].
    exists items, tok, str, v. repeat split; try assumption; try reflexivity.
    + apply truthy_true_iff; exact H1.
    + apply truthy_true_iff; exact H2.
    + apply strict_eq_str_true; exact H4.
  - intros (items & tok & str & v & -> & Ht & Hne & Hu & Hse & Hp & Hv & Hr).
    cbn. rewrite Ht, Hu, Hp, Hv. cbn.
    apply truthy_true_iff in Hne, Hse. rewrite Hne, Hse.
    apply strict_eq_str_true in Hr. rewrite Hr. reflexivity.
Qed.

(** X3. In both revisions [isAuthenticated] answers [true] exactly when the
    storage can be read, holds a non-empty token and a non-empty user
    string, and that string parses to a truthy value whose [role] is the
    string ["admin"]. *)
Theorem isAuthenticated_true_iff
    (JSON_parse : string -> completion json) {St Act} (w : World St Act) :
  let admin_session :=
    exists items tok str v,
      storage w = Local items /\
      items !! "token" = Some tok /\ tok <> "" /\
      items !! "user" = Some str /\ str <> "" /\
      JSON_parse str = Normal v /\ truthy_json v = true /\
      prop v "role" = Some (JStr "admin") in
  (outcome (AuthGuarded.isAuthenticated JSON_parse) w = Normal true <-> admin_session) /\
  (outcome (AuthPlain.isAuthenticated JSON_parse) w = Normal true <-> admin_session).
Proof.
  cbv zeta. rewrite <- holds_admin_session_true. split.
  - rewrite guarded_isAuthenticated_reads.
    destruct (holds_admin_session JSON_parse (storage w)); split; congruence.
  - destruct w as [s [|e|items] tr]; cbn [storage].
    + cbn. split; discriminate.
    + cbn. split; discriminate.
    + unfold AuthPlain.isAuthenticated, AuthPlain.getStoredToken,
        AuthPlain.getStoredUser, window_undefined, localStorage_getItem.
      run_handler. unfold holds_admin_session.
      destruct (items !! "user") as [str|]; cbn.
      * destruct (truthy str); cbn.
        -- destruct (JSON_parse str); cbn.
           ++ rewrite andb_assoc.
              destruct (_ && _ && _); split; congruence.
           ++ rewrite !andb_false_r. split; discriminate.
        -- rewrite !andb_false_r. split; congruence.
      * rewrite !andb_false_r. split; congruence.
Qed.

(** X4. The guarded [removeStoredAuth] never throws and leaves the
    component state alone; afterwards no token can be read and
    [isAuthenticated] answers [false].  On readable storage it removes the
    [token] and [user] entries and keeps every other entry, and the first
    revision does exactly the same. *)
Theorem removeStoredAuth_logs_out
    (JSON_parse : string -> completion json) {St Act} (w : World St Act) :
  let w' := exec AuthGuarded.removeStoredAuth w in
  outcome AuthGuarded.removeStoredAuth w = Normal tt /\
  state w' = state w /\
  stored_token (storage w') = None /\
  outcome (AuthGuarded.isAuthenticated JSON_parse) w' = Normal false /\
  (forall items, storage w = Local items ->
     AuthPlain.removeStoredAuth w = AuthGuarded.removeStoredAuth w /\
     exists items',
       storage w' = Local items' /\
       items' !! "token" = None /\ items' !! "user" = None /\
       forall k, k <> "token" -> k <> "user" -> items' !! k = items !! k).
Proof.
  cbv zeta. rewrite guarded_isAuthenticated_reads.
  destruct w as [s [|e|items] tr].
  - do 4 (split; [reflexivity|]). intros items' H; discriminate H.
  - do 4 (split; [reflexivity|]). intros items' H; discriminate H.
  - split; [reflexivity|]. split; [reflexivity|].
    assert (Hs : storage (exec AuthGuarded.removeStoredAuth
                            (mkWorld s (Local items) tr)) =
                 Local (delete "user" (delete "token" items))) by reflexivity.
    rewrite Hs. cbn [stored_token holds_admin_session].
    rewrite lookup_delete_ne by discriminate. rewrite lookup_delete_eq.
    split; [reflexivity|]. split; [reflexivity|].
    intros items0 H. injection H as <-. split; [reflexivity|].
    eexists. split; [reflexivity|]. split; [|split].
    + rewrite lookup_delete_ne by discriminate. apply lookup_delete_eq.
    + apply lookup_delete_eq.
    + intros k H1 H2. rewrite !lookup_delete_ne by congruence. reflexivity.
Qed.

(** ** app/login/page.tsx *)

(** Case analysis on whatever the run still branches on. *)
Ltac break_match :=
  match goal with
  | |- context [match ?x with _ => _ end] =>
      lazymatch x with
      | context [match _ with _ => _ end] => fail
      | _ => destruct x eqn:?
      end
  end.

Ltac login_cases :=
  unfold Login.handleSubmit, localStorage_setItem, router_push;
  repeat (run_handler;
          cbn [Login.step Login.email Login.password Login.body_status negb orb andb];
          try break_match).

(** X5. Every run of the login handler completes normally and ends with
    [loading] cleared, whatever the fields hold and whatever the network
    and the storage do. *)
Theorem login_always_clears_loading JSON_stringify net (w : Login.W) :
  outcome (Login.handleSubmit JSON_stringify net) w = Normal tt /\
  Login.loading (state (exec (Login.handleSubmit JSON_stringify net) w)) = false.
Proof.
  destruct w as [[em pw ld er re sp] sto tr].
  login_cases; split; reflexivity.
Qed.

(** X6. With the email or the password empty the handler sends no request:
    it shows the validation message, clears [loading] and leaves the
    storage alone. *)
Theorem login_requires_both_fields JSON_stringify net (w : Login.W) :
  Login.email (state w) = "" \/ Login.password (state w) = "" ->
  let w' := exec (Login.handleSubmit JSON_stringify net) w in
  requests (trace w') = requests (trace w) /\
  Login.error (state w') = "Email and password are required" /\
  Login.roleError (state w') = "" /\
  Login.loading (state w') = false /\
  storage w' = storage w.
Proof.
  intros H; cbv zeta.
  destruct w as [[em pw ld er re sp] sto tr]; cbn [state Login.email Login.password] in H.
  assert (Hb : negb (truthy em) || negb (truthy pw) = true).
  { destruct H as [->| ->]; cbn; [reflexivity|apply orb_true_r]. }
  unfold Login.handleSubmit. run_handler.
  cbn [Login.step Login.email Login.password]. rewrite Hb. run_handler.
  cbn [Login.step Login.error Login.roleError Login.loading].
  split; [|repeat split]. requests_norm. reflexivity.
Qed.

Lemma login_requires_both_fields_witness :
  requests (trace (exec (Login.handleSubmit JsonSubset.JSON_stringify
                           (fun _ _ => Responded Samples.login_as_admin))
                     (mkWorld (Login.mkState "siti@mail.id" "" false "" "" false)
                        (Local ∅) []))) = [].
Proof.
  apply (login_requires_both_fields JsonSubset.JSON_stringify
           (fun _ _ => Responded Samples.login_as_admin)
           (mkWorld (Login.mkState "siti@mail.id" "" false "" "" false) (Local ∅) [])).
  right. reflexivity.
Defined.

(** X7. A successful admin login on readable storage stores the token
    under [token] and the serialised user under [user], touching no other
    entry, then pushes [/dashboard]; no message is shown.  When the
    platform's [JSON.parse] gives the serialised user back with its role,
    the Auth Store then sees an admin session exactly when the token is
    not empty. *)
Theorem login_admin_opens_session
    JSON_stringify JSON_parse net (w : Login.W) items r st user token v :
  truthy (Login.email (state w)) = true ->
  truthy (Login.password (state w)) = true ->
  storage w = Local items ->
  answers net r -> r_ok r = true ->
  r_json r = Normal (Login.LoginResponse st user token) ->
  st = "success" -> Login.role user = "admin" ->
  JSON_stringify user <> "" ->
  JSON_parse (JSON_stringify user) = Normal v ->
  truthy_json v = true -> prop v "role" = Some (JStr (Login.role user)) ->
  let w' := exec (Login.handleSubmit JSON_stringify net) w in
  storage w' = Local (<["user" := JSON_stringify user]> (<["token" := token]> items)) /\
  last (requests (trace w')) =
    Some (EvFetch (mkUrl Login.login_url [])
            (Login.login_init (Login.email (state w)) (Login.password (state w)))) /\
  In (EvPush "/dashboard") (trace w') /\
  Login.error (state w') = "" /\ Login.roleError (state w') = "" /\
  Login.loading (state w') = false /\
  outcome (AuthGuarded.isAuthenticated JSON_parse) w' = Normal (truthy token).
Proof.
  intros Hem Hpw Hsto Hnet Hok Hjson -> Hrole Hne Hparse Hv Hprop; cbv zeta.
  rewrite guarded_isAuthenticated_reads.
  destruct w as [[em pw ld er re sp] sto tr]; cbn [state storage trace] in *.
  cbn [Login.email Login.password] in *. subst sto.
  unfold Login.handleSubmit, localStorage_setItem, router_push. run_handler.
  cbn [Login.step Login.email Login.password]. rewrite Hem, Hpw. cbn [negb orb].
  run_handler. rewrite Hnet. run_handler. rewrite Hjson. run_handler.
  rewrite Hok. cbn [Login.body_status andb]. rewrite String.eqb_refl.
  rewrite Hrole, String.eqb_refl. cbn [negb]. run_handler. cbn [Login.step].
  split; [reflexivity|]. split; [|split].
  - requests_norm. rewrite last_snoc. reflexivity.
  - apply in_or_app; left. apply in_or_app; right. left. reflexivity.
  - split; [reflexivity|]. split; [reflexivity|]. split; [reflexivity|].
    cbn [holds_admin_session].
    rewrite lookup_insert_ne by discriminate. rewrite lookup_insert_eq.
    rewrite lookup_insert_eq. cbn [truthy_opt].
    rewrite Hparse, Hv, Hprop, Hrole.
    apply truthy_true_iff in Hne. rewrite Hne. cbn.
    rewrite !andb_true_r. reflexivity.
Qed.

Lemma login_admin_opens_session_witness :
  let w' := exec (Login.handleSubmit JsonSubset.JSON_stringify
                    (fun _ _ => Responded Samples.login_as_admin))
              Samples.login_world in
  In (EvPush "/dashboard") (trace w') /\
  outcome (AuthGuarded.isAuthenticated JsonSubset.JSON_parse) w' = Normal true.
Proof.
  destruct (login_admin_opens_session JsonSubset.JSON_stringify JsonSubset.JSON_parse
              (fun _ _ => Responded Samples.login_as_admin)
              Samples.login_world ∅ Samples.login_as_admin
              "success" Samples.admin1 "tok-9"
              (JObj [("userID", JStr "a1"); ("username", JStr "Siti");
                     ("email", JStr "siti@mail.id"); ("vehicles", JArr []);
                     ("role", JStr "admin")]))
    as (_ & _ & Hpush & _ & _ & _ & Hauth).
  - reflexivity.
  - reflexivity.
  - reflexivity.
  - intros u init; reflexivity.
  - reflexivity.
  - reflexivity.
  - reflexivity.
  - reflexivity.
  - discriminate.
  - reflexivity.
  - reflexivity.
  - reflexivity.
  - split; [exact Hpush|exact Hauth].
Defined.

Ltac no_new_push Hin :=
  repeat (apply in_app_or in Hin as [Hin|Hin];
          [|solve [cbn in Hin; repeat (destruct Hin as [Hin|Hin]; try discriminate Hin);
                   try contradiction]]);
  exact Hin.

(** X8. The login handler writes to the storage or pushes a route only
    after the login request was answered 2xx with status ["success"] and a
    user whose role is ["admin"]; on every other path the storage is what
    it was and no route is pushed. *)
Theorem login_writes_only_for_admins JSON_stringify net (w : Login.W) :
  let w' := exec (Login.handleSubmit JSON_stringify net) w in
  (storage w' <> storage w \/
   exists path, In (EvPush path) (trace w') /\ ~ In (EvPush path) (trace w)) ->
  exists r user token,
    net (mkUrl Login.login_url [])
      (Login.login_init (Login.email (state w)) (Login.password (state w))) = Responded r /\
    r_ok r = true /\
    r_json r = Normal (Login.LoginResponse "success" user token) /\
    Login.role user = "admin".
Proof.
  cbv zeta. destruct w as [[em pw ld er re sp] sto tr].
  cbn [state storage trace Login.email Login.password].
  login_cases.
  all: try solve [intros [Hs|(path & Hin & Hnin)];
                  [exfalso; apply Hs; reflexivity
                  |exfalso; apply Hnin; cbn [trace] in Hin; no_new_push Hin]].
  all: intros _.
  all: match goal with
       | Hok : r_ok ?r && _ = true, Hj : r_json ?r = Normal (Login.LoginResponse ?st ?u ?t),
         Hr : negb (String.eqb (Login.role ?u) "admin") = false |- _ =>
           apply andb_prop in Hok as [Hok Hst]; apply String.eqb_eq in Hst;
           apply negb_false_iff, String.eqb_eq in Hr;
           cbn [Login.body_status] in Hst; subst st;
           exists r, u, t; repeat split; assumption
       end.
Qed.

Lemma login_writes_only_for_admins_witness :
  exists r user token,
    Responded Samples.login_as_admin = Responded r /\
    r_ok r = true /\
    r_json r = Normal (Login.LoginResponse "success" user token) /\
    Login.role user = "admin".
Proof.
  apply (login_writes_only_for_admins JsonSubset.JSON_stringify
           (fun _ _ => Responded Samples.login_as_admin) Samples.login_world).
  right. exists "/dashboard". split.
  - vm_compute. tauto.
  - intros H; exact H.
Defined.

(** X9. A refused login is reported with the server's message when it has
    one and with ['Login failed.'] otherwise; a request that gets no answer,
    or an answer that is not JSON, is reported as a network error.  In both
    cases nothing is stored. *)
Theorem login_failure_messages JSON_stringify net (w : Login.W) :
  truthy (Login.email (state w)) = true ->
  truthy (Login.password (state w)) = true ->
  let w' := exec (Login.handleSubmit JSON_stringify net) w in
  (forall r st msg,
     answers net r -> r_json r = Normal (Login.ErrorResponse st msg) ->
     r_ok r = false \/ st <> "success" ->
     Login.error (state w') = (if truthy msg then msg else "Login failed.") /\
     storage w' = storage w) /\
  (forall e, (forall u init, net u init = Rejected e) ->
     Login.error (state w') = "Network error. Please try again." /\
     storage w' = storage w) /\
  (forall r e, answers net r -> r_json r = Throw e ->
     Login.error (state w') = "Network error. Please try again." /\
     storage w' = storage w).
Proof.
  intros Hem Hpw; cbv zeta.
  destruct w as [[em pw ld er re sp] sto tr]; cbn [state storage Login.email Login.password] in *.
  unfold Login.handleSubmit. run_handler.
  cbn [Login.step Login.email Login.password]. rewrite Hem, Hpw. cbn [negb orb].
  run_handler. split; [|split].
  - intros r st msg Hnet Hjson Hfail. rewrite Hnet. run_handler. rewrite Hjson.
    run_handler. cbn [Login.body_status].
    assert (Hb : r_ok r && String.eqb st "success" = false).
    { destruct Hfail as [->|Hst]; [reflexivity|].
      apply String.eqb_neq in Hst. rewrite Hst. apply andb_false_r. }
    rewrite Hb. run_handler. cbn [Login.step Login.error]. unfold or_else.
    split; reflexivity.
  - intros e Hnet. rewrite Hnet. run_handler. split; reflexivity.
  - intros r e Hnet Hjson. rewrite Hnet. run_handler. rewrite Hjson. run_handler.
    split; reflexivity.
Qed.

Lemma login_failure_messages_witness :
  Login.error (state (exec (Login.handleSubmit JsonSubset.JSON_stringify
                              (fun _ _ => Responded Samples.login_refused))
                        Samples.login_world)) = "Invalid credentials".
Proof.
  apply (proj1 (login_failure_messages JsonSubset.JSON_stringify
                  (fun _ _ => Responded Samples.login_refused)
                  Samples.login_world eq_refl eq_refl)
           Samples.login_refused "error" "Invalid credentials").
  - intros u init; reflexivity.
  - reflexivity.
  - left; reflexivity.
Defined.

(** X10. When the storage cannot be written, a successful admin login
    ends as a network error: the message is shown, no route is pushed and
    the storage is left as it was. *)
Theorem login_storage_failure_reported_as_network_error
    JSON_stringify net (w : Login.W) r st user token :
  truthy (Login.email (state w)) = true ->
  truthy (Login.password (state w)) = true ->
  (forall items, storage w <> Local items) ->
  answers net r -> r_ok r = true ->
  r_json r = Normal (Login.LoginResponse st user token) ->
  st = "success" -> Login.role user = "admin" ->
  let w' := exec (Login.handleSubmit JSON_stringify net) w in
  Login.error (state w') = "Network error. Please try again." /\
  storage w' = storage w /\
  (forall path, In (EvPush path) (trace w') -> In (EvPush path) (trace w)).
Proof.
  intros Hem Hpw Hsto Hnet Hok Hjson -> Hrole; cbv zeta.
  destruct w as [[em pw ld er re sp] sto tr]; cbn [state storage trace] in *.
  cbn [Login.email Login.password] in *.
  unfold Login.handleSubmit, localStorage_setItem, router_push. run_handler.
  cbn [Login.step Login.email Login.password]. rewrite Hem, Hpw. cbn [negb orb].
  run_handler. rewrite Hnet. run_handler. rewrite Hjson. run_handler.
  rewrite Hok. cbn [Login.body_status andb]. rewrite String.eqb_refl.
  rewrite Hrole, String.eqb_refl. cbn [negb]. run_handler.
  destruct sto as [|e|items]; [| |exfalso; apply (Hsto items); reflexivity];
    run_handler; (split; [reflexivity|]); (split; [reflexivity|]);
    intros path Hin; no_new_push Hin.
Qed.

Lemma login_storage_failure_reported_as_network_error_witness :
  Login.error (state (exec (Login.handleSubmit JsonSubset.JSON_stringify
                              (fun _ _ => Responded Samples.login_as_admin))
                        (mkWorld (Login.mkState "siti@mail.id" "secret" false "" "" false)
                           (Blocked (ErrorObj "SecurityError")) []))) =
  "Network error. Please try again.".
Proof.
  apply (login_storage_failure_reported_as_network_error JsonSubset.JSON_stringify
           (fun _ _ => Responded Samples.login_as_admin)
           (mkWorld (Login.mkState "siti@mail.id" "secret" false "" "" false)
              (Blocked (ErrorObj "SecurityError")) [])
           Samples.login_as_admin "success" Samples.admin1 "tok-9").
  - reflexivity.
  - reflexivity.
  - intros items; discriminate.
  - intros u init; reflexivity.
  - reflexivity.
  - reflexivity.
  - reflexivity.
  - reflexivity.
Defined.

(** ** The three list views *)

(** Both revisions of the Auth Store provide a [token_reader]. *)
Lemma auth_token_readers {St Act} :
  token_reader (St:=St) (Act:=Act) AuthGuarded.getStoredToken /\
  token_reader (St:=St) (Act:=Act) AuthPlain.getStoredToken.
Proof.
  split; intros [s [|e|items] tr];
    unfold AuthGuarded.getStoredToken, AuthPlain.getStoredToken,
      window_undefined, localStorage_getItem; run_handler.
  all: try (eexists; exists []; rewrite app_nil_r;
            split; [reflexivity|]; split; [reflexivity|];
            split; [intros p H; exact H|]; split; [intros a H; exact H|];
            intros tok H; first [discriminate H|injection H as H; exact H]).
  eexists; eexists; split; [reflexivity|]; split; [reflexivity|].
  split; [intros p [H|H]; [discriminate H|exact H]|].
  split; [intros a [H|H]; [discriminate H|exact H]|].
  intros tok H; discriminate H.
Qed.

Ltac use_reader Hreader :=
  match goal with
  | |- context [?g ?w0] =>
      match type of Hreader with
      | token_reader g =>
          let res := fresh "res" in
          let logs := fresh "logs" in
          let Hrun := fresh "Hrun" in
          let Hreq := fresh "Hreq" in
          let Hpush := fresh "Hpush" in
          let Hset := fresh "Hset" in
          let Htok := fresh "Htok" in
          destruct (Hreader w0) as (res & logs & Hrun & Hreq & Hpush & Hset & Htok);
          rewrite Hrun; cbn [state storage trace] in *
      end
  end.

Lemma requests_app {Act} (a b : list (Event Act)) :
  requests (a ++ b) = requests a ++ requests b.
Proof. apply List.filter_app. Qed.

Lemma fetchUsers_requests getStoredToken net (w : UsersManagement.W) :
  token_reader getStoredToken ->
  let w' := exec (UsersManagement.fetchUsers getStoredToken net) w in
  requests (trace w') = requests (trace w) \/
  exists tok,
    stored_token (storage w) = Some tok /\ tok <> "" /\
    requests (trace w') =
    requests (trace w) ++
    [EvFetch (mkUrl UsersManagement.users_url []) (bearer_init tok)].
Proof.
  intros Hreader; cbv zeta. destruct w as [s sto tr].
  unfold UsersManagement.fetchUsers. run_handler. use_reader Hreader.
  destruct res as [[tok|]|e]; run_handler.
  - destruct (truthy tok) eqn:Ht; run_handler.
    + right. exists tok. split; [apply Htok; reflexivity|].
      split; [apply truthy_true_iff; exact Ht|].
      repeat (break_match; run_handler).
      all: rewrite ?requests_app, Hreq; cbn; rewrite ?app_nil_r; reflexivity.
    + left. rewrite ?requests_app, Hreq; cbn; rewrite ?app_nil_r; reflexivity.
  - left. rewrite ?requests_app, Hreq; cbn; rewrite ?app_nil_r; reflexivity.
  - left. rewrite ?requests_app, Hreq; cbn; rewrite ?app_nil_r; reflexivity.
Qed.

Ltac req_done Hreq :=
  rewrite ?requests_app, ?Hreq; cbn; rewrite ?app_nil_r; reflexivity.

Lemma fetchActiveParkingSessions_requests getStoredToken net (w : ActiveParking.W) :
  token_reader getStoredToken ->
  let w' := exec (ActiveParking.fetchActiveParkingSessions getStoredToken net) w in
  requests (trace w') = requests (trace w) \/
  exists tok,
    stored_token (storage w) = Some tok /\ tok <> "" /\
    requests (trace w') =
    requests (trace w) ++
    [EvFetch (mkUrl ActiveParking.active_url []) (bearer_init tok)].
Proof.
  intros Hreader; cbv zeta. destruct w as [s sto tr].
  unfold ActiveParking.fetchActiveParkingSessions. run_handler. use_reader Hreader.
  destruct res as [[tok|]|e]; run_handler;
    [destruct (truthy tok) eqn:Ht; run_handler| |];
    repeat (break_match; run_handler).
  all: first
         [ left; req_done Hreq
         | right; exists tok; split; [apply Htok; reflexivity|];
           split; [apply truthy_true_iff; exact Ht|]; req_done Hreq ].
Qed.

Lemma fetchParkingHistory_requests getStoredToken toISOString net (w : ParkingHistory.W) :
  token_reader getStoredToken ->
  let w' := exec (ParkingHistory.fetchParkingHistory getStoredToken toISOString net) w in
  requests (trace w') = requests (trace w) \/
  exists tok q,
    stored_token (storage w) = Some tok /\ tok <> "" /\
    requests (trace w') =
    requests (trace w) ++
    [EvFetch (mkUrl ParkingHistory.history_url q) (bearer_init tok)].
Proof.
  intros Hreader; cbv zeta. destruct w as [s sto tr].
  unfold ParkingHistory.fetchParkingHistory, ParkingHistory.build_params, ParkingHistory.iso.
  run_handler. use_reader Hreader.
  destruct res as [[tok|]|e]; run_handler;
    [destruct (truthy tok) eqn:Ht; run_handler| |];
    repeat (break_match; run_handler).
  all: first
         [ left; req_done Hreq
         | right; exists tok; eexists; split; [apply Htok; reflexivity|];
           split; [apply truthy_true_iff; exact Ht|]; req_done Hreq ].
Qed.

(** X11. A refresh of any of the three lists sends at most one request,
    and only with the token the storage holds: a [GET] without body to the
    list's endpoint, whose headers are [Authorization: Bearer <token>] and
    [Content-Type: application/json]; when no non-empty token is stored no
    request is sent at all. *)
Theorem refresh_sends_only_the_stored_token :
  (forall getStoredToken toISOString net (w : ParkingHistory.W),
     token_reader getStoredToken ->
     let w' := exec (ParkingHistory.fetchParkingHistory getStoredToken toISOString net) w in
     requests (trace w') = requests (trace w) \/
     exists tok q,
       stored_token (storage w) = Some tok /\ tok <> "" /\
       requests (trace w') =
       requests (trace w) ++
       [EvFetch
          (mkUrl "https://smartpark-backend.vercel.app/api/parking/admin/history" q)
          (mkInit (Some "GET")
             (Some (HRecord (<["Authorization" := String.append "Bearer " tok]>
                               {[ "Content-Type" := "application/json" ]})))
             None)]) /\
  (forall getStoredToken net (w : ActiveParking.W),
     token_reader getStoredToken ->
     let w' := exec (ActiveParking.fetchActiveParkingSessions getStoredToken net) w in
     requests (trace w') = requests (trace w) \/
     exists tok,
       stored_token (storage w) = Some tok /\ tok <> "" /\
       requests (trace w') =
       requests (trace w) ++
       [EvFetch
          (mkUrl "https://smartpark-backend.vercel.app/api/parking/admin/active" [])
          (mkInit (Some "GET")
             (Some (HRecord (<["Authorization" := String.append "Bearer " tok]>
                               {[ "Content-Type" := "application/json" ]})))
             None)]) /\
  (forall getStoredToken net (w : UsersManagement.W),
     token_reader getStoredToken ->
     let w' := exec (UsersManagement.fetchUsers getStoredToken net) w in
     requests (trace w') = requests (trace w) \/
     exists tok,
       stored_token (storage w) = Some tok /\ tok <> "" /\
       requests (trace w') =
       requests (trace w) ++
       [EvFetch
          (mkUrl "https://smartpark-backend.vercel.app/api/users/all" [])
          (mkInit (Some "GET")
             (Some (HRecord (<["Authorization" := String.append "Bearer " tok]>
                               {[ "Content-Type" := "application/json" ]})))
             None)]).
Proof.
  split; [|split]; intros.
  - exact (fetchParkingHistory_requests getStoredToken toISOString net w H).
  - exact (fetchActiveParkingSessions_requests getStoredToken net w H).
  - exact (fetchUsers_requests getStoredToken net w H).
Qed.

Lemma refresh_sends_only_the_stored_token_witness :
  requests (trace (exec (UsersManagement.fetchUsers AuthGuarded.getStoredToken
                           (fun _ _ => Responded Samples.users_failure))
                     (mkWorld UsersManagement.initial (Local ∅) []))) = [] /\
  requests (trace (exec (UsersManagement.fetchUsers AuthGuarded.getStoredToken
                           (fun _ _ => Responded Samples.users_failure))
                     Samples.users_world)) =
  [EvFetch (mkUrl "https://smartpark-backend.vercel.app/api/users/all" [])
     (mkInit (Some "GET")
        (Some (HRecord (<["Authorization" := "Bearer abc"]>
                          {[ "Content-Type" := "application/json" ]})))
        None)].
Proof.
  split.
  - destruct (proj2 (proj2 refresh_sends_only_the_stored_token)
                AuthGuarded.getStoredToken
                (fun _ _ => Responded Samples.users_failure)
                (mkWorld UsersManagement.initial (Local ∅) [])
                (proj1 auth_token_readers)) as [H|(tok & Htok & _)].
    + exact H.
    + discriminate Htok.
  - destruct (proj2 (proj2 refresh_sends_only_the_stored_token)
                AuthGuarded.getStoredToken
                (fun _ _ => Responded Samples.users_failure)
                Samples.users_world
                (proj1 auth_token_readers)) as [H|(tok & Htok & _ & H)].
    + vm_compute in H. discriminate H.
    + injection Htok as <-. exact H.
Defined.

Ltac only_on_success :=
  first
    [ let Hc := fresh "Hc" in
      intros [Hc|Hc]; [exfalso; apply Hc; reflexivity|cbn in Hc; discriminate Hc]
    | intros _;
      match goal with
      | Hn : ?net ?u ?i = Responded ?r, Hok : negb (r_ok ?r) = false,
        Hj : r_json ?r = Normal ?b, Hs : String.eqb _ "success" = true |- _ =>
          exists u, i, r, b;
          apply negb_false_iff in Hok; apply String.eqb_eq in Hs;
          repeat split; try assumption; reflexivity
      end ].

(** X12. The items of a list change, and its error is clear after a
    refresh, only if the refresh received a 2xx answer whose envelope has
    status ["success"]; the items are then that envelope's data.  On every
    other path (no token, rejected request, non-2xx status, unreadable
    body, other status) the items are those from before and an error
    message is set. *)
Theorem refresh_changes_items_only_on_success :
  (forall getStoredToken toISOString net (w : ParkingHistory.W),
     token_reader getStoredToken ->
     let w' := exec (ParkingHistory.fetchParkingHistory getStoredToken toISOString net) w in
     ParkingHistory.historyRecords (state w') <> ParkingHistory.historyRecords (state w) \/
     ParkingHistory.error (state w') = None ->
     exists u init r b,
       net u init = Responded r /\ r_ok r = true /\ r_json r = Normal b /\
       ParkingHistory.status b = "success" /\
       ParkingHistory.historyRecords (state w') = ParkingHistory.data b) /\
  (forall getStoredToken net (w : ActiveParking.W),
     token_reader getStoredToken ->
     let w' := exec (ActiveParking.fetchActiveParkingSessions getStoredToken net) w in
     ActiveParking.activeSessions (state w') <> ActiveParking.activeSessions (state w) \/
     ActiveParking.error (state w') = None ->
     exists u init r b,
       net u init = Responded r /\ r_ok r = true /\ r_json r = Normal b /\
       ActiveParking.status b = "success" /\
       ActiveParking.activeSessions (state w') = ActiveParking.data b) /\
  (forall getStoredToken net (w : UsersManagement.W),
     token_reader getStoredToken ->
     let w' := exec (UsersManagement.fetchUsers getStoredToken net) w in
     UsersManagement.users (state w') <> UsersManagement.users (state w) \/
     UsersManagement.error (state w') = None ->
     exists u init r b,
       net u init = Responded r /\ r_ok r = true /\ r_json r = Normal b /\
       UsersManagement.status b = "success" /\
       UsersManagement.users (state w') = UsersManagement.data b).
Proof.
  split; [|split]; intros getStoredToken; intros; revert H0; subst w';
    destruct w as [s sto tr]; destruct s.
  all: unfold ParkingHistory.fetchParkingHistory, ParkingHistory.build_params,
         ParkingHistory.iso, ActiveParking.fetchActiveParkingSessions,
         UsersManagement.fetchUsers.
  all: run_handler; use_reader H.
  all: destruct res as [[tok|]|e]; run_handler;
         [destruct (truthy tok) eqn:Ht; run_handler| |].
  all: cbn [ParkingHistory.step ParkingHistory.startDate ParkingHistory.endDate
            ParkingHistory.selectedPaymentStatus ParkingHistory.pagination
            ParkingHistory.sortBy ParkingHistory.sortOrder].
  all: repeat (break_match; run_handler).
  all: only_on_success.
Qed.

Lemma refresh_changes_items_only_on_success_witness :
  exists u init r b,
    Responded Samples.users_success = Responded r /\ r_ok r = true /\
    r_json r = Normal b /\ UsersManagement.status b = "success" /\
    UsersManagement.users
      (state (exec (UsersManagement.fetchUsers AuthGuarded.getStoredToken
                      (fun _ _ => Responded Samples.users_success))
                Samples.users_world)) = UsersManagement.data b /\
    u = mkUrl UsersManagement.users_url [] /\ init = bearer_init "abc".
Proof.
  destruct (proj2 (proj2 refresh_changes_items_only_on_success)
              AuthGuarded.getStoredToken
              (fun _ _ => Responded Samples.users_success)
              Samples.users_world (proj1 auth_token_readers))
    as (u & init & r & b & H1 & H2 & H3 & H4 & H5).
  - right. reflexivity.
  - exists (mkUrl UsersManagement.users_url []), (bearer_init "abc"), r, b.
    repeat split; assumption.
Defined.

(** X13. When the token is found and the request is answered 2xx with a
    ["success"] envelope, the refresh replaces the items by the envelope's
    data (and, in the history view, the pagination by the envelope's
    pagination), clears any earlier error and ends with loading cleared. *)
Theorem refresh_success_replaces_items :
  (forall getStoredToken toISOString net (w : ParkingHistory.W) tok r b,
     yields_token getStoredToken (storage w) tok -> truthy tok = true ->
     dates_convert toISOString (state w) ->
     answers net r -> r_ok r = true -> r_json r = Normal b ->
     ParkingHistory.status b = "success" ->
     let w' := exec (ParkingHistory.fetchParkingHistory getStoredToken toISOString net) w in
     ParkingHistory.historyRecords (state w') = ParkingHistory.data b /\
     ParkingHistory.pagination (state w') = ParkingHistory.resp_pagination b /\
     ParkingHistory.error (state w') = None /\
     ParkingHistory.isLoading (state w') = false) /\
  (forall getStoredToken net (w : ActiveParking.W) tok r b,
     yields_token getStoredToken (storage w) tok -> truthy tok = true ->
     answers net r -> r_ok r = true -> r_json r = Normal b ->
     ActiveParking.status b = "success" ->
     let w' := exec (ActiveParking.fetchActiveParkingSessions getStoredToken net) w in
     ActiveParking.activeSessions (state w') = ActiveParking.data b /\
     ActiveParking.error (state w') = None /\
     ActiveParking.isLoading (state w') = false) /\
  (forall getStoredToken net (w : UsersManagement.W) tok r b,
     yields_token getStoredToken (storage w) tok -> truthy tok = true ->
     answers net r -> r_ok r = true -> r_json r = Normal b ->
     UsersManagement.status b = "success" ->
     let w' := exec (UsersManagement.fetchUsers getStoredToken net) w in
     UsersManagement.users (state w') = UsersManagement.data b /\
     UsersManagement.error (state w') = None /\
     UsersManagement.isLoading (state w') = false).
Proof.
  split; [|split].
  - intros getStoredToken toISOString net w tok r b Htok Ht [Hsd Hed] Hnet Hok Hjson Hst w';
      subst w'.
    destruct w as [s sto tr]; cbn [state storage] in *.
    unfold ParkingHistory.fetchParkingHistory, ParkingHistory.build_params, ParkingHistory.iso.
    run_handler. rewrite Htok, Ht. run_handler.
    destruct s as [recs pg ld er st ps sd ed sb so];
      cbn [ParkingHistory.step ParkingHistory.startDate ParkingHistory.endDate
           ParkingHistory.selectedPaymentStatus ParkingHistory.pagination
           ParkingHistory.sortBy ParkingHistory.sortOrder] in *.
    destruct (truthy sd) eqn:Esd; [destruct (Hsd eq_refl) as [d1 ->]|];
    (destruct (truthy ed) eqn:Eed; [destruct (Hed eq_refl) as [d2 ->]|]);
    run_handler; rewrite Hnet; run_handler; rewrite Hok; cbn [negb];
    rewrite Hjson; run_handler; rewrite Hst; cbn; auto.
  - intros getStoredToken net w tok r b Htok Ht Hnet Hok Hjson Hst w'; subst w'.
    destruct w as [s sto tr]; cbn [state storage] in *.
    unfold ActiveParking.fetchActiveParkingSessions.
    run_handler. rewrite Htok, Ht. run_handler.
    rewrite Hnet; run_handler; rewrite Hok; cbn [negb].
    rewrite Hjson; run_handler; rewrite Hst. destruct s; cbn; auto.
  - intros getStoredToken net w tok r b Htok Ht Hnet Hok Hjson Hst w'; subst w'.
    destruct w as [s sto tr]; cbn [state storage] in *.
    unfold UsersManagement.fetchUsers.
    run_handler. rewrite Htok, Ht. run_handler.
    rewrite Hnet; run_handler; rewrite Hok; cbn [negb].
    rewrite Hjson; run_handler; rewrite Hst. destruct s; cbn; auto.
Qed.

Lemma refresh_success_replaces_items_witness :
  ParkingHistory.pagination
    (state (exec (ParkingHistory.fetchParkingHistory AuthGuarded.getStoredToken
                    Samples.iso_dates (fun _ _ => Responded Samples.history_success))
              Samples.history_world)) =
  ParkingHistory.mkPagination 45 1 20 3.
Proof.
  apply (proj1 refresh_success_replaces_items
           AuthGuarded.getStoredToken Samples.iso_dates
           (fun _ _ => Responded Samples.history_success) Samples.history_world
           "abc" Samples.history_success
           (ParkingHistory.mkApiResponse "success" [Samples.record1]
              (ParkingHistory.mkPagination 45 1 20 3))).
  - intros st tr; reflexivity.
  - reflexivity.
  - split; intros H; discriminate H.
  - intros u init; reflexivity.
  - reflexivity.
  - reflexivity.
  - reflexivity.
Defined.

(** ** components/ParkingHistory.tsx: pagination footer and table cells *)

Lemma page_buttons_in_range (p : ParkingHistory.PaginationInfo) (n : Z) :
  1 <= ParkingHistory.page p <= ParkingHistory.pages p ->
  In n (ParkingHistory.page_buttons p) -> 1 <= n <= ParkingHistory.pages p.
Proof.
  intros Hp Hin. unfold ParkingHistory.page_buttons, ParkingHistory.pageNum in Hin.
  apply in_map_iff in Hin as (i & <- & Hi). apply in_seq in Hi. lia.
Qed.

(** X14. The pagination footer is on the page exactly when the view is
    not loading, shows no error and has more than one page.  While it is,
    and the current page lies within [1, pages], it holds [min(5, pages)]
    page buttons, every number on them lies within [1, pages], and the
    current page is one of them.  While it is not, there is no page
    button. *)
Theorem page_buttons_cover_current_page (s : ParkingHistory.State) :
  let p := ParkingHistory.pagination s in
  (ParkingHistory.footer_rendered s = true <->
   ParkingHistory.isLoading s = false /\
   (ParkingHistory.error s = None \/ ParkingHistory.error s = Some "") /\
   1 < ParkingHistory.pages p) /\
  (ParkingHistory.footer_rendered s = true ->
   1 <= ParkingHistory.page p <= ParkingHistory.pages p ->
   Z.of_nat (length (ParkingHistory.rendered_page_buttons s)) =
   Z.min 5 (ParkingHistory.pages p) /\
   (forall n, In n (ParkingHistory.rendered_page_buttons s) ->
              1 <= n <= ParkingHistory.pages p) /\
   In (ParkingHistory.page p) (ParkingHistory.rendered_page_buttons s)) /\
  (ParkingHistory.footer_rendered s = false ->
   ParkingHistory.rendered_page_buttons s = []).
Proof.
  cbv zeta. split; [|split].
  - unfold ParkingHistory.footer_rendered, ParkingHistory.screen, ParkingHistory.footer_shown.
    destruct (ParkingHistory.isLoading s);
      [split; [discriminate|intros (H & _); discriminate H]|].
    destruct (ParkingHistory.error s) as [msg|]; cbn [truthy_opt].
    + destruct (truthy msg) eqn:Hm.
      * split; [discriminate|]. intros (_ & [H|H] & _); [discriminate H|].
        injection H as ->. discriminate Hm.
      * apply truthy_false_iff in Hm. subst msg. rewrite Z.ltb_lt.
        split; [intros H; repeat split; [right; reflexivity|exact H]|intros (_ & _ & H); exact H].
    + rewrite Z.ltb_lt.
      split; [intros H; repeat split; [left; reflexivity|exact H]|intros (_ & _ & H); exact H].
  - intros Hr Hp. unfold ParkingHistory.rendered_page_buttons. rewrite Hr.
    split; [|split].
    + unfold ParkingHistory.page_buttons. rewrite length_map, length_seq. lia.
    + intros n Hin. apply (page_buttons_in_range _ n Hp Hin).
    + unfold ParkingHistory.page_buttons, ParkingHistory.pageNum. apply in_map_iff.
      exists (Z.to_nat (ParkingHistory.page (ParkingHistory.pagination s) -
                        Z.max 1 (Z.min (ParkingHistory.page (ParkingHistory.pagination s) - 2)
                                   (ParkingHistory.pages (ParkingHistory.pagination s) - 4)))).
      split; [lia|]. apply in_seq. lia.
  - intros Hr. unfold ParkingHistory.rendered_page_buttons. rewrite Hr. reflexivity.
Qed.

Lemma page_buttons_cover_current_page_witness :
  In 2 (ParkingHistory.rendered_page_buttons (state Samples.history_world)) /\
  ParkingHistory.rendered_page_buttons (state Samples.history_world) = [1; 2; 3] /\
  ParkingHistory.rendered_page_buttons ParkingHistory.initial = [].
Proof.
  split; [|split].
  - apply (proj1 (proj2 (page_buttons_cover_current_page (state Samples.history_world))));
      [reflexivity|cbn; lia].
  - reflexivity.
  - apply (proj2 (proj2 (page_buttons_cover_current_page ParkingHistory.initial))).
    reflexivity.
Defined.

(** X15. For a pagination descriptor that is consistent ([limit] positive,
    [pages] the number of pages [total] items need, the page within
    [1, pages]) the footer's range is a non-empty run of at most [limit]
    items inside [1, total]; it ends at [page * limit] on every page but
    the last, where it ends at [total]. *)
Theorem showing_range_within_total (p : ParkingHistory.PaginationInfo) :
  0 < ParkingHistory.limit p ->
  (ParkingHistory.pages p - 1) * ParkingHistory.limit p < ParkingHistory.total p ->
  ParkingHistory.total p <= ParkingHistory.pages p * ParkingHistory.limit p ->
  1 <= ParkingHistory.page p <= ParkingHistory.pages p ->
  1 <= ParkingHistory.showing_from p <= ParkingHistory.showing_to p /\
  ParkingHistory.showing_to p <= ParkingHistory.total p /\
  ParkingHistory.showing_to p - ParkingHistory.showing_from p + 1 <= ParkingHistory.limit p /\
  (ParkingHistory.page p < ParkingHistory.pages p ->
   ParkingHistory.showing_to p = ParkingHistory.page p * ParkingHistory.limit p) /\
  (ParkingHistory.page p = ParkingHistory.pages p ->
   ParkingHistory.showing_to p = ParkingHistory.total p).
Proof.
  destruct p as [t pg l ps]; unfold ParkingHistory.showing_from, ParkingHistory.showing_to;
    cbn [ParkingHistory.total ParkingHistory.page ParkingHistory.limit ParkingHistory.pages].
  intros Hl Hlo Hhi Hp. repeat split; intros; nia.
Qed.

Lemma showing_range_within_total_witness :
  ParkingHistory.showing_from (ParkingHistory.mkPagination 45 2 20 3) = 21 /\
  ParkingHistory.showing_to (ParkingHistory.mkPagination 45 2 20 3) = 40 /\
  ParkingHistory.showing_to (ParkingHistory.mkPagination 45 3 20 3) = 45.
Proof.
  pose proof (showing_range_within_total (ParkingHistory.mkPagination 45 2 20 3)) as H2.
  pose proof (showing_range_within_total (ParkingHistory.mkPagination 45 3 20 3)) as H3.
  cbn in H2, H3.
  split; [reflexivity|]. split.
  - apply H2; lia.
  - apply H3; lia.
Defined.

Lemma duration_parts_bounds (diff : Z) :
  0 <= diff ->
  let h := ParkingHistory.duration_hours diff in
  let m := ParkingHistory.duration_minutes diff in
  0 <= h /\ 0 <= m < 60 /\
  h * 3600000 + m * 60000 <= diff < h * 3600000 + (m + 1) * 60000.
Proof.
  intros Hd; cbv zeta. unfold ParkingHistory.duration_hours, ParkingHistory.duration_minutes.
  change (1000 * 60 * 60) with 3600000. change (1000 * 60) with 60000.
  rewrite Z.rem_mod_nonneg by lia.
  pose proof (Z.div_mod diff 3600000 ltac:(lia)) as E1.
  pose proof (Z.mod_pos_bound diff 3600000 ltac:(lia)) as B1.
  pose proof (Z.div_mod (diff mod 3600000) 60000 ltac:(lia)) as E2.
  pose proof (Z.mod_pos_bound (diff mod 3600000) 60000 ltac:(lia)) as B2.
  assert (0 <= diff / 3600000) by (apply Z.div_pos; lia).
  assert (0 <= diff mod 3600000 / 60000) by (apply Z.div_pos; lia).
  assert (diff mod 3600000 / 60000 < 60)
    by (apply Z.div_lt_upper_bound; lia).
  lia.
Qed.

(** X16. For a check-out that is not earlier than the check-in, the
    duration cell reads [<h>h <m>m] with [h] whole hours and [m] whole
    minutes, [0 <= m < 60], that together make up the elapsed time rounded
    down to the minute; the active-sessions view computes the same from the
    check-in to now.  An unparsable date gives [NaNh NaNm]. *)
Theorem calculateDuration_whole_minutes (getTime : string -> option Z) :
  (forall inDate outDate a b,
     getTime inDate = Some a -> getTime outDate = Some b -> a <= b ->
     exists h m,
       ParkingHistory.calculateDuration getTime inDate outDate =
       String.append (pretty h) (String.append "h " (String.append (pretty m) "m")) /\
       0 <= h /\ 0 <= m < 60 /\
       (h * 60 + m) * 60000 <= b - a < (h * 60 + m + 1) * 60000) /\
  (forall inDate now a,
     getTime inDate = Some a -> a <= now ->
     exists h m,
       ActiveParking.calculateDuration getTime now inDate =
       String.append (pretty h) (String.append "h " (String.append (pretty m) "m")) /\
       0 <= h /\ 0 <= m < 60 /\
       (h * 60 + m) * 60000 <= now - a < (h * 60 + m + 1) * 60000) /\
  (forall inDate outDate,
     getTime inDate = None \/ getTime outDate = None ->
     ParkingHistory.calculateDuration getTime inDate outDate = "NaNh NaNm").
Proof.
  split; [|split].
  - intros inDate outDate a b Ha Hb Hab.
    unfold ParkingHistory.calculateDuration. rewrite Ha, Hb.
    pose proof (duration_parts_bounds (b - a) ltac:(lia)) as H; cbv zeta in H.
    eexists _, _. split; [reflexivity|]. lia.
  - intros inDate now a Ha Hab.
    unfold ActiveParking.calculateDuration. rewrite Ha.
    pose proof (duration_parts_bounds (now - a) ltac:(lia)) as H; cbv zeta in H.
    eexists _, _. split; [reflexivity|]. lia.
  - intros inDate outDate [H|H]; unfold ParkingHistory.calculateDuration; rewrite H;
      [reflexivity|destruct (getTime inDate); reflexivity].
Qed.

Lemma calculateDuration_whole_minutes_witness :
  exists h m,
    ParkingHistory.calculateDuration Samples.getTime
      (ParkingHistory.in_date Samples.record1) (ParkingHistory.out_date Samples.record1) =
    String.append (pretty h) (String.append "h " (String.append (pretty m) "m")) /\
    0 <= h /\ 0 <= m < 60 /\
    (h * 60 + m) * 60000 <= 1746093600000 - 1746086400000 < (h * 60 + m + 1) * 60000.
Proof.
  apply (proj1 (calculateDuration_whole_minutes Samples.getTime)
           (ParkingHistory.in_date Samples.record1)
           (ParkingHistory.out_date Samples.record1)
           1746086400000 1746093600000); [reflexivity|reflexivity|lia].
Defined.



(** X18. [clearFilters] puts every filter back to its default and the page
    to 1.  If that changes the page, the status, a date or the sort, the
    refresh that follows sends a request with exactly the four default
    parameters (limit, page 1, sort by check-in date, descending) and no
    status or date, even when the date filter it clears could not be
    converted; if only the search text was set, no request is sent. *)
Theorem clearFilters_refetches_with_defaults
    getStoredToken toISOString net (w : ParkingHistory.W) :
  let click := ParkingHistory.on_event getStoredToken toISOString net
                 ParkingHistory.clearFilters in
  let s := state w in
  let s' := state (exec ParkingHistory.clearFilters w) in
  let defaults := (1, ParkingHistory.limit (ParkingHistory.pagination s),
                   "all", "", "", "in_date", "desc") in
  (ParkingHistory.searchTerm s' = "" /\ ParkingHistory.fetch_deps s' = defaults /\
   ParkingHistory.historyRecords s' = ParkingHistory.historyRecords s) /\
  (ParkingHistory.fetch_deps s = defaults ->
   requests (trace (exec click w)) = requests (trace w)) /\
  (forall tok,
     ParkingHistory.fetch_deps s <> defaults ->
     yields_token getStoredToken (storage w) tok -> truthy tok = true ->
     requests (trace (exec click w)) =
     requests (trace w) ++
     [EvFetch (mkUrl ParkingHistory.history_url
                 [("limit", QNum (ParkingHistory.limit (ParkingHistory.pagination s)));
                  ("page", QNum 1);
                  ("sortBy", QStr "in_date");
                  ("sortOrder", QStr "desc")])
        (bearer_init tok)]).
Proof.
  cbv zeta. destruct w as [[recs [t pg l ps] ld er st pst sd ed sb so] sto tr].
  cbn [state storage trace].
  split; [repeat split|]. split.
  - intros Hd. unfold ParkingHistory.on_event, ParkingHistory.clearFilters.
    run_handler. cbn [ParkingHistory.step ParkingHistory.pagination].
    rewrite bool_decide_eq_true_2 by exact Hd.
    run_handler. requests_norm. reflexivity.
  - intros tok Hd Htok Ht. unfold ParkingHistory.on_event, ParkingHistory.clearFilters.
    run_handler. cbn [ParkingHistory.step ParkingHistory.pagination].
    rewrite bool_decide_eq_false_2 by exact Hd.
    unfold ParkingHistory.fetchParkingHistory, ParkingHistory.build_params, ParkingHistory.iso.
    run_handler. rewrite Htok, Ht. run_handler.
    cbn [ParkingHistory.step ParkingHistory.startDate ParkingHistory.endDate
         ParkingHistory.selectedPaymentStatus ParkingHistory.pagination
         ParkingHistory.sortBy ParkingHistory.sortOrder ParkingHistory.limit
         ParkingHistory.page].
    change (String.eqb "all" "all") with true. cbn [negb truthy String.eqb].
    run_handler.
    repeat (break_match; run_handler).
    all: cbn [ParkingHistory.SortOrder_str]; requests_norm; reflexivity.
Qed.

Lemma clearFilters_refetches_with_defaults_witness :
  requests (trace (exec (ParkingHistory.on_event AuthGuarded.getStoredToken
                           (fun _ => Throw (ErrorObj "Invalid time value"))
                           (fun _ _ => Responded Samples.history_success)
                           ParkingHistory.clearFilters)
                     Samples.history_first_page)) =
  [EvFetch (mkUrl ParkingHistory.history_url
              [("limit", QNum 20); ("page", QNum 1);
               ("sortBy", QStr "in_date"); ("sortOrder", QStr "desc")])
     (bearer_init "abc")].
Proof.
  apply (proj2 (proj2 (clearFilters_refetches_with_defaults AuthGuarded.getStoredToken
                         (fun _ => Throw (ErrorObj "Invalid time value"))
                         (fun _ _ => Responded Samples.history_success)
                         Samples.history_first_page)) "abc").
  - discriminate.
  - intros st tr; reflexivity.
  - reflexivity.
Defined.

(** ** components/UsersManagement.tsx: the RFID modal and the users table *)

Lemma append_nonempty (a b : string) : a <> "" -> String.append a b <> "".
Proof.
  destruct a as [|c a]; [intros H; contradiction|].
  intros _ H. change (String c (String.append a b) = "") in H. discriminate H.
Qed.

Lemma or_else_nonempty (m fallback : string) : fallback <> "" -> or_else m fallback <> "".
Proof.
  intros Hf. unfold or_else. destruct (truthy m) eqn:E; [|exact Hf].
  apply truthy_true_iff; exact E.
Qed.

Lemma modal_errors_nonempty (fallback : string) (code : Z) (d : RfidModal.ErrorData) :
  message_or fallback (RfidModal.submit_error code d) <> "" /\
  message_or fallback (RfidModal.remove_error code d) <> "".
Proof.
  unfold RfidModal.submit_error, RfidModal.remove_error.
  split; repeat (destruct (_ =? _); [discriminate|]); cbn [message_or];
    destruct (RfidModal.message d);
    try apply or_else_nonempty; apply append_nonempty; discriminate.
Qed.

(** X19. When removing a tag is answered with a status outside 200-299,
    the modal stays open (its props are untouched and [onSuccess] is not
    called), shows a non-empty message and clears [loading]; a 400 reads
    that the user has no RFID assigned. *)
Theorem rfid_remove_failure_keeps_modal_open
    getStoredToken net (w : RfidModal.W) tok r user :
  yields_token getStoredToken (storage w) tok -> truthy tok = true ->
  UsersManagement.modal_user (RfidModal.props (state w)) = Some user ->
  answers net r -> r_ok r = false ->
  let w' := exec (RfidModal.handleRemoveRfid getStoredToken net) w in
  RfidModal.props (state w') = RfidModal.props (state w) /\
  (In (EvCallback "onSuccess") (trace w') -> In (EvCallback "onSuccess") (trace w)) /\
  RfidModal.isLoading (state w') = false /\
  (exists msg, RfidModal.error (state w') = Some msg /\ msg <> "") /\
  (r_status r = 400 ->
   RfidModal.error (state w') = Some "User doesn't have an RFID assigned.").
Proof.
  intros Htok Ht Hu Hnet Hok; cbv zeta.
  destruct w as [[pr v ld er] sto tr]; cbn [state storage trace RfidModal.props] in *.
  unfold RfidModal.handleRemoveRfid.
  repeat (run_handler; cbn [RfidModal.props negb];
          first [rewrite Hu|rewrite Htok|rewrite Ht|rewrite Hnet|rewrite Hok]).
  destruct (r_json r) as [d|e]; run_handler;
    cbn [RfidModal.step RfidModal.props RfidModal.isLoading RfidModal.error].
  all: split; [reflexivity|]; split; [intros Hin; no_new_push Hin|];
       split; [reflexivity|]; split;
       [eexists; split; [reflexivity|apply (proj2 (modal_errors_nonempty _ _ _))]|].
  all: intros ->; reflexivity.
Qed.

Lemma rfid_remove_failure_keeps_modal_open_witness :
  let w' := exec (RfidModal.handleRemoveRfid AuthGuarded.getStoredToken
                    (fun _ _ => Responded (mkResponse 400 (Throw NonError))))
              (Samples.modal_world "TAG-1") in
  UsersManagement.isOpen (RfidModal.props (state w')) = true /\
  RfidModal.error (state w') = Some "User doesn't have an RFID assigned.".
Proof.
  destruct (rfid_remove_failure_keeps_modal_open AuthGuarded.getStoredToken
              (fun _ _ => Responded (mkResponse 400 (Throw NonError)))
              (Samples.modal_world "TAG-1") "abc" (mkResponse 400 (Throw NonError))
              Samples.user1) as (Hp & _ & _ & _ & H400).
  - intros st tr; reflexivity.
  - reflexivity.
  - reflexivity.
  - intros u init; reflexivity.
  - reflexivity.
  - split; [rewrite Hp; reflexivity|apply H400; reflexivity].
Defined.

(** X20. When a tag that does not trim to the empty string is submitted
    and the request is answered with a status outside 200-299, the modal
    stays open, shows a non-empty message and clears [loading]; a 409
    reads that the RFID is already assigned to another user.  This holds
    whatever the platform's [trim] removes. *)
Theorem rfid_submit_failure_keeps_modal_open
    (trim : string -> string) getStoredToken net (w : RfidModal.W) tok r user :
  yields_token getStoredToken (storage w) tok -> truthy tok = true ->
  UsersManagement.modal_user (RfidModal.props (state w)) = Some user ->
  trim (RfidModal.rfidValue (state w)) <> "" ->
  answers net r -> r_ok r = false ->
  let w' := exec (RfidModal.handleSubmit trim getStoredToken net) w in
  RfidModal.props (state w') = RfidModal.props (state w) /\
  (In (EvCallback "onSuccess") (trace w') -> In (EvCallback "onSuccess") (trace w)) /\
  RfidModal.isLoading (state w') = false /\
  (exists msg, RfidModal.error (state w') = Some msg /\ msg <> "") /\
  (r_status r = 409 ->
   RfidModal.error (state w') = Some "RFID already assigned to another user.").
Proof.
  intros Htok Ht Hu Hv Hnet Hok; cbv zeta.
  apply truthy_true_iff in Hv.
  destruct w as [[pr v ld er] sto tr];
    cbn [state storage trace RfidModal.props RfidModal.rfidValue] in *.
  unfold RfidModal.handleSubmit.
  repeat (run_handler; cbn [RfidModal.props RfidModal.rfidValue negb];
          first [rewrite Hu|rewrite Hv|rewrite Htok|rewrite Ht|rewrite Hnet|rewrite Hok]).
  destruct (r_json r) as [d|e]; run_handler;
    cbn [RfidModal.step RfidModal.props RfidModal.isLoading RfidModal.error].
  all: split; [reflexivity|]; split; [intros Hin; no_new_push Hin|];
       split; [reflexivity|]; split;
       [eexists; split; [reflexivity|apply (proj1 (modal_errors_nonempty _ _ _))]|].
  all: intros ->; reflexivity.
Qed.

Lemma rfid_submit_failure_keeps_modal_open_witness :
  let w' := exec (RfidModal.handleSubmit AsciiStrings.trim AuthGuarded.getStoredToken
                    (fun _ _ => Responded
                       (mkResponse 409 (Normal (RfidModal.mkErrorData None)))))
              (Samples.modal_world " TAG-1 ") in
  UsersManagement.isOpen (RfidModal.props (state w')) = true /\
  RfidModal.error (state w') = Some "RFID already assigned to another user.".
Proof.
  destruct (rfid_submit_failure_keeps_modal_open AsciiStrings.trim
              AuthGuarded.getStoredToken
              (fun _ _ => Responded
                 (mkResponse 409 (Normal (RfidModal.mkErrorData None))))
              (Samples.modal_world " TAG-1 ") "abc"
              (mkResponse 409 (Normal (RfidModal.mkErrorData None)))
              Samples.user1) as (Hp & _ & _ & _ & H409).
  - intros st tr; reflexivity.
  - reflexivity.
  - reflexivity.
  - discriminate.
  - intros u init; reflexivity.
  - reflexivity.
  - split; [rewrite Hp; reflexivity|apply H409; reflexivity].
Defined.

(** X21. A tag that does not trim to the empty string and that the backend
    accepts is sent once: a [POST] to
    [https://smartpark-backend.vercel.app/api/users/admin/rfid] whose body
    holds the user's id and the tag as the platform's [trim] returns it,
    with the headers [Authorization: Bearer <token>] and [Content-Type:
    application/json]; then [onSuccess] is called, the modal is closed, no
    error is shown and [loading] is cleared. *)
Theorem rfid_submit_success_sends_trimmed_tag
    (trim : string -> string) getStoredToken net (w : RfidModal.W) tok r user :
  yields_token getStoredToken (storage w) tok -> truthy tok = true ->
  UsersManagement.modal_user (RfidModal.props (state w)) = Some user ->
  trim (RfidModal.rfidValue (state w)) <> "" ->
  answers net r -> r_ok r = true ->
  let w' := exec (RfidModal.handleSubmit trim getStoredToken net) w in
  trace w' =
    trace w ++
    [EvPreventDefault;
     EvSet (RfidModal.SetIsLoading true); EvSet (RfidModal.SetError None);
     EvFetch (mkUrl "https://smartpark-backend.vercel.app/api/users/admin/rfid" [])
       (mkInit (Some "POST")
          (Some (HRecord (<["Authorization" := String.append "Bearer " tok]>
                            {[ "Content-Type" := "application/json" ]})))
          (Some [("userID", UsersManagement.userID user);
                 ("rfid", trim (RfidModal.rfidValue (state w)))]));
     EvCallback "onSuccess"; EvSet RfidModal.OnClose;
     EvSet (RfidModal.SetIsLoading false)] /\
  UsersManagement.isOpen (RfidModal.props (state w')) = false /\
  RfidModal.error (state w') = None /\
  RfidModal.isLoading (state w') = false.
Proof.
  intros Htok Ht Hu Hv Hnet Hok; cbv zeta.
  apply truthy_true_iff in Hv.
  destruct w as [[pr v ld er] sto tr];
    cbn [state storage trace RfidModal.props RfidModal.rfidValue] in *.
  unfold RfidModal.handleSubmit. run_handler.
  cbn [RfidModal.props RfidModal.rfidValue]. rewrite Hu, Hv. cbn [negb].
  run_handler. rewrite Htok, Ht. run_handler. rewrite Hnet. run_handler.
  rewrite Hok. cbn [negb]. run_handler.
  cbn [RfidModal.step RfidModal.props RfidModal.isLoading RfidModal.error
       UsersManagement.isOpen].
  split; [|repeat split]. rewrite <- !app_assoc. reflexivity.
Qed.

Lemma rfid_submit_success_sends_trimmed_tag_witness :
  requests (trace (exec (RfidModal.handleSubmit AsciiStrings.trim
                           AuthGuarded.getStoredToken
                           (fun _ _ => Responded (mkResponse 200 (Throw NonError))))
                     (Samples.modal_world " TAG-1 "))) =
  [EvFetch (mkUrl "https://smartpark-backend.vercel.app/api/users/admin/rfid" [])
     (mkInit (Some "POST")
        (Some (HRecord (<["Authorization" := "Bearer abc"]>
                          {[ "Content-Type" := "application/json" ]})))
        (Some [("userID", "u1"); ("rfid", "TAG-1")]))].
Proof.
  destruct (rfid_submit_success_sends_trimmed_tag AsciiStrings.trim
              AuthGuarded.getStoredToken
              (fun _ _ => Responded (mkResponse 200 (Throw NonError)))
              (Samples.modal_world " TAG-1 ") "abc" (mkResponse 200 (Throw NonError))
              Samples.user1) as (Htr & _).
  - intros st tr; reflexivity.
  - reflexivity.
  - reflexivity.
  - discriminate.
  - intros u init; reflexivity.
  - reflexivity.
  - rewrite Htr. reflexivity.
Defined.

Ltac closes_only_on_ok :=
  first
    [ let Hc := fresh "Hc" in intros Hc; exfalso; apply Hc; reflexivity
    | intros _;
      match goal with
      | Hn : ?net ?u ?i = Responded ?r, Hok : negb (r_ok ?r) = false |- _ =>
          exists u, i, r; apply negb_false_iff in Hok; split; [exact Hn|exact Hok]
      end ].

(** X22. The modal's props change (the modal closes) during a submit or a
    remove only if the request was answered with a 2xx status: with no
    token, a rejected request or any other status the modal stays as it
    was opened. *)
Theorem rfid_modal_closes_only_on_success
    (trim : string -> string) getStoredToken net (w : RfidModal.W) :
  token_reader getStoredToken ->
  (RfidModal.props (state (exec (RfidModal.handleSubmit trim getStoredToken net) w)) <>
   RfidModal.props (state w) ->
   exists u init r, net u init = Responded r /\ r_ok r = true) /\
  (RfidModal.props (state (exec (RfidModal.handleRemoveRfid getStoredToken net) w)) <>
   RfidModal.props (state w) ->
   exists u init r, net u init = Responded r /\ r_ok r = true).
Proof.
  intros Hreader. destruct w as [[pr v ld er] sto tr].
  split.
  - unfold RfidModal.handleSubmit. run_handler. cbn [RfidModal.props RfidModal.rfidValue].
    destruct (UsersManagement.modal_user pr) as [user|]; [|closes_only_on_ok].
    destruct (truthy (trim v)); cbn [negb]; [|closes_only_on_ok].
    run_handler. use_reader Hreader.
    destruct res as [[tok|]|e]; run_handler;
      [destruct (truthy tok) eqn:Ht; run_handler| |];
      repeat (break_match; run_handler);
      cbn [RfidModal.step RfidModal.props]; closes_only_on_ok.
  - unfold RfidModal.handleRemoveRfid. run_handler. cbn [RfidModal.props].
    destruct (UsersManagement.modal_user pr) as [user|]; [|closes_only_on_ok].
    run_handler. use_reader Hreader.
    destruct res as [[tok|]|e]; run_handler;
      [destruct (truthy tok) eqn:Ht; run_handler| |];
      repeat (break_match; run_handler);
      cbn [RfidModal.step RfidModal.props]; closes_only_on_ok.
Qed.

Lemma rfid_modal_closes_only_on_success_witness :
  exists u init r,
    Responded (mkResponse 204 (Throw NonError)) = Responded r /\
    r_ok (B:=RfidModal.ErrorData) r = true /\
    u = mkUrl (String.append RfidModal.rfid_url "/u1") [] /\
    init = RfidModal.delete_init "abc".
Proof.
  destruct (proj2 (rfid_modal_closes_only_on_success AsciiStrings.trim
                     AuthGuarded.getStoredToken
                     (fun _ _ => Responded (mkResponse 204 (Throw NonError)))
                     (Samples.modal_world "TAG-1") (proj1 auth_token_readers)))
    as (u & init & r & Hr & Hok).
  - intros H; vm_compute in H; discriminate H.
  - exists (mkUrl (String.append RfidModal.rfid_url "/u1") []),
      (RfidModal.delete_init "abc"), r.
    repeat split; assumption.
Defined.

(** X23. Opening the modal from a user's row passes that user down with
    the modal open, in edit mode exactly when the user has a non-empty
    RFID; the modal's open effect then puts the user's current tag (or
    nothing) in the input and clears a stale error, so a modal opened in
    add mode starts with an empty value. *)
Theorem rfid_modal_opens_prefilled
    (user : UsersManagement.User) (w : UsersManagement.W)
    (stale_value : string) (stale_error : option string) (ld : bool) :
  let m := UsersManagement.rfidModal
             (state (exec (UsersManagement.handleRfidAction user) w)) in
  let opened : RfidModal.W :=
    exec RfidModal.open_effect
      (mkWorld (RfidModal.mkState m stale_value ld stale_error) (storage w) []) in
  UsersManagement.isOpen m = true /\
  UsersManagement.modal_user m = Some user /\
  (UsersManagement.mode m = UsersManagement.edit <->
   exists tag, UsersManagement.rfid user = Some tag /\ tag <> "") /\
  RfidModal.rfidValue (state opened) = default "" (UsersManagement.rfid user) /\
  RfidModal.error (state opened) = None /\
  RfidModal.props (state opened) = m /\
  (UsersManagement.mode m = UsersManagement.add ->
   RfidModal.rfidValue (state opened) = "").
Proof.
  cbv zeta. destruct w as [[us l er st sr rm] sto tr].
  unfold UsersManagement.handleRfidAction, RfidModal.open_effect. run_handler.
  cbn [UsersManagement.step UsersManagement.rfidModal UsersManagement.isOpen
       UsersManagement.modal_user UsersManagement.mode RfidModal.props].
  run_handler. cbn [RfidModal.step RfidModal.rfidValue RfidModal.error RfidModal.props].
  split; [reflexivity|]. split; [reflexivity|].
  destruct (UsersManagement.rfid user) as [tag|]; cbn [truthy_opt default].
  - unfold or_else. destruct (truthy tag) eqn:Ht.
    + split; [split; [intros _; exists tag; split;
                      [reflexivity|apply truthy_true_iff; exact Ht]|reflexivity]|].
      repeat split. intros H; discriminate H.
    + apply truthy_false_iff in Ht. subst tag.
      split; [split; [intros H; discriminate H
                     |intros (tag & H & Hne); injection H as <-; contradiction]|].
      repeat split.
  - split; [split; [intros H; discriminate H|intros (tag & H & _); discriminate H]|].
    repeat split.
Qed.

(** X24. Whatever the platform's [toLowerCase] does to letters, the users
    table keeps a user when the lower-cased search text occurs in the
    lower-cased name, email, or plate or description of one of the user's
    vehicles, and the role selector is ["all"] or equals the user's role.
    With an empty search text (which lower-cases to itself) and the
    selector on ["all"], every user is listed. *)
Theorem users_filter_matches_any_field
    (toLowerCase : string -> string) (s : UsersManagement.State) :
  let occurs_in (field : string) : Prop :=
    includes (toLowerCase field) (toLowerCase (UsersManagement.searchTerm s)) = true in
  (forall user,
     In user (UsersManagement.filteredUsers toLowerCase s) <->
     In user (UsersManagement.users s) /\
     (occurs_in (UsersManagement.username user) \/
      occurs_in (UsersManagement.email user) \/
      exists vehicle,
        In vehicle (UsersManagement.vehicles user) /\
        (occurs_in (UsersManagement.plate vehicle) \/
         occurs_in (UsersManagement.description vehicle))) /\
     (UsersManagement.selectedRole s = "all" \/
      UsersManagement.role user = UsersManagement.selectedRole s)) /\
  (toLowerCase "" = "" ->
   UsersManagement.searchTerm s = "" -> UsersManagement.selectedRole s = "all" ->
   UsersManagement.filteredUsers toLowerCase s = UsersManagement.users s).
Proof.
  cbv zeta. split.
  - intros user. unfold UsersManagement.filteredUsers.
    rewrite List.filter_In, andb_true_iff, !orb_true_iff, existsb_exists, !String.eqb_eq.
    split; intros (Hin & Hs & Hr); (split; [exact Hin|split; [|exact Hr]]).
    + destruct Hs as [[H|H]|(v & Hv & H)]; auto.
      right; right. exists v. split; [exact Hv|]. apply orb_true_iff in H. exact H.
    + destruct Hs as [H|[H|(v & Hv & H)]]; auto.
      right. exists v. split; [exact Hv|]. apply orb_true_iff. exact H.
  - intros Hlc Hs Hr. unfold UsersManagement.filteredUsers.
    rewrite Hs, Hr, Hlc.
    induction (UsersManagement.users s) as [|u l IH]; cbn; [reflexivity|].
    rewrite !includes_empty. cbn. f_equal. exact IH.
Qed.

Lemma users_filter_matches_any_field_witness :
  UsersManagement.filteredUsers AsciiStrings.toLowerCase (state Samples.users_world) =
  [Samples.user1] /\
  In Samples.user1
    (UsersManagement.filteredUsers AsciiStrings.toLowerCase
       (UsersManagement.step (UsersManagement.SetSearchTerm "RED")
          (state Samples.users_world))).
Proof.
  split.
  - apply (proj2 (users_filter_matches_any_field AsciiStrings.toLowerCase
                    (state Samples.users_world))); reflexivity.
  - apply (proj1 (users_filter_matches_any_field AsciiStrings.toLowerCase
                    (UsersManagement.step (UsersManagement.SetSearchTerm "RED")
                       (state Samples.users_world)))).
    split; [left; reflexivity|]. split; [|left; reflexivity].
    right; right. exists (UsersManagement.mkVehicle "B 1234 XY" "Red Car").
    split; [left; reflexivity|right; reflexivity].
Defined.

Lemma disjoint_filters_count {A} (p q : A -> bool) (l : list A) :
  (forall x, p x && q x = false) ->
  (length (List.filter p l) + length (List.filter q l) <= length l)%nat /\
  ((length (List.filter p l) + length (List.filter q l) = length l)%nat <->
   forall x, In x l -> p x = true \/ q x = true).
Proof.
  intros Hd. induction l as [|a l [IHle IHeq]]; cbn.
  - split; [lia|]. split; [intros _ x []|reflexivity].
  - specialize (Hd a) as Ha.
    destruct (p a) eqn:Hp, (q a) eqn:Hq; cbn in *; try discriminate Ha.
    + split; [lia|]. split.
      * intros H x [<-|Hx]; [left; exact Hp|]. apply IHeq; [lia|exact Hx].
      * intros H. f_equal. apply IHeq. intros x Hx. apply H. right; exact Hx.
    + split; [lia|]. split.
      * intros H x [<-|Hx]; [right; exact Hq|]. apply IHeq; [lia|exact Hx].
      * intros H. rewrite Nat.add_succ_r. f_equal. apply IHeq.
        intros x Hx. apply H. right; exact Hx.
    + split; [lia|]. split.
      * intros H. lia.
      * intros H. destruct (H a (or_introl eq_refl)) as [E|E]; congruence.
Qed.

(** X25. The two status cards of the history view never count a record
    twice: paid plus pending is at most the number of records on the page,
    and equals it exactly when every record's status is ["paid"] or
    ["pending"].  The same holds for the user and admin counters of the
    users view with respect to the roles ["user"] and ["admin"]. *)
Theorem status_counters_partition :
  (forall s : ParkingHistory.State,
     (ParkingHistory.paidCount s + ParkingHistory.pendingCount s <=
      length (ParkingHistory.historyRecords s))%nat /\
     ((ParkingHistory.paidCount s + ParkingHistory.pendingCount s =
       length (ParkingHistory.historyRecords s))%nat <->
      forall r, In r (ParkingHistory.historyRecords s) ->
                ParkingHistory.payment_status r = "paid" \/
                ParkingHistory.payment_status r = "pending")) /\
  (forall s : UsersManagement.State,
     (UsersManagement.regularCount s + UsersManagement.adminCount s <=
      length (UsersManagement.users s))%nat /\
     ((UsersManagement.regularCount s + UsersManagement.adminCount s =
       length (UsersManagement.users s))%nat <->
      forall u, In u (UsersManagement.users s) ->
                UsersManagement.role u = "user" \/ UsersManagement.role u = "admin")).
Proof.
  split; intros s.
  - unfold ParkingHistory.paidCount, ParkingHistory.pendingCount.
    destruct (disjoint_filters_count
                (fun r => String.eqb (ParkingHistory.payment_status r) "paid")
                (fun r => String.eqb (ParkingHistory.payment_status r) "pending")
                (ParkingHistory.historyRecords s)) as [Hle Heq].
    { intros x. destruct (String.eqb_spec (ParkingHistory.payment_status x) "paid") as [E|E];
        [rewrite E; reflexivity|reflexivity]. }
    split; [exact Hle|]. rewrite Heq.
    split; intros H r Hr; specialize (H r Hr); rewrite !String.eqb_eq in *; exact H.
  - unfold UsersManagement.regularCount, UsersManagement.adminCount.
    destruct (disjoint_filters_count
                (fun u => String.eqb (UsersManagement.role u) "user")
                (fun u => String.eqb (UsersManagement.role u) "admin")
                (UsersManagement.users s)) as [Hle Heq].
    { intros x. destruct (String.eqb_spec (UsersManagement.role x) "user") as [E|E];
        [rewrite E; reflexivity|reflexivity]. }
    split; [exact Hle|]. rewrite Heq.
    split; intros H r Hr; specialize (H r Hr); rewrite !String.eqb_eq in *; exact H.
Qed.

(** ** app/dashboard/page.tsx *)

(** X26. With the guarded Auth Store, the dashboard's mount effect either
    redirects or shows the page, never both: when [isAuthenticated] answers
    [true] it stores the parsed user record in the page state, clears
    [isLoading] and pushes nothing; otherwise its last act is the push to
    [/login] and the page state stays as it was (still loading). *)
Theorem dashboard_mount_guard JSON_parse (w : Dashboard.W) :
  let w' := exec (Dashboard.AdminDashboard_effect
                    (AuthGuarded.getStoredUser JSON_parse)
                    (AuthGuarded.redirectIfNotAuthenticated JSON_parse)) w in
  (outcome (AuthGuarded.isAuthenticated JSON_parse) w = Normal true ->
   Dashboard.isLoading (state w') = false /\
   outcome (AuthGuarded.getStoredUser JSON_parse) w = Normal (Dashboard.user (state w')) /\
   truthy_json (Dashboard.user (state w')) = true /\
   (forall path, In (EvPush path) (trace w') -> In (EvPush path) (trace w))) /\
  (outcome (AuthGuarded.isAuthenticated JSON_parse) w <> Normal true ->
   state w' = state w /\ last (trace w') = Some (EvPush "/login")) /\
  storage w' = storage w.
Proof.
  cbv zeta. rewrite guarded_isAuthenticated_reads.
  destruct (holds_admin_session JSON_parse (storage w)) eqn:Hs.
  - split; [intros _|split; [intros H; exfalso; apply H; reflexivity|]].
    + apply holds_admin_session_true in Hs
        as (items & tok & str & v & Hsto & Ht & Hne & Hu & Hse & Hp & Hv & Hr).
      destruct w as [[u ld av] sto tr]; cbn [storage state trace] in *. subst sto.
      apply truthy_true_iff in Hne, Hse. apply strict_eq_str_true in Hr.
      unfold Dashboard.AdminDashboard_effect, AuthGuarded.redirectIfNotAuthenticated,
        AuthGuarded.isAuthenticated, AuthGuarded.getStoredToken,
        AuthGuarded.getStoredUser, window_undefined, localStorage_getItem, router_push.
      run_handler. rewrite Ht, Hu, Hse, Hp. run_handler.
      cbn [truthy_opt]. rewrite Hne, Hv, Hr. cbn [andb negb]. run_handler.
      rewrite Hu, Hse, Hp. run_handler.
      cbn [Dashboard.step Dashboard.isLoading Dashboard.user].
      split; [reflexivity|]. split; [reflexivity|]. split; [exact Hv|].
      intros path Hin. no_new_push Hin.
    + apply holds_admin_session_true in Hs
        as (items & tok & str & v & Hsto & Ht & Hne & Hu & Hse & Hp & Hv & Hr).
      destruct w as [[u ld av] sto tr]; cbn [storage state trace] in *. subst sto.
      apply truthy_true_iff in Hne, Hse. apply strict_eq_str_true in Hr.
      unfold Dashboard.AdminDashboard_effect, AuthGuarded.redirectIfNotAuthenticated,
        AuthGuarded.isAuthenticated, AuthGuarded.getStoredToken,
        AuthGuarded.getStoredUser, window_undefined, localStorage_getItem, router_push.
      run_handler. rewrite Ht, Hu, Hse, Hp. run_handler.
      cbn [truthy_opt]. rewrite Hne, Hv, Hr. cbn [andb negb]. run_handler.
      rewrite Hu, Hse, Hp. run_handler. reflexivity.
  - destruct (page_guard_redirects JSON_parse w Hs) as (H1 & H2 & H3).
    split; [intros H; discriminate H|]. split; [intros _; split; assumption|exact H2].
Qed.

Lemma dashboard_mount_guard_witness :
  let w' := exec (Dashboard.AdminDashboard_effect
                    (AuthGuarded.getStoredUser JsonSubset.JSON_parse)
                    (AuthGuarded.redirectIfNotAuthenticated JsonSubset.JSON_parse))
              (Samples.dashboard_world Samples.admin_session) in
  Dashboard.isLoading (state w') = false /\
  prop (Dashboard.user (state w')) "username" = Some (JStr "Siti").
Proof.
  destruct (proj1 (dashboard_mount_guard JsonSubset.JSON_parse
                     (Samples.dashboard_world Samples.admin_session)) eq_refl)
    as (Hl & _).
  split; [exact Hl|reflexivity].
Defined.

(** X27. Logging out from the dashboard never fails: it empties the
    session (no token can be read afterwards, other storage entries are
    kept) and ends with the push to [/login]; a dashboard mounted after
    that redirects again and stays on its loading screen. *)
Theorem logout_then_mount_redirects JSON_parse (w : Dashboard.W) :
  let w1 := exec (Dashboard.handleLogout AuthGuarded.removeStoredAuth) w in
  let w2 := exec (Dashboard.AdminDashboard_effect
                    (AuthGuarded.getStoredUser JSON_parse)
                    (AuthGuarded.redirectIfNotAuthenticated JSON_parse)) w1 in
  outcome (Dashboard.handleLogout AuthGuarded.removeStoredAuth) w = Normal tt /\
  last (trace w1) = Some (EvPush "/login") /\
  stored_token (storage w1) = None /\
  state w1 = state w /\
  (forall items, storage w = Local items ->
     storage w1 = Local (delete "user" (delete "token" items))) /\
  state w2 = state w /\
  last (trace w2) = Some (EvPush "/login").
Proof.
  cbv zeta.
  assert (Hrun : exists logs sto1,
             Dashboard.handleLogout AuthGuarded.removeStoredAuth w =
             (Normal tt, mkWorld (state w) sto1 ((trace w ++ logs) ++ [EvPush "/login"])) /\
             stored_token sto1 = None /\
             (forall items, storage w = Local items ->
                sto1 = Local (delete "user" (delete "token" items)))).
  { destruct w as [s [|e|items] tr];
      unfold Dashboard.handleLogout, AuthGuarded.removeStoredAuth, window_undefined,
        localStorage_removeItem, router_push; run_handler.
    - exists [], NoWindow. rewrite app_nil_r.
      split; [reflexivity|]. split; [reflexivity|]. intros items H; discriminate H.
    - eexists _, (Blocked e).
      split; [reflexivity|]. split; [reflexivity|]. intros items H; discriminate H.
    - exists [], (Local (delete "user" (delete "token" items))). rewrite app_nil_r.
      split; [reflexivity|]. split.
      + cbn. rewrite lookup_delete_ne by discriminate. apply lookup_delete_eq.
      + intros items' H; injection H as <-; reflexivity. }
  destruct Hrun as (logs & sto1 & Hrun & Hnone & Hlocal).
  assert (Hw1 : exec (Dashboard.handleLogout AuthGuarded.removeStoredAuth) w =
                mkWorld (state w) sto1 ((trace w ++ logs) ++ [EvPush "/login"]))
    by (unfold exec; rewrite Hrun; reflexivity).
  assert (Hout : outcome (Dashboard.handleLogout AuthGuarded.removeStoredAuth) w = Normal tt)
    by (unfold outcome; rewrite Hrun; reflexivity).
  rewrite Hw1, Hout. cbn [state storage trace].
  split; [reflexivity|]. split; [apply last_snoc|]. split; [exact Hnone|].
  split; [reflexivity|]. split; [exact Hlocal|].
  assert (Hs : holds_admin_session JSON_parse sto1 = false).
  { destruct sto1 as [|e|items]; try reflexivity.
    cbn in Hnone. cbn. rewrite Hnone. reflexivity. }
  destruct (page_guard_redirects JSON_parse
              (mkWorld (state w) sto1 ((trace w ++ logs) ++ [EvPush "/login"])) Hs)
    as (H1 & _ & H3).
  split; [exact H1|exact H3].
Qed.

(** ** components/NotFoundPage.tsx *)

(** X28. The guarded mount effect of the not-found page always completes
    with [isLoading] cleared, even when the token lookup throws, whereas the
    other revision on the unguarded Auth Store throws with blocked storage
    and leaves the page as it was (loading).  With the
    guarded Auth Store, Go to Homepage and the shortcut then lead to
    [/dashboard] exactly when a non-empty token is stored (whatever the
    stored user's role), and to [/] and [/login] otherwise. *)
Theorem not_found_page_targets (w : NotFoundPage.W) :
  (forall getStoredToken,
     outcome (NotFoundPage.mount_effect getStoredToken) w = Normal tt /\
     NotFoundPage.isLoading (state (exec (NotFoundPage.mount_effect getStoredToken) w)) = false) /\
  (forall e,
     storage w = Blocked e ->
     outcome (NotFoundPage.mount_effect_unguarded AuthPlain.getStoredToken) w = Throw e /\
     state (exec (NotFoundPage.mount_effect_unguarded AuthPlain.getStoredToken) w) =
     state w) /\
  (let mounted := exec (NotFoundPage.mount_effect AuthGuarded.getStoredToken) w in
   let logged_in := truthy_opt (stored_token (storage w)) in
   NotFoundPage.isLoggedIn (state mounted) = logged_in /\
   last (trace (exec NotFoundPage.handleGoHome mounted)) =
     Some (EvPush (if logged_in then "/dashboard" else "/")) /\
   last (trace (exec NotFoundPage.shortcut_click mounted)) =
     Some (EvPush (if logged_in then "/dashboard" else "/login"))).
Proof.
  split; [|split].
  - intros g. unfold NotFoundPage.mount_effect.
    rewrite finally_dispatch_outcome, finally_dispatch_runs_last. cbn [state].
    split; [|reflexivity].
    unfold outcome, try_catch, mbind, M_bind, bind.
    destruct (g w) as [[tok|e] w1]; reflexivity.
  - intros e Hs. destruct w as [s sto tr]; cbn [storage] in Hs; subst sto.
    split; reflexivity.
  - cbv zeta. destruct w as [[li ld] [|e|items] tr];
      unfold NotFoundPage.mount_effect, NotFoundPage.handleGoHome,
        NotFoundPage.shortcut_click, NotFoundPage.handleNavigation,
        AuthGuarded.getStoredToken, window_undefined, localStorage_getItem, router_push;
      run_handler; cbn [NotFoundPage.step NotFoundPage.isLoggedIn NotFoundPage.isLoading
                        stored_token truthy_opt].
    + repeat split; apply last_snoc.
    + repeat split; apply last_snoc.
    + destruct (truthy_opt (items !! "token")); run_handler;
        repeat split; apply last_snoc.
Qed.
